(** * ACR transfer extension: pipelines, pipeline runs and their validators

    A shallow embedding of [azext_acrtransfer]: the argument validators
    ([_validators.py]), the import and export pipeline commands
    ([importpipeline.py], [exportpipeline.py]) and the pipeline-run commands
    ([pipelinerun.py]).

    Python values are modelled as follows.
    - [str] is [string]; a character stands for the code point of the same
      number, so the model covers text whose code points are below 256.
    - [None] is the [None] of an [option].
    - A command runs in a state-and-exception monad: the state holds the
      object the command mutates (the argument namespace, or the remote
      service behind the management client) and the chronological log of
      what the command did (calls on the client, warnings emitted).  The
      state survives a raised exception, as a Python object mutated before
      a [raise] does.
    - The iterable that a [list] call of the client returns is a suspended
      request: the service is asked when the iterable is consumed, not when
      it is created. *)

From Stdlib Require Import String Ascii List ZArith NArith Lia Bool
  DecimalString.
Import ListNotations.
Local Open Scope string_scope.
Local Open Scope Z_scope.

(** ** Python string operations *)

Module PyStr.

(** [str.lower] on one character: the ASCII capitals and the Latin-1
    capitals (U+00C0..U+00DE without the multiplication sign U+00D7) move 32
    code points up. *)
Definition lower_char (c : ascii) : ascii :=
  let n := N_of_ascii c in
  if (((65 <=? n) && (n <=? 90)) ||
      ((192 <=? n) && (n <=? 222) && negb (n =? 215)))%N
  then ascii_of_N (n + 32) else c.

(** [s.lower()] *)
Fixpoint lower (s : string) : string :=
  match s with
  | EmptyString => EmptyString
  | String c s' => String (lower_char c) (lower s')
  end.

(** [sub in s] for two strings: [sub] occurs in [s] as a substring. *)
Fixpoint str_in (sub s : string) : bool :=
  String.prefix sub s ||
  match s with
  | EmptyString => false
  | String _ s' => str_in sub s'
  end.

(** [s.split(sep)] for a separator of one character. *)
Fixpoint split (sep : ascii) (s : string) : list string :=
  match s with
  | EmptyString => [EmptyString]
  | String c s' =>
      if Ascii.eqb c sep then EmptyString :: split sep s'
      else match split sep s' with
           | [] => [String c EmptyString]
           | h :: t => String c h :: t
           end
  end.

(** [", ".join(l)] and friends. *)
Fixpoint join (sep : string) (l : list string) : string :=
  match l with
  | [] => EmptyString
  | [x] => x
  | x :: l' => x ++ sep ++ join sep l'
  end.

(** A string is truthy when it is not empty. *)
Definition truthy (s : string) : bool :=
  match s with EmptyString => false | _ => true end.

(** The white space [int] passes over around a literal, below code point
    256: the six characters of C's [isspace], and the two Unicode spaces
    U+0085 and U+00A0, which [int] turns into blanks first.  The separators
    U+001C to U+001F, for which [str.isspace] holds as well, are not among
    them. *)
Definition int_space (c : ascii) : bool :=
  let n := N_of_ascii c in
  (((9 <=? n) && (n <=? 13)) || (n =? 32) || (n =? 133) || (n =? 160))%N.

Definition digit_of (c : ascii) : option Z :=
  let n := N_of_ascii c in
  if ((48 <=? n) && (n <=? 57))%N then Some (Z.of_N n - 48) else None.

Fixpoint skip_space (s : string) : string :=
  match s with
  | EmptyString => EmptyString
  | String c s' => if int_space c then skip_space s' else s
  end.

Fixpoint all_space (s : string) : bool :=
  match s with
  | EmptyString => true
  | String c s' => int_space c && all_space s'
  end.

(** The run of digits and underscores at the head of [s]: its value, the
    number of its digits and the text after it.  [prev_underscore] tells
    that the character before [s] was an underscore; two underscores in a
    row, or one at the end of the run, are an error. *)
Fixpoint scan_digits (s : string) (prev_underscore : bool) (acc : Z)
    (digits : nat) : option (Z * nat * string) :=
  match s with
  | EmptyString =>
      if prev_underscore then None else Some (acc, digits, EmptyString)
  | String c s' =>
      match digit_of c with
      | Some d => scan_digits s' false (10 * acc + d) (S digits)
      | None =>
          if Ascii.eqb c "_" then
            if prev_underscore then None else scan_digits s' true acc digits
          else
            if prev_underscore then None else Some (acc, digits, s)
      end
  end.

(** [sys.get_int_max_str_digits()], at its default. *)
Definition int_max_str_digits : nat := 4300.

(** What [int(s)] does with a string. *)
Inductive int_outcome : Type :=
| IntValue (n : Z)
| InvalidLiteral
| ExceedsLimit (digits : nat).

(** The sign before the digits: whether it is a minus, and the text after
    it. *)
Definition split_sign (s : string) : bool * string :=
  match s with
  | String c r =>
      if Ascii.eqb c "-" then (true, r)
      else if Ascii.eqb c "+" then (false, r)
      else (false, s)
  | EmptyString => (false, s)
  end.

(** [int(s)] for a string of code points below 256, as CPython 3.11 reads
    it: white space, an optional sign, decimal digits with single
    underscores between them, white space.  The number of digits is checked
    against the limit as soon as the digits are read, before the text after
    them is looked at. *)
Definition int_outcome_of (s : string) : int_outcome :=
  let '(negative, s2) := split_sign (skip_space s) in
  if String.prefix "_" s2 then InvalidLiteral
  else
    match scan_digits s2 false 0 0 with
    | None => InvalidLiteral
    | Some (value, digits, rest) =>
        if (int_max_str_digits <? digits)%nat then ExceedsLimit digits
        else if (digits =? 0)%nat then InvalidLiteral
        else if all_space rest
             then IntValue (if negative then - value else value)
             else InvalidLiteral
    end.

(** The value of [int(s)]; [None] stands for the [ValueError] Python
    raises. *)
Definition int (s : string) : option Z :=
  match int_outcome_of s with
  | IntValue n => Some n
  | _ => None
  end.

(** The double-quote character as a string. *)
Definition dq : string := String (ascii_of_nat 34) EmptyString.

Definition backslash : ascii := ascii_of_nat 92.

Fixpoint has_char (c : ascii) (s : string) : bool :=
  match s with
  | EmptyString => false
  | String c' s' => Ascii.eqb c' c || has_char c s'
  end.

(** [str.isprintable] for one character below code point 256. *)
Definition printable (c : ascii) : bool :=
  let n := N_of_ascii c in
  (((32 <=? n) && (n <? 127)) || ((161 <=? n) && negb (n =? 173)))%N.

Definition hex_digit (n : N) : ascii :=
  match String.get (N.to_nat n) "0123456789abcdef" with
  | Some c => c
  | None => "0"%char
  end.

(** One character of a string as [repr] writes it between quotes. *)
Definition repr_char (quote c : ascii) : string :=
  let n := N_of_ascii c in
  if Ascii.eqb c quote || Ascii.eqb c backslash
  then String backslash (String c EmptyString)
  else if (n =? 9)%N then String backslash "t"
  else if (n =? 10)%N then String backslash "n"
  else if (n =? 13)%N then String backslash "r"
  else if printable c then String c EmptyString
  else String backslash
         (String "x" (String (hex_digit (n / 16))
                        (String (hex_digit (n mod 16)) EmptyString))).

Fixpoint repr_chars (quote : ascii) (s : string) : string :=
  match s with
  | EmptyString => EmptyString
  | String c s' => repr_char quote c ++ repr_chars quote s'
  end.

(** [repr(s)] for a string of code points below 256: between single
    quotes, or between double quotes when the string holds a single quote
    and no double quote; quotes of the chosen kind, backslashes and
    characters that are not printable are escaped. *)
Definition repr (s : string) : string :=
  let quote :=
    if has_char "'" s && negb (has_char (ascii_of_nat 34) s)
    then ascii_of_nat 34 else "'"%char in
  String quote (repr_chars quote s ++ String quote EmptyString).

(** [s[:n]] *)
Fixpoint take (n : nat) (s : string) : string :=
  match n, s with
  | S n', String c s' => String c (take n' s')
  | _, _ => EmptyString
  end.

(** [str(n)] for a natural number. *)
Definition str_of_nat (n : nat) : string :=
  NilEmpty.string_of_uint (Nat.to_uint n).

(** [l[start:]]: a negative [start] counts from the end of the list, and a
    bound outside the list is clipped to it. *)
Definition slice_from {A : Type} (l : list A) (start : Z) : list A :=
  let len := Z.of_nat (length l) in
  let lo := if start <? 0 then Z.max (len + start) 0 else Z.min start len in
  skipn (Z.to_nat lo) l.

(** [s.split(sep)] for a separator [sep] of one or more characters: the
    pieces between the occurrences of [sep], found from the left and not
    overlapping.  [skip] counts the characters of an occurrence still to be
    passed over. *)
Fixpoint split_on_aux (sep : string) (skip : nat) (s : string)
  : list string :=
  match s with
  | EmptyString => [EmptyString]
  | String c s' =>
      match skip with
      | S k => split_on_aux sep k s'
      | O =>
          if String.prefix sep s
          then EmptyString :: split_on_aux sep (String.length sep - 1) s'
          else match split_on_aux sep 0 s' with
               | h :: t => String c h :: t
               | [] => [String c EmptyString]
               end
      end
  end.

Definition split_on (sep s : string) : list string := split_on_aux sep 0 s.

(** [str(l)] for a list of strings. *)
Definition str_of_list (l : list string) : string :=
  "[" ++ join ", " (map repr l) ++ "]".

End PyStr.

(** ** Notions of the specification *)

Module Spec.

(** The capital of an ASCII small letter; any other character is its own. *)
Definition capital (c : ascii) : ascii :=
  let n := N_of_ascii c in
  if ((97 <=? n) && (n <=? 122))%N then ascii_of_N (n - 32) else c.

(** [any_letter_case t s]: the string [s] is the string [t] "in any letter
    case", that is [t] with some of its letters written as capitals.  This
    follows the specification's words; the code tests [s.lower() == t]. *)
Fixpoint any_letter_case (t s : string) : bool :=
  match t, s with
  | EmptyString, EmptyString => true
  | String d t', String c s' =>
      (Ascii.eqb c d || Ascii.eqb c (capital d)) && any_letter_case t' s'
  | _, _ => false
  end.

(** The first DNS label of a host name: its characters up to the first
    dot. *)
Fixpoint first_label (h : string) : string :=
  match h with
  | EmptyString => EmptyString
  | String c h' =>
      if Ascii.eqb c "." then EmptyString else String c (first_label h')
  end.


(** *** Integer literals

    The texts that denote an integer, as the documentation of [int]
    describes them: white space, an optional sign, and groups of decimal
    digits with single underscores between the groups. *)






End Spec.

(** ** Exceptions *)

(** The classes of the exceptions the commands raise or catch.  All of them
    derive from [Exception]; a class the code never names is an
    [OtherException]. *)
Inductive exn_class : Type :=
| InvalidArgumentValueError
| ResourceNotFoundError
| RequiredArgumentMissingError
| ClientRequestError
| AzureConnectionError
| AzureResponseError
| AzureInternalError
| ValueError
| AttributeError
| IndexError
| OtherException (name : string).

(** An exception instance: its class, its message and, for
    [raise ... from e], the exception [e] it was raised from. *)
#[local] Unset Elimination Schemes.
Inductive exn : Type :=
| Exn (cls : exn_class) (msg : string) (cause : option exn).
#[local] Set Elimination Schemes.

Definition exn_cls (e : exn) : exn_class := let 'Exn c _ _ := e in c.

(** The [ValueError] of [int(s)], for a string [s] that [int] rejects.  The
    literal is shown as the first 200 characters of its [repr]. *)
Definition int_error (s : string) : exn :=
  Exn ValueError
      match PyStr.int_outcome_of s with
      | PyStr.ExceedsLimit digits =>
          "Exceeds the limit (4300 digits) for integer string conversion: value has "
          ++ PyStr.str_of_nat digits
          ++ " digits; use sys.set_int_max_str_digits() to increase the limit"
      | _ =>
          "invalid literal for int() with base 10: "
          ++ PyStr.take 200 (PyStr.repr s)
      end
      None.

(** ** Values handed to the logger *)

Inductive logarg : Type :=
| LStr (s : string)
| LInt (n : Z).

(** ** The state-and-exception monad of a command *)

Section Monad.

Context {Ev St : Type}.

(** What a command runs against: the object it mutates and the log of the
    events it produced, oldest first. *)
Record world : Type := World { st : St; log : list Ev }.

Definition M (A : Type) : Type := world -> world * (exn + A).

Definition ret {A} (a : A) : M A := fun w => (w, inr a).

Definition bind {A B} (m : M A) (k : A -> M B) : M B :=
  fun w => match m w with
           | (w', inr a) => k a w'
           | (w', inl e) => (w', inl e)
           end.

Definition raise {A} (e : exn) : M A := fun w => (w, inl e).

(** [try: m  except Exception as e: h e] *)
Definition try_except {A} (m : M A) (h : exn -> M A) : M A :=
  fun w => match m w with
           | (w', inl e) => h e w'
           | r => r
           end.

(** A computation that touches nothing: it returns or raises. *)
Definition of_result {A} (r : exn + A) : M A := fun w => (w, r).

(** Appends one event to the log. *)
Definition emit (e : Ev) : M unit :=
  fun w => (World (st w) (log w ++ [e])%list, inr tt).

(** Reads the mutable object. *)
Definition get_st : M St := fun w => (w, inr (st w)).

(** Replaces the mutable object. *)
Definition put_st (s : St) : M unit := fun w => (World s (log w), inr tt).

(** One step of the mutable object that may raise. *)
Definition step {A} (f : St -> St * (exn + A)) : M A :=
  fun w => let (s', r) := f (st w) in (World s' (log w), r).


End Monad.

Arguments world : clear implicits.
Arguments M : clear implicits.

Declare Scope py_scope.
Delimit Scope py_scope with py.
Notation "x <- m ;; k" := (bind m (fun x => k))
  (at level 61, m at next level, right associativity) : py_scope.
Notation "m ;; k" := (bind m (fun _ => k))
  (at level 61, right associativity) : py_scope.
Local Open Scope py_scope.

(** ** Argument validators ([_validators.py]) *)

Module validators.

(** The fields of the parsed-argument namespace the validators below read
    and rewrite. *)
Record Namespace : Type := {
  storage_access_mode : option string;
  keyvault_secret_uri : option string;
  user_assigned_identity_resource_id : option string;
  top : option string
}.

Inductive event : Type :=
| Warning (fmt : string) (args : list logarg).

Definition V := M event Namespace.

(** [logger.warning(fmt, *args)] *)
Definition logger_warning (fmt : string) (args : list logarg) : V unit :=
  emit (Warning fmt args).

Definition set_storage_access_mode (v : option string) : V unit :=
  ns <- get_st ;;
  put_st {| storage_access_mode := v;
            keyvault_secret_uri := keyvault_secret_uri ns;
            user_assigned_identity_resource_id :=
              user_assigned_identity_resource_id ns;
            top := top ns |}.

Definition set_user_assigned_identity_resource_id (v : option string)
  : V unit :=
  ns <- get_st ;;
  put_st {| storage_access_mode := storage_access_mode ns;
            keyvault_secret_uri := keyvault_secret_uri ns;
            user_assigned_identity_resource_id := v;
            top := top ns |}.

(** [x in allowed_modes] for an optional string [x]. *)
Definition in_list (x : option string) (l : list string) : bool :=
  match x with
  | Some s => existsb (String.eqb s) l
  | None => false
  end.

(** [x == lit] for an optional string [x] and a string literal. *)
Definition eq_lit (x : option string) (lit : string) : bool :=
  match x with
  | Some s => String.eqb s lit
  | None => false
  end.

(** [f"{x}"] for an optional string. *)
Definition fmt_opt (x : option string) : string :=
  match x with
  | Some s => s
  | None => "None"
  end.

Definition validate_storage_access_mode_and_secret_uri : V unit :=
  namespace <- get_st ;;
  let storage_access_mode := storage_access_mode namespace in
  let secret_uri := keyvault_secret_uri namespace in
  let allowed_modes := ["entra-mi-auth"; "storage-sas-token"] in
  if negb (in_list storage_access_mode allowed_modes) then
    raise (Exn InvalidArgumentValueError
             ("Invalid storage access mode '" ++ fmt_opt storage_access_mode
              ++ "'. Allowed values: " ++ PyStr.join ", " allowed_modes)
             None)
  else if eq_lit storage_access_mode "entra-mi-auth" then
    set_storage_access_mode (Some "ManagedIdentity") ;;
    match secret_uri with
    | Some _ =>
        raise (Exn InvalidArgumentValueError
                 "The '--secret-uri' flag cannot be supplied when 'entra-mi-auth' is chosen for the flag '--storage-access-mode'."
                 None)
    | None => ret tt
    end
  else if eq_lit storage_access_mode "storage-sas-token" then
    set_storage_access_mode (Some "SasToken") ;;
    match secret_uri with
    | None =>
        raise (Exn InvalidArgumentValueError
                 "--secret-uri is required when --storage-access-mode is storage-sas-token"
                 None)
    | Some _ => ret tt
    end
  else ret tt.

Definition identity_warning : string :=
  "Invalid user assigned identity resource ID. Please provide a user assigned identity resource ID of the form /subscriptions/$MySubID/resourceGroups/$MyRG/providers/Microsoft.ManagedIdentity/userAssignedIdentities/$MyIdentity or use [system] for system-assigned identity.".

Definition validate_user_assigned_identity_resource_id : V unit :=
  namespace <- get_st ;;
  match user_assigned_identity_resource_id namespace with
  | None => ret tt
  | Some identity_id =>
      if String.eqb (PyStr.lower identity_id) "[system]" then
        set_user_assigned_identity_resource_id None
      else
        let valid :=
          PyStr.str_in
            "/providers/Microsoft.ManagedIdentity/userAssignedIdentities/"
            identity_id in
        if negb valid then logger_warning identity_warning [] else ret tt
  end.

Definition validate_top : V unit :=
  namespace <- get_st ;;
  match top namespace with
  | None => ret tt
  | Some n =>
      match PyStr.int n with
      | Some _ => ret tt
      | None =>
          raise (Exn InvalidArgumentValueError
                   ("Argument provided for parameter top '" ++ n
                    ++ "' is not an integer. Please provide an integer for the top parameter.")
                   (Some (int_error n)))
      end
  end.

End validators.

(** ** The validators that only warn ([_validators.py]) *)

Module warn_validators.

Import validators.

(** The fields of the parsed-argument namespace these validators read. *)
Record Namespace : Type := {
  storage_account_container_uri : string;
  keyvault_secret_uri : option string;
  options : option (list string);
  pipeline_type : option string
}.

Definition W := M event Namespace.

(** [logger.warning(fmt, *args)] *)
Definition logger_warning (fmt : string) (args : list logarg) : W unit :=
  emit (Warning fmt args).

Definition container_uri_warning : string :=
  "Invalid storage account container URI. Please provide a storage account container URI of the form https://$MyStorageAccount.blob.core.windows.net/$MyContainer. Note - The exact URI form may be different outside of AzureCloud.".

Definition validate_storage_account_container_uri : W unit :=
  namespace <- get_st ;;
  let uri := storage_account_container_uri namespace in
  let valid := PyStr.str_in "https://" uri in
  if negb valid then logger_warning container_uri_warning [] else ret tt.

Definition secret_uri_warning : string :=
  "Invalid keyvault secret URI. Please provide a keyvault secret URI of the form https://$MyKeyvault.vault.azure.net/secrets/$MySecret. Note - The exact URI form may be different outside of AzureCloud.".

Definition validate_keyvault_secret_uri : W unit :=
  namespace <- get_st ;;
  match keyvault_secret_uri namespace with
  | None => ret tt
  | Some uri =>
      let valid :=
        negb (negb (PyStr.str_in "https://" uri)
              || negb (PyStr.str_in "/secrets/" uri)) in
      if negb valid then logger_warning secret_uri_warning [] else ret tt
  end.

(** [set(options).issubset(set(allowed))] *)
Definition issubset (options allowed : list string) : bool :=
  forallb (fun o => existsb (String.eqb o) allowed) options.

Definition options_warning : string :=
  "Invalid option found in options parameter. Please provide a space-separated list of allowed options.".

Definition import_allowed_options : list string :=
  ["OverwriteTags"; "DeleteSourceBlobOnSuccess"; "ContinueOnErrors"].

Definition validate_import_options : W unit :=
  namespace <- get_st ;;
  let allowed_options_list := import_allowed_options in
  match options namespace with
  | None => ret tt
  | Some options =>
      let valid := issubset options allowed_options_list in
      if negb valid then
        logger_warning "Allowed options are: %s"
          [LStr (PyStr.str_of_list allowed_options_list)] ;;
        logger_warning options_warning []
      else ret tt
  end.

Definition export_allowed_options : list string :=
  ["OverwriteBlobs"; "ContinueOnErrors"].

Definition validate_export_options : W unit :=
  namespace <- get_st ;;
  let allowed_options_list := export_allowed_options in
  match options namespace with
  | None => ret tt
  | Some options =>
      let valid := issubset options allowed_options_list in
      if negb valid then
        logger_warning "Allowed options are: %s"
          [LStr (PyStr.str_of_list allowed_options_list)] ;;
        logger_warning options_warning []
      else ret tt
  end.

Definition pipeline_type_warning : string :=
  "Invalid pipeline type. Pipeline type must be import or export.".

Definition validate_pipeline_type : W unit :=
  namespace <- get_st ;;
  let valid := in_list (pipeline_type namespace) ["import"; "export"] in
  if negb valid then logger_warning pipeline_type_warning [] else ret tt.

End warn_validators.

(** ** The management SDK: models, client and runtime *)

Module sdk.

(** Modelled from the spec: the vendored model class [UserIdentityProperties],
    with the field the commands read. *)
Record UserIdentityProperties : Type := {
  user_principal_id : option string
}.

(** Modelled from the spec: the vendored model class [IdentityProperties];
    [user_assigned_identities] is a dictionary in insertion order. *)
Record IdentityProperties : Type := {
  identity_type : option string;
  principal_id : option string;
  user_assigned_identities :
    option (list (string * option UserIdentityProperties))
}.

(** Modelled from the spec: the vendored model class
    [ImportPipelineSourceProperties], with the fields the commands set. *)
Record ImportPipelineSourceProperties : Type := {
  source_storage_access_mode : option string;
  source_key_vault_uri : option string;
  source_uri : option string
}.

(** Modelled from the spec: the vendored model class
    [ExportPipelineTargetProperties], with the fields the commands set. *)
Record ExportPipelineTargetProperties : Type := {
  target_storage_access_mode : option string;
  target_key_vault_uri : option string;
  target_uri : option string;
  target_type : option string
}.

(** Modelled from the spec: the vendored model classes
    [PipelineSourceTriggerProperties] and [PipelineTriggerProperties]. *)
Record PipelineSourceTriggerProperties : Type := {
  status : string
}.

Record PipelineTriggerProperties : Type := {
  source_trigger : option PipelineSourceTriggerProperties
}.

(** Modelled from the spec: the vendored model class [ImportPipeline]; [id]
    is set by the service and absent from a create request. *)
Record ImportPipeline : Type := {
  import_id : option string;
  import_identity : option IdentityProperties;
  source : option ImportPipelineSourceProperties;
  trigger : option PipelineTriggerProperties;
  import_options : option (list string)
}.

(** Modelled from the spec: the vendored model class [ExportPipeline]. *)
Record ExportPipeline : Type := {
  export_id : option string;
  export_identity : option IdentityProperties;
  target : option ExportPipelineTargetProperties;
  export_options : option (list string)
}.

(** Modelled from the spec: the vendored model classes
    [PipelineRunSourceProperties] and [PipelineRunTargetProperties]. *)
Record PipelineRunSourceProperties : Type := {
  run_source_name : string
}.

Record PipelineRunTargetProperties : Type := {
  run_target_name : string
}.

(** Modelled from the spec: the vendored model class [PipelineRunRequest]. *)
Record PipelineRunRequest : Type := {
  pipeline_resource_id : option string;
  run_source : option PipelineRunSourceProperties;
  run_target : option PipelineRunTargetProperties;
  artifacts : option (list string)
}.

(** Modelled from the spec: the vendored model class [PipelineRun] as the
    service returns it; [name] and [provisioning_state] are set by the
    service. *)
Record PipelineRun : Type := {
  name : string;
  provisioning_state : option string;
  request : option PipelineRunRequest
}.

(** Modelled from the spec: the vendored model class [PipelineRun] as
    [create_pipelinerun] builds it, with the two fields it sets; the fields
    the service owns stay unset. *)
Record PipelineRunCreateParameters : Type := {
  create_request : option PipelineRunRequest;
  force_update_tag : option string
}.

(** [PipelineSourceType.AZURE_STORAGE_BLOB_CONTAINER] *)
Definition AZURE_STORAGE_BLOB_CONTAINER : string :=
  "AzureStorageBlobContainer".

(** The calls a command makes on the client.  The three strings are
    the resource group, the registry and the resource name. *)
Inductive call : Type :=
| ImportPipelinesGet (rg reg nm : string)
| ImportPipelinesBeginCreate (rg reg nm : string) (p : ImportPipeline)
| ImportPipelinesBeginDelete (rg reg nm : string)
| ExportPipelinesGet (rg reg nm : string)
| ExportPipelinesBeginCreate (rg reg nm : string) (p : ExportPipeline)
| ExportPipelinesBeginDelete (rg reg nm : string)
| PipelineRunsGet (rg reg nm : string)
| PipelineRunsBeginCreate (rg reg nm : string)
                          (p : PipelineRunCreateParameters)
| PipelineRunsBeginDelete (rg reg nm : string)
| PipelineRunsList (rg reg : string).

(** What a command leaves in the log. *)
Inductive event : Type :=
| Call (r : call)
| Warning (fmt : string) (args : list logarg).

Section Client.

(** [sys] is everything outside the process (the remote service, the clock,
    the CLI profile); [poller] is the handle of a long-running operation. *)
Context {sys poller : Type}.

(** Modelled from the spec: what [list] of an operations group returns, a
    paged iterable.  No request is made when it is created; consuming it,
    as [list(...)] does, asks the service for every page, so it may change
    the outside world and may raise. *)
Definition ItemPaged (R : Type) : Type := sys -> sys * (exn + list R).

(** The operations group of one resource kind: [R] is the resource as the
    service returns it, [P] the create parameters.  [get], [begin_create]
    and [begin_delete] ask the service at once: they may change the outside
    world and may raise.  [list_] gives the iterable that the call
    returns. *)
Record Operations (R P : Type) : Type := {
  get : string -> string -> string -> sys -> sys * (exn + R);
  begin_create :
    string -> string -> string -> P -> sys -> sys * (exn + poller);
  begin_delete : string -> string -> string -> sys -> sys * (exn + poller);
  list_ : string -> string -> ItemPaged R
}.

Record Client : Type := {
  import_pipelines : Operations ImportPipeline ImportPipeline;
  export_pipelines : Operations ExportPipeline ExportPipeline;
  pipeline_runs : Operations PipelineRun PipelineRunCreateParameters
}.

(** What the commands import besides the client. *)
Record Env : Type := {
  (** [urlparse(uri).hostname]: raises, or is [None], or a host name *)
  urlparse_hostname : string -> exn + option string;
  (** [get_subscription_id(get_default_cli())] *)
  get_subscription_id : sys -> sys * (exn + string);
  (** [str(time.time())] *)
  time_time_str : sys -> sys * string;
  (** [utility_functions.create_identity_properties] *)
  create_identity_properties : option string -> IdentityProperties
}.

Definition C := M event sys.

(** Makes a call: the call is logged, then the operation runs. *)
Definition send {A} (r : call) (op : sys -> sys * (exn + A)) : C A :=
  (emit (Call r) ;; step op)%py.

(** [logger.warning(fmt, *args)] *)
Definition logger_warning (fmt : string) (args : list logarg) : C unit :=
  emit (Warning fmt args).

Variable client : Client.

Definition import_pipelines_get (rg reg nm : string) : C ImportPipeline :=
  send (ImportPipelinesGet rg reg nm)
       (get _ _ (import_pipelines client) rg reg nm).

Definition import_pipelines_begin_create (rg reg nm : string)
    (p : ImportPipeline) : C poller :=
  send (ImportPipelinesBeginCreate rg reg nm p)
       (begin_create _ _ (import_pipelines client) rg reg nm p).

Definition import_pipelines_begin_delete (rg reg nm : string) : C poller :=
  send (ImportPipelinesBeginDelete rg reg nm)
       (begin_delete _ _ (import_pipelines client) rg reg nm).

Definition export_pipelines_get (rg reg nm : string) : C ExportPipeline :=
  send (ExportPipelinesGet rg reg nm)
       (get _ _ (export_pipelines client) rg reg nm).

Definition export_pipelines_begin_create (rg reg nm : string)
    (p : ExportPipeline) : C poller :=
  send (ExportPipelinesBeginCreate rg reg nm p)
       (begin_create _ _ (export_pipelines client) rg reg nm p).

Definition export_pipelines_begin_delete (rg reg nm : string) : C poller :=
  send (ExportPipelinesBeginDelete rg reg nm)
       (begin_delete _ _ (export_pipelines client) rg reg nm).

Definition pipeline_runs_get (rg reg nm : string) : C PipelineRun :=
  send (PipelineRunsGet rg reg nm)
       (get _ _ (pipeline_runs client) rg reg nm).

Definition pipeline_runs_begin_create (rg reg nm : string)
    (p : PipelineRunCreateParameters) : C poller :=
  send (PipelineRunsBeginCreate rg reg nm p)
       (begin_create _ _ (pipeline_runs client) rg reg nm p).

Definition pipeline_runs_begin_delete (rg reg nm : string) : C poller :=
  send (PipelineRunsBeginDelete rg reg nm)
       (begin_delete _ _ (pipeline_runs client) rg reg nm).

(** [client.pipeline_runs.list(...)]: the call is logged and returns the
    iterable; the service has not been asked yet. *)
Definition pipeline_runs_list (rg reg : string)
  : C (ItemPaged PipelineRun) :=
  (emit (Call (PipelineRunsList rg reg)) ;;
   ret (list_ _ _ (pipeline_runs client) rg reg))%py.

(** [list(iterable)]: the iterable is consumed to its end. *)
Definition list_of {R : Type} (iterable : ItemPaged R) : C (list R) :=
  step iterable.

End Client.

Arguments ItemPaged : clear implicits.
Arguments Operations : clear implicits.
Arguments Client : clear implicits.
Arguments Env : clear implicits.
Arguments C : clear implicits.

(** [x == lit] for an optional string [x] and a string literal. *)
Definition eq_lit (x : option string) (lit : string) : bool :=
  match x with
  | Some s => String.eqb s lit
  | None => false
  end.

(** The names of the pipeline runs a log asks the service to delete, in the
    order of the calls. *)
Fixpoint run_deletions (l : list event) : list string :=
  match l with
  | [] => []
  | Call (PipelineRunsBeginDelete _ _ nm) :: l' => nm :: run_deletions l'
  | _ :: l' => run_deletions l'
  end.

(** The text of the resource-not-found error of a command: the kind of the
    resource, its name, the registry and the resource group. *)
Definition not_found_message (kind nm reg rg : string) : string :=
  kind ++ " " ++ nm ++ " not found on registry " ++ reg ++ " in the " ++ rg
  ++ " resource group.".

(** Truth value of an optional string: neither [None] nor empty. *)
Definition truthy_opt (x : option string) : bool :=
  match x with
  | Some s => PyStr.truthy s
  | None => false
  end.

End sdk.

(** ** Import pipelines ([importpipeline.py]) *)

Module importpipeline.

Import sdk.

Section Commands.

Context {sys poller : Type}.
Variable env : Env sys.

(** [urlparse(uri).hostname.split('.')[0]]: the first label of the host
    name.  [urlparse] may raise, a missing host name has no [split], and
    indexing an empty list raises. *)
Definition first_host_label (uri : string) : C sys string :=
  hostname <- of_result (urlparse_hostname env uri) ;;
  labels <- match hostname with
            | Some h => ret (PyStr.split "." h)
            | None =>
                raise (Exn AttributeError
                         "'NoneType' object has no attribute 'split'" None)
            end ;;
  match labels with
  | first :: _ => ret first
  | [] => raise (Exn IndexError "list index out of range" None)
  end.

Definition _extract_storage_account_resource_id
    (subscription_id resource_group_name container_uri : string)
  : C sys string :=
  try_except
    (storage_account_name <- first_host_label container_uri ;;
     ret ("/subscriptions/" ++ subscription_id ++ "/resourceGroups/"
          ++ resource_group_name
          ++ "/providers/Microsoft.Storage/storageAccounts/"
          ++ storage_account_name))
    (fun _ => ret "<storage-account-resource-id>").

Definition _extract_keyvault_resource_id
    (subscription_id resource_group_name keyvault_secret_uri : string)
  : C sys string :=
  try_except
    (keyvault_name <- first_host_label keyvault_secret_uri ;;
     ret ("/subscriptions/" ++ subscription_id ++ "/resourceGroups/"
          ++ resource_group_name
          ++ "/providers/Microsoft.KeyVault/vaults/"
          ++ keyvault_name))
    (fun _ => ret "<key-vault-resource-id>").

Definition _display_permission_guidance
    (pipeline_type storage_access_mode principal_id subscription_id
       resource_group_name container_uri : string)
    (keyvault_secret_uri : option string) : C sys unit :=
  storage_resource_id <-
    _extract_storage_account_resource_id
      subscription_id resource_group_name container_uri ;;
  if String.eqb storage_access_mode "ManagedIdentity" then
    let role := if String.eqb pipeline_type "export"
                then "Storage Blob Data Contributor"
                else "Storage Blob Data Reader" in
    logger_warning EmptyString [] ;;
    logger_warning
      "Please ensure that the Managed Identity of the pipeline (Object ID: %s) has the necessary permissions to access the Storage Account Blob Container."
      [LStr principal_id] ;;
    logger_warning "Please run:" [] ;;
    logger_warning
      ("  az role assignment create --assignee " ++ PyStr.dq ++ "%s" ++ PyStr.dq
       ++ " --role " ++ PyStr.dq ++ "%s" ++ PyStr.dq ++ " --scope " ++ PyStr.dq ++ "%s" ++ PyStr.dq)
      [LStr principal_id; LStr role; LStr storage_resource_id] ;;
    logger_warning
      "Note: If the Storage Account is in a different resource group, update the --scope parameter accordingly."
      [] ;;
    logger_warning EmptyString []
  else
    match keyvault_secret_uri with
    | Some secret_uri =>
        if String.eqb storage_access_mode "SasToken"
           && PyStr.truthy secret_uri then
          keyvault_resource_id <-
            _extract_keyvault_resource_id
              subscription_id resource_group_name secret_uri ;;
          logger_warning EmptyString [] ;;
          logger_warning
            "Please ensure that the Managed Identity of the pipeline (Object ID: %s) has the necessary permissions to access the Key Vault Secret containing the Storage Account SAS Key."
            [LStr principal_id] ;;
          logger_warning "Please run:" [] ;;
          logger_warning
            ("  az role assignment create --assignee " ++ PyStr.dq ++ "%s" ++ PyStr.dq
             ++ " --role " ++ PyStr.dq ++ "Key Vault Secrets User" ++ PyStr.dq
             ++ " --scope " ++ PyStr.dq ++ "%s" ++ PyStr.dq)
            [LStr principal_id; LStr keyvault_resource_id] ;;
          logger_warning
            "Note: If the Key Vault is in a different resource group, update the --scope parameter accordingly."
            [] ;;
          logger_warning EmptyString []
        else ret tt
    | None => ret tt
    end.

(** The loop over [user_assigned_identities.items()]: the principal id of
    the first entry that has one. *)
Fixpoint first_principal_id
    (items : list (string * option UserIdentityProperties))
  : option string :=
  match items with
  | [] => None
  | (_, identity_info) :: rest =>
      match identity_info with
      | Some info =>
          if truthy_opt (user_principal_id info)
          then user_principal_id info
          else first_principal_id rest
      | None => first_principal_id rest
      end
  end.

(** The principal id the guidance is written for, if any. *)
Definition guidance_principal_id (identity : IdentityProperties)
  : option string :=
  if truthy_opt (principal_id identity) then principal_id identity
  else match user_assigned_identities identity with
       | Some ((_ :: _) as items) => first_principal_id items
       | _ => None
       end.

(** The block after the read-back of a created pipeline. *)
Definition display_guidance_for
    (pipeline_type : string) (identity : option IdentityProperties)
    (storage_access_mode resource_group_name container_uri : string)
    (keyvault_secret_uri : option string) : C sys unit :=
  match identity with
  | Some ident =>
      match guidance_principal_id ident with
      | Some principal_id =>
          subscription_id <- step (get_subscription_id env) ;;
          _display_permission_guidance
            pipeline_type storage_access_mode principal_id subscription_id
            resource_group_name container_uri keyvault_secret_uri
      | None => ret tt
      end
  | None => ret tt
  end.

(** [if keyvault_secret_uri: keyvault_secret_uri = keyvault_secret_uri.lower()] *)
Definition lower_if_truthy (keyvault_secret_uri : option string)
  : option string :=
  match keyvault_secret_uri with
  | Some u => if PyStr.truthy u then Some (PyStr.lower u) else Some u
  | None => None
  end.

Definition create_importpipeline (client : Client sys poller)
    (resource_group_name registry_name import_pipeline_name
       storage_account_container_uri storage_access_mode : string)
    (keyvault_secret_uri : option string) (options : option (list string))
    (user_assigned_identity_resource_id : option string)
    (source_trigger_enabled : bool) : C sys ImportPipeline :=
  let storage_account_container_uri :=
    PyStr.lower storage_account_container_uri in
  let keyvault_secret_uri := lower_if_truthy keyvault_secret_uri in
  let identity_properties :=
    create_identity_properties env user_assigned_identity_resource_id in
  let import_pipeline_source_properties :=
    {| source_storage_access_mode := Some storage_access_mode;
       source_key_vault_uri := keyvault_secret_uri;
       source_uri := Some storage_account_container_uri |} in
  let source_trigger_status :=
    if source_trigger_enabled then "Enabled" else "Disabled" in
  let pipeline_source_trigger_properties :=
    {| status := source_trigger_status |} in
  let pipeline_trigger_properties :=
    {| source_trigger := Some pipeline_source_trigger_properties |} in
  let import_pipeline :=
    {| import_id := None;
       import_identity := Some identity_properties;
       source := Some import_pipeline_source_properties;
       trigger := Some pipeline_trigger_properties;
       import_options := options |} in
  import_pipelines_begin_create client resource_group_name registry_name
    import_pipeline_name import_pipeline ;;
  result <- import_pipelines_get client resource_group_name registry_name
              import_pipeline_name ;;
  display_guidance_for "import" (import_identity result) storage_access_mode
    resource_group_name storage_account_container_uri keyvault_secret_uri ;;
  ret result.

Definition get_importpipeline (client : Client sys poller)
    (resource_group_name registry_name import_pipeline_name : string)
  : C sys ImportPipeline :=
  import_pipelines_get client resource_group_name registry_name
    import_pipeline_name.

Definition delete_importpipeline (client : Client sys poller)
    (resource_group_name registry_name import_pipeline_name : string)
  : C sys poller :=
  try_except
    (import_pipelines_get client resource_group_name registry_name
       import_pipeline_name)
    (fun e =>
       raise (Exn ResourceNotFoundError
                ("Import pipeline " ++ import_pipeline_name
                 ++ " not found on registry " ++ registry_name ++ " in the "
                 ++ resource_group_name ++ " resource group.")
                (Some e))) ;;
  import_pipelines_begin_delete client resource_group_name registry_name
    import_pipeline_name.

End Commands.

End importpipeline.

(** ** Export pipelines ([exportpipeline.py]) *)

Module exportpipeline.

Import sdk.

Section Commands.

Context {sys poller : Type}.
Variable env : Env sys.

(** [urlparse(uri).hostname.split('.')[0]]: the first label of the host
    name.  [urlparse] may raise, a missing host name has no [split], and
    indexing an empty list raises. *)
Definition first_host_label (uri : string) : C sys string :=
  hostname <- of_result (urlparse_hostname env uri) ;;
  labels <- match hostname with
            | Some h => ret (PyStr.split "." h)
            | None =>
                raise (Exn AttributeError
                         "'NoneType' object has no attribute 'split'" None)
            end ;;
  match labels with
  | first :: _ => ret first
  | [] => raise (Exn IndexError "list index out of range" None)
  end.

Definition _extract_storage_account_resource_id
    (subscription_id resource_group_name container_uri : string)
  : C sys string :=
  try_except
    (storage_account_name <- first_host_label container_uri ;;
     ret ("/subscriptions/" ++ subscription_id ++ "/resourceGroups/"
          ++ resource_group_name
          ++ "/providers/Microsoft.Storage/storageAccounts/"
          ++ storage_account_name))
    (fun _ => ret "<storage-account-resource-id>").

Definition _extract_keyvault_resource_id
    (subscription_id resource_group_name keyvault_secret_uri : string)
  : C sys string :=
  try_except
    (keyvault_name <- first_host_label keyvault_secret_uri ;;
     ret ("/subscriptions/" ++ subscription_id ++ "/resourceGroups/"
          ++ resource_group_name
          ++ "/providers/Microsoft.KeyVault/vaults/"
          ++ keyvault_name))
    (fun _ => ret "<key-vault-resource-id>").

Definition _display_permission_guidance
    (pipeline_type storage_access_mode principal_id subscription_id
       resource_group_name container_uri : string)
    (keyvault_secret_uri : option string) : C sys unit :=
  storage_resource_id <-
    _extract_storage_account_resource_id
      subscription_id resource_group_name container_uri ;;
  if String.eqb storage_access_mode "ManagedIdentity" then
    let role := if String.eqb pipeline_type "export"
                then "Storage Blob Data Contributor"
                else "Storage Blob Data Reader" in
    logger_warning EmptyString [] ;;
    logger_warning
      "Please ensure that the Managed Identity of the pipeline (Object ID: %s) has the necessary permissions to access the Storage Account Blob Container."
      [LStr principal_id] ;;
    logger_warning "Please run:" [] ;;
    logger_warning
      ("  az role assignment create --assignee " ++ PyStr.dq ++ "%s" ++ PyStr.dq
       ++ " --role " ++ PyStr.dq ++ "%s" ++ PyStr.dq ++ " --scope " ++ PyStr.dq ++ "%s" ++ PyStr.dq)
      [LStr principal_id; LStr role; LStr storage_resource_id] ;;
    logger_warning
      "Note: If the Storage Account is in a different resource group, update the --scope parameter accordingly."
      [] ;;
    logger_warning EmptyString []
  else
    match keyvault_secret_uri with
    | Some secret_uri =>
        if String.eqb storage_access_mode "SasToken"
           && PyStr.truthy secret_uri then
          keyvault_resource_id <-
            _extract_keyvault_resource_id
              subscription_id resource_group_name secret_uri ;;
          logger_warning EmptyString [] ;;
          logger_warning
            "Please ensure that the Managed Identity of the pipeline (Object ID: %s) has the necessary permissions to access the Key Vault Secret containing the Storage Account SAS Key."
            [LStr principal_id] ;;
          logger_warning "Please run:" [] ;;
          logger_warning
            ("  az role assignment create --assignee " ++ PyStr.dq ++ "%s" ++ PyStr.dq
             ++ " --role " ++ PyStr.dq ++ "Key Vault Secrets User" ++ PyStr.dq
             ++ " --scope " ++ PyStr.dq ++ "%s" ++ PyStr.dq)
            [LStr principal_id; LStr keyvault_resource_id] ;;
          logger_warning
            "Note: If the Key Vault is in a different resource group, update the --scope parameter accordingly."
            [] ;;
          logger_warning EmptyString []
        else ret tt
    | None => ret tt
    end.

(** The loop over [user_assigned_identities.items()]: the principal id of
    the first entry that has one. *)
Fixpoint first_principal_id
    (items : list (string * option UserIdentityProperties))
  : option string :=
  match items with
  | [] => None
  | (_, identity_info) :: rest =>
      match identity_info with
      | Some info =>
          if truthy_opt (user_principal_id info)
          then user_principal_id info
          else first_principal_id rest
      | None => first_principal_id rest
      end
  end.

(** The principal id the guidance is written for, if any. *)
Definition guidance_principal_id (identity : IdentityProperties)
  : option string :=
  if truthy_opt (principal_id identity) then principal_id identity
  else match user_assigned_identities identity with
       | Some ((_ :: _) as items) => first_principal_id items
       | _ => None
       end.

(** The block after the read-back of a created pipeline. *)
Definition display_guidance_for
    (pipeline_type : string) (identity : option IdentityProperties)
    (storage_access_mode resource_group_name container_uri : string)
    (keyvault_secret_uri : option string) : C sys unit :=
  match identity with
  | Some ident =>
      match guidance_principal_id ident with
      | Some principal_id =>
          subscription_id <- step (get_subscription_id env) ;;
          _display_permission_guidance
            pipeline_type storage_access_mode principal_id subscription_id
            resource_group_name container_uri keyvault_secret_uri
      | None => ret tt
      end
  | None => ret tt
  end.

(** [if keyvault_secret_uri: keyvault_secret_uri = keyvault_secret_uri.lower()] *)
Definition lower_if_truthy (keyvault_secret_uri : option string)
  : option string :=
  match keyvault_secret_uri with
  | Some u => if PyStr.truthy u then Some (PyStr.lower u) else Some u
  | None => None
  end.

Definition create_exportpipeline (client : Client sys poller)
    (resource_group_name registry_name export_pipeline_name
       storage_account_container_uri storage_access_mode : string)
    (keyvault_secret_uri : option string) (options : option (list string))
    (user_assigned_identity_resource_id : option string)
  : C sys ExportPipeline :=
  let storage_account_container_uri :=
    PyStr.lower storage_account_container_uri in
  let keyvault_secret_uri := lower_if_truthy keyvault_secret_uri in
  let export_pipeline_target_type := AZURE_STORAGE_BLOB_CONTAINER in
  let export_pipeline_target_properties :=
    {| target_storage_access_mode := Some storage_access_mode;
       target_key_vault_uri := keyvault_secret_uri;
       target_uri := Some storage_account_container_uri;
       target_type := Some export_pipeline_target_type |} in
  let identity_properties :=
    create_identity_properties env user_assigned_identity_resource_id in
  let export_pipeline :=
    {| export_id := None;
       export_identity := Some identity_properties;
       target := Some export_pipeline_target_properties;
       export_options := options |} in
  export_pipelines_begin_create client resource_group_name registry_name
    export_pipeline_name export_pipeline ;;
  result <- export_pipelines_get client resource_group_name registry_name
              export_pipeline_name ;;
  display_guidance_for "export" (export_identity result) storage_access_mode
    resource_group_name storage_account_container_uri keyvault_secret_uri ;;
  ret result.

Definition get_exportpipeline (client : Client sys poller)
    (resource_group_name registry_name export_pipeline_name : string)
  : C sys ExportPipeline :=
  export_pipelines_get client resource_group_name registry_name
    export_pipeline_name.

Definition delete_exportpipeline (client : Client sys poller)
    (resource_group_name registry_name export_pipeline_name : string)
  : C sys poller :=
  try_except
    (export_pipelines_get client resource_group_name registry_name
       export_pipeline_name)
    (fun e =>
       raise (Exn ResourceNotFoundError
                ("Export pipeline " ++ export_pipeline_name
                 ++ " not found on registry " ++ registry_name ++ " in the "
                 ++ resource_group_name ++ " resource group.")
                (Some e))) ;;
  export_pipelines_begin_delete client resource_group_name registry_name
    export_pipeline_name.

End Commands.

End exportpipeline.

(** ** Pipeline runs ([pipelinerun.py]) *)

Module pipelinerun.

Import sdk.

Section Commands.

Context {sys poller : Type}.
Variable env : Env sys.

(** The "Display authentication method" block. *)
Definition display_authentication_method
    (storage_access_mode : option string) : C sys unit :=
  if eq_lit storage_access_mode "ManagedIdentity" then
    logger_warning
      "Authenticating to Storage Account using Entra Managed Identity." []
  else if eq_lit storage_access_mode "SasToken" then
    logger_warning
      "Authenticating to Storage Account using Storage SAS Token." []
  else ret tt.

(** [artifact + ":latest" if ":" not in artifact and "@" not in artifact
    else artifact] *)
Definition add_latest_tag (artifact : string) : string :=
  if negb (PyStr.str_in ":" artifact) && negb (PyStr.str_in "@" artifact)
  then artifact ++ ":latest"
  else artifact.

Definition artifacts_missing_message : string :=
  "artifacts cannot be null for Export PipelineRuns. Please provide a space-separated list of container images to be exported in the form REPOSITORY:TAG or REPOSITORY@sha256:90659bf80b44ce6be8234e6ff90a1ac34acbeb826903b02cfa0da11c82cbc042.".

Definition create_pipelinerun (client : Client sys poller)
    (resource_group_name registry_name pipeline_name pipeline_run_name
       pipeline_type storage_blob_name : string)
    (artifacts : option (list string)) (force_update_tag : bool)
  : C sys poller :=
  pipeline_run_request <-
    (if String.eqb pipeline_type "import" then
       raw_result <-
         try_except
           (import_pipelines_get client resource_group_name registry_name
              pipeline_name)
           (fun e =>
              raise (Exn ResourceNotFoundError
                       ("Import pipeline " ++ pipeline_name
                        ++ " not found on registry " ++ registry_name
                        ++ " in the " ++ resource_group_name
                        ++ " resource group.")
                       (Some e))) ;;
       let storage_access_mode :=
         match source raw_result with
         | Some src => source_storage_access_mode src
         | None => None
         end in
       display_authentication_method storage_access_mode ;;
       let pipeline_resource_id := import_id raw_result in
       let pipeline_run_source := {| run_source_name := storage_blob_name |} in
       ret {| pipeline_resource_id := pipeline_resource_id;
              run_source := Some pipeline_run_source;
              run_target := None;
              artifacts := None |}
     else
       raw_result <-
         try_except
           (export_pipelines_get client resource_group_name registry_name
              pipeline_name)
           (fun e =>
              raise (Exn ResourceNotFoundError
                       ("Export pipeline " ++ pipeline_name
                        ++ " not found on registry " ++ registry_name
                        ++ " in the " ++ resource_group_name
                        ++ " resource group.")
                       (Some e))) ;;
       let storage_access_mode :=
         match target raw_result with
         | Some tgt => target_storage_access_mode tgt
         | None => None
         end in
       display_authentication_method storage_access_mode ;;
       let pipeline_resource_id := export_id raw_result in
       match artifacts with
       | None =>
           raise (Exn RequiredArgumentMissingError
                    artifacts_missing_message None)
       | Some artifacts =>
           let artifacts := map add_latest_tag artifacts in
           let pipeline_run_target :=
             {| run_target_name := storage_blob_name |} in
           ret {| pipeline_resource_id := pipeline_resource_id;
                  run_source := None;
                  run_target := Some pipeline_run_target;
                  artifacts := Some artifacts |}
       end) ;;
  force_update_tag_str <-
    (if force_update_tag
     then t <- step (fun s => let (s', t) := time_time_str env s in
                              (s', inr t)) ;;
          ret (Some t)
     else ret None) ;;
  let pipeline_run :=
    {| create_request := Some pipeline_run_request;
       force_update_tag := force_update_tag_str |} in
  pipeline_runs_begin_create client resource_group_name registry_name
    pipeline_run_name pipeline_run.

Definition delete_pipelinerun (client : Client sys poller)
    (resource_group_name registry_name pipeline_run_name : string)
  : C sys poller :=
  try_except
    (pipeline_runs_get client resource_group_name registry_name
       pipeline_run_name)
    (fun e =>
       raise (Exn ResourceNotFoundError
                ("Pipeline-run " ++ pipeline_run_name
                 ++ " not found on registry " ++ registry_name ++ " in the "
                 ++ resource_group_name ++ " resource group.")
                (Some e))) ;;
  pipeline_runs_begin_delete client resource_group_name registry_name
    pipeline_run_name.

(** What [list_pipelinerun] returns: the iterable of the client as it is,
    not consumed yet, or a list. *)
Inductive listing : Type :=
| Paged (pipelineruns : ItemPaged sys PipelineRun)
| Listed (pipelineruns : list PipelineRun).

Definition list_pipelinerun (client : Client sys poller)
    (resource_group_name registry_name : string) (top : option string)
  : C sys listing :=
  pipelineruns <-
    pipeline_runs_list client resource_group_name registry_name ;;
  match top with
  | None => ret (Paged pipelineruns)
  | Some top =>
      top_int <- match PyStr.int top with
                 | Some n => ret n
                 | None => raise (int_error top)
                 end ;;
      all <- list_of pipelineruns ;;
      ret (Listed (PyStr.slice_from all (- top_int)))
  end.

(** The classes named by the [except] clause of the cleanup loop. *)
Definition caught_by_clean (e : exn) : bool :=
  match exn_cls e with
  | ClientRequestError | AzureConnectionError | AzureResponseError
  | AzureInternalError | ResourceNotFoundError => true
  | _ => false
  end.

(** The predicate of the [filter] in [clean_pipelinerun]. *)
Definition is_failed (x : PipelineRun) : bool :=
  eq_lit (provisioning_state x) "Failed".

(** One turn of the cleanup loop, from the counters before it to the
    counters after it. *)
Definition clean_step (client : Client sys poller)
    (resource_group_name registry_name : string)
    (num_failed_pipelineruns : Z) (counts : Z * Z)
    (pipelinerun : PipelineRun) : C sys (Z * Z) :=
  let '(succ_count, failed_count) := counts in
  counts' <-
    try_except
      (pipeline_runs_begin_delete client resource_group_name registry_name
         (name pipelinerun) ;;
       ret (succ_count + 1, failed_count))
      (fun e =>
         if caught_by_clean e then ret (succ_count, failed_count + 1)
         else raise e) ;;
  (if fst counts' mod 100 =? 0 then
     logger_warning
       "Deletion in progress: Deleted %s/%s failed pipeline-runs. %s deletions failed."
       [LInt (fst counts'); LInt num_failed_pipelineruns;
        LInt (snd counts')]
   else ret tt) ;;
  ret counts'.

(** [for x in l: acc = body(acc, x)] *)
Fixpoint for_each {A B : Type} (body : B -> A -> C sys B) (l : list A)
    (acc : B) : C sys B :=
  match l with
  | [] => ret acc
  | x :: l' => acc' <- body acc x ;; for_each body l' acc'
  end.

Definition clean_pipelinerun (client : Client sys poller)
    (resource_group_name registry_name : string) (dry_run : bool)
  : C sys (option (list PipelineRun)) :=
  pipelineruns <-
    pipeline_runs_list client resource_group_name registry_name ;;
  all <- list_of pipelineruns ;;
  let failed_pipelineruns := filter is_failed all in
  let num_failed_pipelineruns := Z.of_nat (length failed_pipelineruns) in
  logger_warning "Found %s failed pipeline-runs to delete."
    [LInt num_failed_pipelineruns] ;;
  if dry_run then
    logger_warning
      "The following failed pipeline-runs would have been deleted:" [] ;;
    ret (Some failed_pipelineruns)
  else
    counts <-
      for_each
        (clean_step client resource_group_name registry_name
           num_failed_pipelineruns)
        failed_pipelineruns (0, 0) ;;
    logger_warning "Deletion complete: Deleted %s failed pipeline-runs."
      [LInt (fst counts)] ;;
    logger_warning "%s deletions failed." [LInt (snd counts)] ;;
    ret None.

(** [l[-1]] *)
Definition last_item (l : list string) : exn + string :=
  match rev l with
  | x :: _ => inr x
  | [] => inl (Exn IndexError "list index out of range" None)
  end.

Definition get_pipelinerun (client : Client sys poller)
    (resource_group_name registry_name pipeline_run_name : string)
  : C sys PipelineRun :=
  result <- pipeline_runs_get client resource_group_name registry_name
              pipeline_run_name ;;
  match request result with
  | Some req =>
      match pipeline_resource_id req with
      | Some pipeline_resource_id =>
          if PyStr.truthy pipeline_resource_id then
            try_except
              (storage_access_mode <-
                 (if PyStr.str_in "/exportPipelines/" pipeline_resource_id
                  then
                    pipeline_name <-
                      of_result
                        (last_item (PyStr.split_on "/exportPipelines/"
                                      pipeline_resource_id)) ;;
                    pipeline <-
                      export_pipelines_get client resource_group_name
                        registry_name pipeline_name ;;
                    ret match target pipeline with
                        | Some tgt => target_storage_access_mode tgt
                        | None => None
                        end
                  else if PyStr.str_in "/importPipelines/"
                            pipeline_resource_id
                  then
                    pipeline_name <-
                      of_result
                        (last_item (PyStr.split_on "/importPipelines/"
                                      pipeline_resource_id)) ;;
                    pipeline <-
                      import_pipelines_get client resource_group_name
                        registry_name pipeline_name ;;
                    ret match source pipeline with
                        | Some src => source_storage_access_mode src
                        | None => None
                        end
                  else ret None) ;;
               display_authentication_method storage_access_mode)
              (fun _ => ret tt)
          else ret tt
      | None => ret tt
      end
  | None => ret tt
  end ;;
  ret result.

End Commands.

Arguments listing : clear implicits.

End pipelinerun.

(** ** A registry to run the commands against

    An in-memory stand-in for the remote service, used to evaluate the
    commands on concrete inputs. *)

Module Sample.

Import sdk.

(** The state of the stand-in service.  While [offline], every read fails
    with a connection error; deleting a run whose name is [locked] fails
    with a request error. *)
Record registry : Type := {
  imports : list (string * ImportPipeline);
  exports : list (string * ExportPipeline);
  runs : list PipelineRun;
  offline : bool;
  locked : list string
}.

Definition poller : Type := string.

Fixpoint lookup {A : Type} (nm : string) (l : list (string * A))
  : option A :=
  match l with
  | [] => None
  | (k, v) :: l' => if String.eqb k nm then Some v else lookup nm l'
  end.

Definition connection_error : exn :=
  Exn AzureConnectionError "Connection to the service failed." None.

(** What the SDK raises for a missing resource: a class of [azure.core],
    not of [azclierror]. *)
Definition missing (nm : string) : exn :=
  Exn (OtherException "azure.core.exceptions.ResourceNotFoundError")
      ("The resource " ++ nm ++ " could not be found.") None.

Definition read {A : Type} (table : registry -> list (string * A))
    (nm : string) (s : registry) : registry * (exn + A) :=
  if offline s then (s, inl connection_error)
  else match lookup nm (table s) with
       | Some v => (s, inr v)
       | None => (s, inl (missing nm))
       end.

Definition import_ops : Operations registry poller ImportPipeline ImportPipeline :=
  {| get := fun _ _ nm => read imports nm;
     begin_create := fun _ _ nm p s =>
       ({| imports := (nm, p) :: imports s; exports := exports s;
           runs := runs s; offline := offline s; locked := locked s |},
        inr ("create " ++ nm));
     begin_delete := fun _ _ nm s =>
       ({| imports := filter (fun kv => negb (String.eqb (fst kv) nm))
                             (imports s);
           exports := exports s; runs := runs s; offline := offline s;
           locked := locked s |},
        inr ("delete " ++ nm));
     list_ := fun _ _ s => (s, inr (map snd (imports s))) |}.

Definition export_ops : Operations registry poller ExportPipeline ExportPipeline :=
  {| get := fun _ _ nm => read exports nm;
     begin_create := fun _ _ nm p s =>
       ({| imports := imports s; exports := (nm, p) :: exports s;
           runs := runs s; offline := offline s; locked := locked s |},
        inr ("create " ++ nm));
     begin_delete := fun _ _ nm s =>
       ({| imports := imports s;
           exports := filter (fun kv => negb (String.eqb (fst kv) nm))
                             (exports s);
           runs := runs s; offline := offline s; locked := locked s |},
        inr ("delete " ++ nm));
     list_ := fun _ _ s => (s, inr (map snd (exports s))) |}.

Definition run_ops
  : Operations registry poller PipelineRun PipelineRunCreateParameters :=
  {| get := fun _ _ nm =>
       read (fun s => map (fun r => (name r, r)) (runs s)) nm;
     begin_create := fun _ _ nm p s =>
       ({| imports := imports s; exports := exports s;
           runs := (runs s ++ [{| name := nm;
                                  provisioning_state := Some "Creating";
                                  request := create_request p |}])%list;
           offline := offline s; locked := locked s |},
        inr ("create " ++ nm));
     begin_delete := fun _ _ nm s =>
       if existsb (String.eqb nm) (locked s)
       then (s, inl (Exn ClientRequestError
                       ("The run " ++ nm ++ " is locked.") None))
       else
         ({| imports := imports s; exports := exports s;
             runs := filter (fun r => negb (String.eqb (name r) nm))
                            (runs s);
             offline := offline s; locked := locked s |},
          inr ("delete " ++ nm));
     list_ := fun _ _ s => (s, inr (runs s)) |}.

Definition client : Client registry poller :=
  {| import_pipelines := import_ops;
     export_pipelines := export_ops;
     pipeline_runs := run_ops |}.

(** A stand-in for [urlparse(uri).hostname] on URIs of the shape
    [https://host/path]: the text between the scheme and the next slash,
    in lower case, and [None] when there is none. *)
Fixpoint until_slash (s : string) : string :=
  match s with
  | EmptyString => EmptyString
  | String c s' =>
      if Ascii.eqb c "/" then EmptyString else String c (until_slash s')
  end.

Definition hostname (uri : string) : exn + option string :=
  if String.prefix "https://" uri then
    match until_slash (String.substring 8 (String.length uri - 8) uri) with
    | EmptyString => inr None
    | h => inr (Some (PyStr.lower h))
    end
  else inr None.

(** Modelled from the spec: [utility_functions.create_identity_properties],
    which is not part of the sources at hand: an absent id asks for a
    system-assigned identity, an id for that user-assigned identity. *)
Definition identity_properties_of (id : option string) : IdentityProperties :=
  match id with
  | None => {| identity_type := Some "SystemAssigned";
               principal_id := None;
               user_assigned_identities := None |}
  | Some i =>
      {| identity_type := Some "UserAssigned";
         principal_id := None;
         user_assigned_identities :=
           Some [(i, Some {| user_principal_id := None |})] |}
  end.

Definition env : Env registry :=
  {| urlparse_hostname := hostname;
     get_subscription_id := fun s =>
       (s, inr "00000000-0000-0000-0000-000000000000");
     time_time_str := fun s => (s, "1700000000.0");
     create_identity_properties := identity_properties_of |}.

Definition run (nm : string) (state : string) : PipelineRun :=
  {| name := nm; provisioning_state := Some state; request := None |}.

Definition empty : registry :=
  {| imports := []; exports := []; runs := []; offline := false;
     locked := [] |}.

(** Three runs, none failed. *)
Definition three_runs : registry :=
  {| imports := []; exports := [];
     runs := [run "r1" "Succeeded"; run "r2" "Succeeded";
              run "r3" "Succeeded"];
     offline := false; locked := [] |}.

(** Four runs, three of them failed, the first failed one locked. *)
Definition failed_runs : registry :=
  {| imports := []; exports := [];
     runs := [run "a" "Failed"; run "b" "Succeeded"; run "c" "Failed";
              run "d" "Failed"];
     offline := false; locked := ["a"] |}.

Definition an_export_pipeline : ExportPipeline :=
  {| export_id := Some "/registries/reg/exportPipelines/exp";
     export_identity := None;
     target := Some {| target_storage_access_mode := Some "ManagedIdentity";
                       target_key_vault_uri := None;
                       target_uri := Some "https://acct.blob.core.windows.net/c";
                       target_type := Some AZURE_STORAGE_BLOB_CONTAINER |};
     export_options := None |}.

Definition an_import_pipeline : ImportPipeline :=
  {| import_id := Some "/registries/reg/importPipelines/imp";
     import_identity := None;
     source := None;
     trigger := None;
     import_options := None |}.

(** One pipeline of each direction and one run. *)
Definition populated : registry :=
  {| imports := [("imp", an_import_pipeline)];
     exports := [("exp", an_export_pipeline)];
     runs := [run "r1" "Succeeded"];
     offline := false; locked := [] |}.

(** The same registry while its read path is down. *)
Definition unreachable : registry :=
  {| imports := imports populated; exports := exports populated;
     runs := runs populated; offline := true; locked := [] |}.

Definition start (s : registry) : world event registry := World s [].

End Sample.

(** ** More registries and clients to run the commands against *)

Module Cases.

Import sdk.

(** A client whose listing of runs fails. *)
Definition no_listing_client : Client Sample.registry Sample.poller :=
  {| import_pipelines := Sample.import_ops;
     export_pipelines := Sample.export_ops;
     pipeline_runs :=
       {| get := get _ _ Sample.run_ops;
          begin_create := begin_create _ _ Sample.run_ops;
          begin_delete := begin_delete _ _ Sample.run_ops;
          list_ := fun _ _ s => (s, inl Sample.connection_error) |} |}.

(** What the SDK raises when the service answers with an error. *)
Definition http_error : exn :=
  Exn (OtherException "azure.core.exceptions.HttpResponseError")
      "Operation returned an invalid status 'Conflict'" None.

(** A client for which the delete of a locked run fails with an SDK error,
    which the cleanup loop does not catch. *)
Definition strict_client : Client Sample.registry Sample.poller :=
  {| import_pipelines := Sample.import_ops;
     export_pipelines := Sample.export_ops;
     pipeline_runs :=
       {| get := get _ _ Sample.run_ops;
          begin_create := begin_create _ _ Sample.run_ops;
          begin_delete := fun rg reg nm s =>
            if existsb (String.eqb nm) (Sample.locked s)
            then (s, inl http_error)
            else begin_delete _ _ Sample.run_ops rg reg nm s;
          list_ := list_ _ _ Sample.run_ops |} |}.

(** A client that refuses to create pipelines. *)
Definition read_only_client : Client Sample.registry Sample.poller :=
  {| import_pipelines :=
       {| get := get _ _ Sample.import_ops;
          begin_create := fun _ _ _ _ s => (s, inl http_error);
          begin_delete := begin_delete _ _ Sample.import_ops;
          list_ := list_ _ _ Sample.import_ops |};
     export_pipelines :=
       {| get := get _ _ Sample.export_ops;
          begin_create := fun _ _ _ _ s => (s, inl http_error);
          begin_delete := begin_delete _ _ Sample.export_ops;
          list_ := list_ _ _ Sample.export_ops |};
     pipeline_runs := Sample.run_ops |}.

(** A client for which every delete of a run goes through. *)
Definition obliging_client : Client Sample.registry Sample.poller :=
  {| import_pipelines := Sample.import_ops;
     export_pipelines := Sample.export_ops;
     pipeline_runs :=
       {| get := get _ _ Sample.run_ops;
          begin_create := begin_create _ _ Sample.run_ops;
          begin_delete := fun _ _ nm s =>
            ({| Sample.imports := Sample.imports s;
                Sample.exports := Sample.exports s;
                Sample.runs :=
                  filter (fun r => negb (String.eqb (name r) nm))
                         (Sample.runs s);
                Sample.offline := Sample.offline s;
                Sample.locked := Sample.locked s |},
             inr ("delete " ++ nm));
          list_ := list_ _ _ Sample.run_ops |} |}.

(** A client for which every delete of a run is refused with a request
    error. *)
Definition refusing_client : Client Sample.registry Sample.poller :=
  {| import_pipelines := Sample.import_ops;
     export_pipelines := Sample.export_ops;
     pipeline_runs :=
       {| get := get _ _ Sample.run_ops;
          begin_create := begin_create _ _ Sample.run_ops;
          begin_delete := fun _ _ nm s =>
            (s, inl (Exn ClientRequestError
                       ("The run " ++ nm ++ " is locked.") None));
          list_ := list_ _ _ Sample.run_ops |} |}.

(** The identity the service reports for a pipeline it created with a
    system-assigned identity. *)
Definition assigned_identity : IdentityProperties :=
  {| identity_type := Some "SystemAssigned";
     principal_id := Some "11111111-2222-3333-4444-555555555555";
     user_assigned_identities := None |}.

(** A client whose service assigns a principal to every pipeline it
    creates. *)
Definition assigning_client : Client Sample.registry Sample.poller :=
  {| import_pipelines :=
       {| get := get _ _ Sample.import_ops;
          begin_create := fun rg reg nm p =>
            begin_create _ _ Sample.import_ops rg reg nm
              {| import_id := Some nm;
                 import_identity := Some assigned_identity;
                 source := source p;
                 trigger := trigger p;
                 import_options := import_options p |};
          begin_delete := begin_delete _ _ Sample.import_ops;
          list_ := list_ _ _ Sample.import_ops |};
     export_pipelines :=
       {| get := get _ _ Sample.export_ops;
          begin_create := fun rg reg nm p =>
            begin_create _ _ Sample.export_ops rg reg nm
              {| export_id := Some nm;
                 export_identity := Some assigned_identity;
                 target := target p;
                 export_options := export_options p |};
          begin_delete := begin_delete _ _ Sample.export_ops;
          list_ := list_ _ _ Sample.export_ops |};
     pipeline_runs := Sample.run_ops |}.

(** An environment without a subscription: the CLI is not logged in. *)
Definition logged_out_env : Env Sample.registry :=
  {| urlparse_hostname := Sample.hostname;
     get_subscription_id := fun s =>
       (s, inl (Exn (OtherException "CLIError")
                  "Please run 'az login' to setup account." None));
     time_time_str := fun s => (s, "1700000000.0");
     create_identity_properties := Sample.identity_properties_of |}.

(** Three failed runs, none of them locked. *)
Definition failed_unlocked : Sample.registry :=
  {| Sample.imports := []; Sample.exports := [];
     Sample.runs := [Sample.run "a" "Failed"; Sample.run "b" "Failed";
                     Sample.run "c" "Failed"];
     Sample.offline := false; Sample.locked := [] |}.

(** Three failed runs, all of them locked. *)
Definition failed_locked : Sample.registry :=
  {| Sample.imports := []; Sample.exports := [];
     Sample.runs := [Sample.run "a" "Failed"; Sample.run "b" "Failed";
                     Sample.run "c" "Failed"];
     Sample.offline := false; Sample.locked := ["a"; "b"; "c"] |}.

(** Three failed runs, the second one locked. *)
Definition failed_middle_locked : Sample.registry :=
  {| Sample.imports := []; Sample.exports := [];
     Sample.runs := [Sample.run "a" "Failed"; Sample.run "b" "Failed";
                     Sample.run "c" "Failed"];
     Sample.offline := false; Sample.locked := ["b"] |}.

(** A run of the export pipeline "exp". *)
Definition an_export_run : PipelineRun :=
  {| name := "run1";
     provisioning_state := Some "Succeeded";
     request :=
       Some {| pipeline_resource_id :=
                 Some "/registries/reg/exportPipelines/exp";
               run_source := None;
               run_target := Some {| run_target_name := "blob" |};
               artifacts := Some ["repo1:latest"] |} |}.

(** A run whose pipeline has been deleted since. *)
Definition an_orphan_run : PipelineRun :=
  {| name := "run2";
     provisioning_state := Some "Succeeded";
     request :=
       Some {| pipeline_resource_id :=
                 Some "/registries/reg/importPipelines/gone";
               run_source := Some {| run_source_name := "blob" |};
               run_target := None;
               artifacts := None |} |}.

Definition with_runs : Sample.registry :=
  {| Sample.imports := [("imp", Sample.an_import_pipeline)];
     Sample.exports := [("exp", Sample.an_export_pipeline)];
     Sample.runs := [an_export_run; an_orphan_run];
     Sample.offline := false; Sample.locked := [] |}.

End Cases.

(** ** What an observer reads off a log *)

Module Observe.

Import sdk.

(** The progress warning of the cleanup loop. *)
Definition is_progress (e : event) : bool :=
  match e with
  | Warning fmt _ =>
      String.eqb fmt
        "Deletion in progress: Deleted %s/%s failed pipeline-runs. %s deletions failed."
  | Call _ => false
  end.

(** How many progress warnings a log holds. *)
Definition progress_warnings (l : list event) : nat :=
  length (filter is_progress l).

(** The calls of a log, without the warnings. *)
Fixpoint calls (l : list event) : list call :=
  match l with
  | [] => []
  | Call c :: l' => c :: calls l'
  | Warning _ _ :: l' => calls l'
  end.




(** An entry of [user_assigned_identities] without a usable principal
    id. *)
Definition no_principal (kv : string * option UserIdentityProperties)
  : Prop :=
  forall info, snd kv = Some info ->
               truthy_opt (user_principal_id info) = false.

End Observe.

(** * Properties *)

(** ** Strings *)

Section StringFacts.

Import PyStr.



Lemma prefix_refl_app (x b : string) : String.prefix x (x ++ b) = true.
Proof.
  induction x as [|c x IH]; simpl.
  - now destruct b.
  - destruct (Ascii.ascii_dec c c) as [_|n]; [exact IH | now elim n].
Qed.

Lemma str_in_prefix (x s : string) :
  String.prefix x s = true -> str_in x s = true.
Proof.
  intros H. destruct s; cbn [str_in]; rewrite H; reflexivity.
Qed.

Lemma str_in_here (x b : string) : str_in x (x ++ b) = true.
Proof. apply str_in_prefix, prefix_refl_app. Qed.

Lemma str_in_skip (x a s : string) :
  str_in x s = true -> str_in x (a ++ s) = true.
Proof.
  intros H. induction a as [|c a IH]; simpl; [exact H|].
  rewrite IH. apply orb_true_r.
Qed.

(** A string occurs in every text written around it. *)
Lemma str_in_middle (x a b : string) : str_in x (a ++ x ++ b) = true.
Proof. apply str_in_skip, str_in_here. Qed.

Lemma any_letter_case_lower (t : string) :
  (forall d, In d (list_ascii_of_string t) ->
   forall c, Ascii.eqb (lower_char c) d
             = Ascii.eqb c d || Ascii.eqb c (Spec.capital d)) ->
  forall s, Spec.any_letter_case t s = String.eqb (lower s) t.
Proof.
  induction t as [|d t IH]; intros Hd s.
  - destruct s; reflexivity.
  - destruct s as [|c s]; [reflexivity|].
    cbn [Spec.any_letter_case lower String.eqb].
    rewrite (Hd d (or_introl eq_refl)), IH.
    + destruct (Ascii.eqb c d || Ascii.eqb c (Spec.capital d)); reflexivity.
    + intros d' Hin. apply Hd. right. exact Hin.
Qed.

(** The test the identity validator makes is the test for "[system]" in
    any letter case. *)
Lemma any_letter_case_system (s : string) :
  Spec.any_letter_case "[system]" s = String.eqb (lower s) "[system]".
Proof.
  apply any_letter_case_lower. intros d Hd c. cbn in Hd.
  repeat (destruct Hd as [<-|Hd];
          [destruct c as [[] [] [] [] [] [] [] []]; reflexivity|]).
  contradiction.
Qed.




End StringFacts.

(** ** Argument validators *)

Section ValidatorFacts.

Import validators.

Ltac run_validator :=
  cbv beta delta
    [validate_storage_access_mode_and_secret_uri
     validate_user_assigned_identity_resource_id
     set_storage_access_mode set_user_assigned_identity_resource_id
     logger_warning bind ret raise get_st put_st emit in_list eq_lit
     existsb st log];
  cbn [storage_access_mode keyvault_secret_uri
       user_assigned_identity_resource_id top st log fst snd orb negb].

(** C1: the access-mode validator raises an invalid-argument error for
    every mode other than "entra-mi-auth" and "storage-sas-token", for
    "entra-mi-auth" with a secret URI and for "storage-sas-token" without
    one; on the two valid combinations it returns and leaves
    "ManagedIdentity", respectively "SasToken", in the namespace field. *)
Theorem validate_storage_access_mode_and_secret_uri_cases
    (ns : Namespace) (l : list event) :
  let r := validate_storage_access_mode_and_secret_uri (World ns l) in
  (storage_access_mode ns <> Some "entra-mi-auth" ->
   storage_access_mode ns <> Some "storage-sas-token" ->
   exists msg, snd r = inl (Exn InvalidArgumentValueError msg None)) /\
  (storage_access_mode ns = Some "entra-mi-auth" ->
   keyvault_secret_uri ns <> None ->
   exists msg, snd r = inl (Exn InvalidArgumentValueError msg None)) /\
  (storage_access_mode ns = Some "storage-sas-token" ->
   keyvault_secret_uri ns = None ->
   exists msg, snd r = inl (Exn InvalidArgumentValueError msg None)) /\
  (storage_access_mode ns = Some "entra-mi-auth" ->
   keyvault_secret_uri ns = None ->
   r = (World {| storage_access_mode := Some "ManagedIdentity";
                 keyvault_secret_uri := None;
                 user_assigned_identity_resource_id :=
                   user_assigned_identity_resource_id ns;
                 top := top ns |} l, inr tt)) /\
  (storage_access_mode ns = Some "storage-sas-token" ->
   keyvault_secret_uri ns <> None ->
   r = (World {| storage_access_mode := Some "SasToken";
                 keyvault_secret_uri := keyvault_secret_uri ns;
                 user_assigned_identity_resource_id :=
                   user_assigned_identity_resource_id ns;
                 top := top ns |} l, inr tt)).
Proof.
  destruct ns as [mode uri ident t]. cbn zeta.
  cbn [storage_access_mode keyvault_secret_uri
       user_assigned_identity_resource_id top].
  repeat split.
  - intros Hmi Hsas. run_validator.
    destruct mode as [m|]; [|eexists; reflexivity].
    destruct (String.eqb_spec m "entra-mi-auth") as [->|_];
      [now elim Hmi|].
    destruct (String.eqb_spec m "storage-sas-token") as [->|_];
      [now elim Hsas|].
    eexists; reflexivity.
  - intros -> Huri. destruct uri as [u|]; [|now elim Huri].
    eexists; reflexivity.
  - intros -> ->. eexists; reflexivity.
  - intros -> ->. reflexivity.
  - intros -> Huri. destruct uri as [u|]; [|now elim Huri]. reflexivity.
Qed.

(** C6: the identity validator never raises; without an identity id it
    changes nothing; an id that is "[system]" in any letter case is
    replaced by an absent id; any other id stays as it is, and the only
    effect is one warning when the id lacks the user-assigned-identity path
    segment. *)
Theorem validate_user_assigned_identity_resource_id_cases
    (ns : Namespace) (l : list event) :
  let r := validate_user_assigned_identity_resource_id (World ns l) in
  snd r = inr tt /\
  (user_assigned_identity_resource_id ns = None -> fst r = World ns l) /\
  (forall id,
     user_assigned_identity_resource_id ns = Some id ->
     Spec.any_letter_case "[system]" id = true ->
     fst r = World {| storage_access_mode := storage_access_mode ns;
                      keyvault_secret_uri := keyvault_secret_uri ns;
                      user_assigned_identity_resource_id := None;
                      top := top ns |} l) /\
  (forall id,
     user_assigned_identity_resource_id ns = Some id ->
     Spec.any_letter_case "[system]" id = false ->
     st (fst r) = ns /\
     log (fst r)
     = (l ++ if PyStr.str_in
                  "/providers/Microsoft.ManagedIdentity/userAssignedIdentities/"
                  id
             then [] else [Warning identity_warning []])%list).
Proof.
  destruct ns as [mode uri ident t]. cbn zeta.
  cbn [storage_access_mode keyvault_secret_uri
       user_assigned_identity_resource_id top].
  run_validator.
  destruct ident as [id|].
  - rewrite <- any_letter_case_system.
    destruct (Spec.any_letter_case "[system]" id) eqn:Hcase.
    + split; [reflexivity|]. split; [intros; discriminate|].
      split; [|intros id' [= <-] H; congruence].
      intros id' _ _. reflexivity.
    + destruct (PyStr.str_in _ id) eqn:Hseg; cbn [negb fst snd st log].
      * split; [reflexivity|]. split; [intros; discriminate|].
        split; [intros id' [= <-] H; congruence|]. intros id' [= <-] _.
        rewrite Hseg, app_nil_r. split; reflexivity.
      * split; [reflexivity|]. split; [intros; discriminate|].
        split; [intros id' [= <-] H; congruence|]. intros id' [= <-] _.
        rewrite Hseg. split; reflexivity.
  - split; [reflexivity|]. split; [reflexivity|].
    split; intros; discriminate.
Qed.

(** Witness of C1: one namespace for each of the five cases. *)
Lemma validate_storage_access_mode_and_secret_uri_witness :
  (exists msg,
     snd (validate_storage_access_mode_and_secret_uri
            (World (Build_Namespace (Some "sas") None None None) []))
     = inl (Exn InvalidArgumentValueError msg None)) /\
  (exists msg,
     snd (validate_storage_access_mode_and_secret_uri
            (World (Build_Namespace (Some "entra-mi-auth")
                      (Some "https://kv.vault.azure.net/secrets/s")
                      None None) []))
     = inl (Exn InvalidArgumentValueError msg None)) /\
  (exists msg,
     snd (validate_storage_access_mode_and_secret_uri
            (World (Build_Namespace (Some "storage-sas-token") None
                      None None) []))
     = inl (Exn InvalidArgumentValueError msg None)) /\
  validate_storage_access_mode_and_secret_uri
    (World (Build_Namespace (Some "entra-mi-auth") None None None) [])
  = (World (Build_Namespace (Some "ManagedIdentity") None None None) [],
     inr tt) /\
  validate_storage_access_mode_and_secret_uri
    (World (Build_Namespace (Some "storage-sas-token")
              (Some "https://kv.vault.azure.net/secrets/s") None None) [])
  = (World (Build_Namespace (Some "SasToken")
              (Some "https://kv.vault.azure.net/secrets/s") None None) [],
     inr tt).
Proof.
  split; [|split; [|split; [|split]]].
  - apply (proj1 (validate_storage_access_mode_and_secret_uri_cases
                    (Build_Namespace (Some "sas") None None None) []));
      discriminate.
  - apply (proj1 (proj2 (validate_storage_access_mode_and_secret_uri_cases
                    (Build_Namespace (Some "entra-mi-auth")
                       (Some "https://kv.vault.azure.net/secrets/s")
                       None None) [])));
      [reflexivity | discriminate].
  - apply (proj1 (proj2 (proj2
             (validate_storage_access_mode_and_secret_uri_cases
                (Build_Namespace (Some "storage-sas-token") None None None)
                [])))); reflexivity.
  - apply (proj1 (proj2 (proj2 (proj2
             (validate_storage_access_mode_and_secret_uri_cases
                (Build_Namespace (Some "entra-mi-auth") None None None)
                []))))); reflexivity.
  - apply (proj2 (proj2 (proj2 (proj2
             (validate_storage_access_mode_and_secret_uri_cases
                (Build_Namespace (Some "storage-sas-token")
                   (Some "https://kv.vault.azure.net/secrets/s") None None)
                []))))); [reflexivity | discriminate].
Defined.

(** Witness of C6: "[System]" is cleared, a resource id is kept. *)
Lemma validate_user_assigned_identity_resource_id_witness :
  fst (validate_user_assigned_identity_resource_id
         (World (Build_Namespace None None (Some "[System]") None) []))
  = World (Build_Namespace None None None None) [] /\
  st (fst (validate_user_assigned_identity_resource_id
             (World (Build_Namespace None None (Some "my-identity") None)
                [])))
  = Build_Namespace None None (Some "my-identity") None /\
  fst (validate_user_assigned_identity_resource_id
         (World (Build_Namespace None None None None) []))
  = World (Build_Namespace None None None None) [].
Proof.
  split; [|split].
  - apply (proj1 (proj2 (proj2
             (validate_user_assigned_identity_resource_id_cases
                (Build_Namespace None None (Some "[System]") None) [])))
             "[System]"); reflexivity.
  - apply (proj2 (proj2 (proj2
             (validate_user_assigned_identity_resource_id_cases
                (Build_Namespace None None (Some "my-identity") None) [])))
             "my-identity"); reflexivity.
  - apply (proj1 (proj2
             (validate_user_assigned_identity_resource_id_cases
                (Build_Namespace None None None None) []))); reflexivity.
Defined.

End ValidatorFacts.

(** ** Commands *)

Create HintDb cmd discriminated.

#[local] Hint Unfold
  sdk.send sdk.logger_warning
  sdk.import_pipelines_get sdk.import_pipelines_begin_create
  sdk.import_pipelines_begin_delete
  sdk.export_pipelines_get sdk.export_pipelines_begin_create
  sdk.export_pipelines_begin_delete
  sdk.pipeline_runs_get sdk.pipeline_runs_begin_create
  sdk.pipeline_runs_begin_delete sdk.pipeline_runs_list sdk.list_of
  importpipeline.delete_importpipeline exportpipeline.delete_exportpipeline
  pipelinerun.delete_pipelinerun : cmd.

(** Unfolds a command down to the operations of the client. *)
Ltac run_cmd :=
  autounfold with cmd;
  cbv beta delta [bind ret raise try_except emit step of_result];
  cbn [st log].

Section DeleteFacts.

Import sdk.

Context {sys poller : Type}.
Variable client : Client sys poller.
Variables rg reg nm : string.
Variable w : world event sys.

Lemma delete_importpipeline_read_fails (s' : sys) (e : exn) :
  get _ _ (import_pipelines client) rg reg nm (st w) = (s', inl e) ->
  importpipeline.delete_importpipeline client rg reg nm w
  = (World s' (log w ++ [Call (ImportPipelinesGet rg reg nm)]),
     inl (Exn ResourceNotFoundError
            (not_found_message "Import pipeline" nm reg rg) (Some e))).
Proof. intros H. run_cmd. rewrite H. reflexivity. Qed.

Lemma delete_importpipeline_read_ok (s' s'' : sys) (x : ImportPipeline)
    (out : exn + poller) :
  get _ _ (import_pipelines client) rg reg nm (st w) = (s', inr x) ->
  begin_delete _ _ (import_pipelines client) rg reg nm s' = (s'', out) ->
  importpipeline.delete_importpipeline client rg reg nm w
  = (World s'' (log w ++ [Call (ImportPipelinesGet rg reg nm);
                          Call (ImportPipelinesBeginDelete rg reg nm)]),
     out).
Proof.
  intros H1 H2. run_cmd. rewrite H1. cbn [st log]. rewrite H2.
  rewrite <- app_assoc. reflexivity.
Qed.

Lemma delete_exportpipeline_read_fails (s' : sys) (e : exn) :
  get _ _ (export_pipelines client) rg reg nm (st w) = (s', inl e) ->
  exportpipeline.delete_exportpipeline client rg reg nm w
  = (World s' (log w ++ [Call (ExportPipelinesGet rg reg nm)]),
     inl (Exn ResourceNotFoundError
            (not_found_message "Export pipeline" nm reg rg) (Some e))).
Proof. intros H. run_cmd. rewrite H. reflexivity. Qed.

Lemma delete_exportpipeline_read_ok (s' s'' : sys) (x : ExportPipeline)
    (out : exn + poller) :
  get _ _ (export_pipelines client) rg reg nm (st w) = (s', inr x) ->
  begin_delete _ _ (export_pipelines client) rg reg nm s' = (s'', out) ->
  exportpipeline.delete_exportpipeline client rg reg nm w
  = (World s'' (log w ++ [Call (ExportPipelinesGet rg reg nm);
                          Call (ExportPipelinesBeginDelete rg reg nm)]),
     out).
Proof.
  intros H1 H2. run_cmd. rewrite H1. cbn [st log]. rewrite H2.
  rewrite <- app_assoc. reflexivity.
Qed.

Lemma delete_pipelinerun_read_fails (s' : sys) (e : exn) :
  get _ _ (pipeline_runs client) rg reg nm (st w) = (s', inl e) ->
  pipelinerun.delete_pipelinerun client rg reg nm w
  = (World s' (log w ++ [Call (PipelineRunsGet rg reg nm)]),
     inl (Exn ResourceNotFoundError
            (not_found_message "Pipeline-run" nm reg rg) (Some e))).
Proof. intros H. run_cmd. rewrite H. reflexivity. Qed.

Lemma delete_pipelinerun_read_ok (s' s'' : sys) (x : PipelineRun)
    (out : exn + poller) :
  get _ _ (pipeline_runs client) rg reg nm (st w) = (s', inr x) ->
  begin_delete _ _ (pipeline_runs client) rg reg nm s' = (s'', out) ->
  pipelinerun.delete_pipelinerun client rg reg nm w
  = (World s'' (log w ++ [Call (PipelineRunsGet rg reg nm);
                          Call (PipelineRunsBeginDelete rg reg nm)]),
     out).
Proof.
  intros H1 H2. run_cmd. rewrite H1. cbn [st log]. rewrite H2.
  rewrite <- app_assoc. reflexivity.
Qed.

(** The message of the resource-not-found error names the kind of the
    resource, the resource, the registry and the resource group. *)
Lemma not_found_message_carries (kind : string) :
  PyStr.str_in kind (not_found_message kind nm reg rg) = true /\
  PyStr.str_in nm (not_found_message kind nm reg rg) = true /\
  PyStr.str_in reg (not_found_message kind nm reg rg) = true /\
  PyStr.str_in rg (not_found_message kind nm reg rg) = true.
Proof.
  unfold not_found_message. repeat split.
  - apply str_in_here.
  - apply str_in_skip, str_in_skip, str_in_here.
  - do 4 apply str_in_skip. apply str_in_here.
  - do 6 apply str_in_skip. apply str_in_here.
Qed.

End DeleteFacts.

Section CreateRunFacts.

Import sdk.

Context {sys poller : Type}.
Variable env : Env sys.
Variable client : Client sys poller.
Variables rg reg pipeline_name run_name pipeline_type blob : string.
Variable force : bool.
Variable w : world event sys.

(** The authentication notice only writes warnings to the log. *)
Lemma display_authentication_method_logs (mode : option string) :
  exists evs,
    (forall c, ~ In (Call c) evs) /\
    forall w0 : world event sys,
      pipelinerun.display_authentication_method mode w0
      = (World (st w0) (log w0 ++ evs), inr tt).
Proof.
  unfold pipelinerun.display_authentication_method.
  destruct (eq_lit mode "ManagedIdentity");
    [|destruct (eq_lit mode "SasToken")].
  - eexists; split; [|intros w0; reflexivity].
    intros c [H|[]]; discriminate H.
  - eexists; split; [|intros w0; reflexivity].
    intros c [H|[]]; discriminate H.
  - exists []. split; [intros c []|]. intros [s l]. unfold ret.
    cbn [st log]. now rewrite app_nil_r.
Qed.

(** A failed read of the export pipeline ends the command, whatever the
    artifacts are. *)
Lemma create_pipelinerun_export_read_fails
    (artifacts : option (list string)) (s' : sys) (e : exn) :
  pipeline_type <> "import" ->
  get _ _ (export_pipelines client) rg reg pipeline_name (st w)
  = (s', inl e) ->
  pipelinerun.create_pipelinerun env client rg reg pipeline_name run_name
    pipeline_type blob artifacts force w
  = (World s' (log w ++ [Call (ExportPipelinesGet rg reg pipeline_name)]),
     inl (Exn ResourceNotFoundError
            (not_found_message "Export pipeline" pipeline_name reg rg)
            (Some e))).
Proof.
  intros Ht H. unfold pipelinerun.create_pipelinerun.
  destruct (String.eqb_spec pipeline_type "import") as [E|_];
    [now elim Ht|].
  run_cmd. rewrite H. reflexivity.
Qed.

(** After a successful read, missing artifacts end the command before any
    run is created. *)
Lemma create_pipelinerun_export_no_artifacts (s' : sys) (p : ExportPipeline) :
  pipeline_type <> "import" ->
  get _ _ (export_pipelines client) rg reg pipeline_name (st w)
  = (s', inr p) ->
  exists evs,
    (forall c, ~ In (Call c) evs) /\
    pipelinerun.create_pipelinerun env client rg reg pipeline_name run_name
      pipeline_type blob None force w
    = (World s' (log w ++ Call (ExportPipelinesGet rg reg pipeline_name)
                          :: evs),
       inl (Exn RequiredArgumentMissingError
              pipelinerun.artifacts_missing_message None)).
Proof.
  intros Ht H. unfold pipelinerun.create_pipelinerun.
  destruct (String.eqb_spec pipeline_type "import") as [E|_];
    [now elim Ht|].
  destruct (display_authentication_method_logs
              match target p with
              | Some tgt => target_storage_access_mode tgt
              | None => None
              end) as (evs & Hw & Hevs).
  exists evs. split; [exact Hw|].
  run_cmd. rewrite H. cbn [st log]. rewrite Hevs. cbn [st log].
  rewrite <- app_assoc. reflexivity.
Qed.

(** After a successful read, the artifacts go into the create call with
    their tags completed; the call is the last thing the command does. *)
Lemma create_pipelinerun_export_artifacts (s' : sys) (p : ExportPipeline)
    (arts : list string) :
  pipeline_type <> "import" ->
  get _ _ (export_pipelines client) rg reg pipeline_name (st w)
  = (s', inr p) ->
  exists evs,
    (forall c, ~ In (Call c) evs) /\
    let (s1, tag) :=
      if force
      then let (s1, t) := time_time_str env s' in (s1, Some t)
      else (s', None) in
    let pipeline_run :=
      {| create_request :=
           Some {| pipeline_resource_id := export_id p;
                   run_source := None;
                   run_target := Some {| run_target_name := blob |};
                   artifacts := Some (map pipelinerun.add_latest_tag arts) |};
         force_update_tag := tag |} in
    let (s2, out) :=
      begin_create _ _ (pipeline_runs client) rg reg run_name pipeline_run
        s1 in
    pipelinerun.create_pipelinerun env client rg reg pipeline_name run_name
      pipeline_type blob (Some arts) force w
    = (World s2
         (log w ++ Call (ExportPipelinesGet rg reg pipeline_name) :: evs
          ++ [Call (PipelineRunsBeginCreate rg reg run_name pipeline_run)]),
       out).
Proof.
  intros Ht H. unfold pipelinerun.create_pipelinerun.
  destruct (String.eqb_spec pipeline_type "import") as [E|_];
    [now elim Ht|].
  destruct (display_authentication_method_logs
              match target p with
              | Some tgt => target_storage_access_mode tgt
              | None => None
              end) as (evs & Hw & Hevs).
  exists evs. split; [exact Hw|].
  run_cmd. rewrite H. cbn [st log]. rewrite Hevs. cbn [st log].
  destruct force; cbv beta; cbn [st log].
  - destruct (time_time_str env s') as [s1 t]. cbn [st log].
    destruct (begin_create _ _ _ _ _ _ _ s1) as [s2 out].
    repeat rewrite <- app_assoc. reflexivity.
  - destruct (begin_create _ _ _ _ _ _ _ s') as [s2 out].
    repeat rewrite <- app_assoc. reflexivity.
Qed.

End CreateRunFacts.

Section ArtifactFacts.

Import PyStr.



Lemma add_latest_tag_tagged (a : string) :
  str_in ":" a = true \/ str_in "@" a = true ->
  pipelinerun.add_latest_tag a = a.
Proof.
  intros H. unfold pipelinerun.add_latest_tag.
  destruct H as [H|H]; rewrite H; cbn [negb andb];
    [reflexivity | now rewrite andb_false_r].
Qed.

End ArtifactFacts.

(** ** Deleting a resource *)

Section DeleteClaims.

Import sdk.

(** C5: each of the three delete commands first reads the named resource.
    When the read raises, the command raises a resource-not-found error
    whose message names the kind of the resource, the resource, the
    registry and the resource group, and nothing is deleted.  When the read
    returns, the command issues [begin_delete] and returns what that call
    returns, the handle of the long-running operation, with no further
    step. *)
Theorem delete_reads_then_deletes {sys poller : Type}
    (client : Client sys poller) (rg reg nm : string)
    (w : world event sys) :
  (forall s' e,
     get _ _ (import_pipelines client) rg reg nm (st w) = (s', inl e) ->
     importpipeline.delete_importpipeline client rg reg nm w
     = (World s' (log w ++ [Call (ImportPipelinesGet rg reg nm)]),
        inl (Exn ResourceNotFoundError
               (not_found_message "Import pipeline" nm reg rg) (Some e)))) /\
  (forall s' s'' x out,
     get _ _ (import_pipelines client) rg reg nm (st w) = (s', inr x) ->
     begin_delete _ _ (import_pipelines client) rg reg nm s' = (s'', out) ->
     importpipeline.delete_importpipeline client rg reg nm w
     = (World s'' (log w ++ [Call (ImportPipelinesGet rg reg nm);
                             Call (ImportPipelinesBeginDelete rg reg nm)]),
        out)) /\
  (forall s' e,
     get _ _ (export_pipelines client) rg reg nm (st w) = (s', inl e) ->
     exportpipeline.delete_exportpipeline client rg reg nm w
     = (World s' (log w ++ [Call (ExportPipelinesGet rg reg nm)]),
        inl (Exn ResourceNotFoundError
               (not_found_message "Export pipeline" nm reg rg) (Some e)))) /\
  (forall s' s'' x out,
     get _ _ (export_pipelines client) rg reg nm (st w) = (s', inr x) ->
     begin_delete _ _ (export_pipelines client) rg reg nm s' = (s'', out) ->
     exportpipeline.delete_exportpipeline client rg reg nm w
     = (World s'' (log w ++ [Call (ExportPipelinesGet rg reg nm);
                             Call (ExportPipelinesBeginDelete rg reg nm)]),
        out)) /\
  (forall s' e,
     get _ _ (pipeline_runs client) rg reg nm (st w) = (s', inl e) ->
     pipelinerun.delete_pipelinerun client rg reg nm w
     = (World s' (log w ++ [Call (PipelineRunsGet rg reg nm)]),
        inl (Exn ResourceNotFoundError
               (not_found_message "Pipeline-run" nm reg rg) (Some e)))) /\
  (forall s' s'' x out,
     get _ _ (pipeline_runs client) rg reg nm (st w) = (s', inr x) ->
     begin_delete _ _ (pipeline_runs client) rg reg nm s' = (s'', out) ->
     pipelinerun.delete_pipelinerun client rg reg nm w
     = (World s'' (log w ++ [Call (PipelineRunsGet rg reg nm);
                             Call (PipelineRunsBeginDelete rg reg nm)]),
        out)) /\
  (forall kind,
     PyStr.str_in kind (not_found_message kind nm reg rg) = true /\
     PyStr.str_in nm (not_found_message kind nm reg rg) = true /\
     PyStr.str_in reg (not_found_message kind nm reg rg) = true /\
     PyStr.str_in rg (not_found_message kind nm reg rg) = true).
Proof.
  split; [intros s' e; apply delete_importpipeline_read_fails|].
  split; [intros s' s'' x out; apply delete_importpipeline_read_ok|].
  split; [intros s' e; apply delete_exportpipeline_read_fails|].
  split; [intros s' s'' x out; apply delete_exportpipeline_read_ok|].
  split; [intros s' e; apply delete_pipelinerun_read_fails|].
  split; [intros s' s'' x out; apply delete_pipelinerun_read_ok|].
  intros kind. apply not_found_message_carries.
Qed.

(** Witness of C5: on the populated registry the import pipeline "imp" is
    read and deleted and the handle comes back; the export pipeline "nope"
    is not there and nothing is deleted. *)
Lemma delete_reads_then_deletes_witness :
  (exists s,
     importpipeline.delete_importpipeline Sample.client "rg" "reg" "imp"
       (Sample.start Sample.populated)
     = (World s [Call (ImportPipelinesGet "rg" "reg" "imp");
                 Call (ImportPipelinesBeginDelete "rg" "reg" "imp")],
        inr "delete imp")) /\
  exportpipeline.delete_exportpipeline Sample.client "rg" "reg" "nope"
    (Sample.start Sample.populated)
  = (World Sample.populated [Call (ExportPipelinesGet "rg" "reg" "nope")],
     inl (Exn ResourceNotFoundError
            "Export pipeline nope not found on registry reg in the rg resource group."
            (Some (Sample.missing "nope")))).
Proof.
  split.
  - eexists.
    eapply (proj1 (proj2 (delete_reads_then_deletes Sample.client
                            "rg" "reg" "imp"
                            (Sample.start Sample.populated))));
      reflexivity.
  - eapply (proj1 (proj2 (proj2 (delete_reads_then_deletes Sample.client
                                   "rg" "reg" "nope"
                                   (Sample.start Sample.populated)))));
      reflexivity.
Defined.

(** C9: whatever exception the read of a delete command raises, a
    connection or request error as much as a missing resource, the command
    raises a resource-not-found error with that exception as its cause, and
    issues no delete; the state of the service plays no part, so a resource
    that exists is reported as not found while reads fail. *)
Theorem delete_reports_every_read_error_as_not_found {sys poller : Type}
    (client : Client sys poller) (rg reg nm : string)
    (w : world event sys) (s' : sys)
    (cls : exn_class) (msg : string) (cause : option exn) :
  (get _ _ (import_pipelines client) rg reg nm (st w)
   = (s', inl (Exn cls msg cause)) ->
   importpipeline.delete_importpipeline client rg reg nm w
   = (World s' (log w ++ [Call (ImportPipelinesGet rg reg nm)]),
      inl (Exn ResourceNotFoundError
             (not_found_message "Import pipeline" nm reg rg)
             (Some (Exn cls msg cause))))) /\
  (get _ _ (export_pipelines client) rg reg nm (st w)
   = (s', inl (Exn cls msg cause)) ->
   exportpipeline.delete_exportpipeline client rg reg nm w
   = (World s' (log w ++ [Call (ExportPipelinesGet rg reg nm)]),
      inl (Exn ResourceNotFoundError
             (not_found_message "Export pipeline" nm reg rg)
             (Some (Exn cls msg cause))))) /\
  (get _ _ (pipeline_runs client) rg reg nm (st w)
   = (s', inl (Exn cls msg cause)) ->
   pipelinerun.delete_pipelinerun client rg reg nm w
   = (World s' (log w ++ [Call (PipelineRunsGet rg reg nm)]),
      inl (Exn ResourceNotFoundError
             (not_found_message "Pipeline-run" nm reg rg)
             (Some (Exn cls msg cause))))).
Proof.
  split; [apply delete_importpipeline_read_fails|].
  split; [apply delete_exportpipeline_read_fails
         |apply delete_pipelinerun_read_fails].
Qed.

(** Witness of C9: the registry holds "imp", "exp" and "r1" but cannot be
    reached; each delete reports its resource as not found. *)
Lemma delete_reports_every_read_error_as_not_found_witness :
  Sample.lookup "imp" (Sample.imports Sample.unreachable)
  = Some Sample.an_import_pipeline /\
  snd (importpipeline.delete_importpipeline Sample.client "rg" "reg" "imp"
         (Sample.start Sample.unreachable))
  = inl (Exn ResourceNotFoundError
           "Import pipeline imp not found on registry reg in the rg resource group."
           (Some Sample.connection_error)) /\
  snd (exportpipeline.delete_exportpipeline Sample.client "rg" "reg" "exp"
         (Sample.start Sample.unreachable))
  = inl (Exn ResourceNotFoundError
           "Export pipeline exp not found on registry reg in the rg resource group."
           (Some Sample.connection_error)) /\
  snd (pipelinerun.delete_pipelinerun Sample.client "rg" "reg" "r1"
         (Sample.start Sample.unreachable))
  = inl (Exn ResourceNotFoundError
           "Pipeline-run r1 not found on registry reg in the rg resource group."
           (Some Sample.connection_error)).
Proof.
  split; [reflexivity|].
  split; [|split].
  - rewrite (proj1 (delete_reports_every_read_error_as_not_found
                      Sample.client "rg" "reg" "imp"
                      (Sample.start Sample.unreachable) Sample.unreachable
                      AzureConnectionError
                      "Connection to the service failed." None) eq_refl).
    reflexivity.
  - rewrite (proj1 (proj2 (delete_reports_every_read_error_as_not_found
                      Sample.client "rg" "reg" "exp"
                      (Sample.start Sample.unreachable) Sample.unreachable
                      AzureConnectionError
                      "Connection to the service failed." None)) eq_refl).
    reflexivity.
  - rewrite (proj2 (proj2 (delete_reports_every_read_error_as_not_found
                      Sample.client "rg" "reg" "r1"
                      (Sample.start Sample.unreachable) Sample.unreachable
                      AzureConnectionError
                      "Connection to the service failed." None)) eq_refl).
    reflexivity.
Defined.

End DeleteClaims.

(** ** Creating an export run *)

Section CreateRunClaims.

Import sdk.

(** C10: in the export branch of [create_pipelinerun] the pipeline is read
    before the artifacts are looked at.  When the read raises, the command
    raises the resource-not-found error whatever the artifacts are, absent
    ones included; and whenever the command raises a
    required-argument-missing error, the read had returned a pipeline. *)
Theorem create_pipelinerun_reads_pipeline_before_artifacts
    {sys poller : Type} (env : Env sys) (client : Client sys poller)
    (rg reg pipeline_name run_name pipeline_type blob : string)
    (force : bool) (w : world event sys) :
  pipeline_type <> "import" ->
  (forall s' e artifacts,
     get _ _ (export_pipelines client) rg reg pipeline_name (st w)
     = (s', inl e) ->
     pipelinerun.create_pipelinerun env client rg reg pipeline_name run_name
       pipeline_type blob artifacts force w
     = (World s' (log w ++ [Call (ExportPipelinesGet rg reg pipeline_name)]),
        inl (Exn ResourceNotFoundError
               (not_found_message "Export pipeline" pipeline_name reg rg)
               (Some e)))) /\
  (forall artifacts msg cause,
     snd (pipelinerun.create_pipelinerun env client rg reg pipeline_name
            run_name pipeline_type blob artifacts force w)
     = inl (Exn RequiredArgumentMissingError msg cause) ->
     exists s' p,
       get _ _ (export_pipelines client) rg reg pipeline_name (st w)
       = (s', inr p)).
Proof.
  intros Ht. split.
  - intros s' e artifacts H.
    now apply create_pipelinerun_export_read_fails.
  - intros artifacts msg cause H.
    destruct (get _ _ (export_pipelines client) rg reg pipeline_name (st w))
      as [s' [e|p]] eqn:Hget.
    + rewrite (create_pipelinerun_export_read_fails env client rg reg
                 pipeline_name run_name pipeline_type blob force w
                 artifacts s' e Ht Hget) in H.
      discriminate H.
    + now exists s', p.
Qed.

(** Witness of C10: no export pipeline "nope" and no artifacts. *)
Lemma create_pipelinerun_reads_pipeline_before_artifacts_witness :
  pipelinerun.create_pipelinerun Sample.env Sample.client "rg" "reg" "nope"
    "run1" "export" "blob" None false (Sample.start Sample.populated)
  = (World Sample.populated [Call (ExportPipelinesGet "rg" "reg" "nope")],
     inl (Exn ResourceNotFoundError
            "Export pipeline nope not found on registry reg in the rg resource group."
            (Some (Sample.missing "nope")))).
Proof.
  eapply (proj1 (create_pipelinerun_reads_pipeline_before_artifacts
                   Sample.env Sample.client "rg" "reg" "nope" "run1"
                   "export" "blob" false (Sample.start Sample.populated)
                   ltac:(discriminate)));
    reflexivity.
Defined.




End CreateRunClaims.

(** ** Listing runs *)

Section SliceFacts.

Import PyStr.

Context {A : Type}.

(** [l[-n:]] for a positive [n] no smaller than the list is the list. *)
Lemma slice_from_neg_all (l : list A) (n : Z) :
  0 < n -> Z.of_nat (length l) <= n -> slice_from l (- n) = l.
Proof.
  intros Hpos Hlen. unfold slice_from.
  destruct (Z.ltb_spec (- n) 0) as [_|H]; [|lia].
  rewrite Z.max_r by lia. reflexivity.
Qed.

(** [l[-n:]] for a positive [n] below the length of the list drops all but
    the last [n] items. *)
Lemma slice_from_neg_last (l : list A) (n : Z) :
  0 < n -> n < Z.of_nat (length l) ->
  slice_from l (- n) = skipn (length l - Z.to_nat n) l.
Proof.
  intros Hpos Hlen. unfold slice_from.
  destruct (Z.ltb_spec (- n) 0) as [_|H]; [|lia].
  rewrite Z.max_l by lia. f_equal. lia.
Qed.

(** [l[-0:]] is [l[0:]], the whole list. *)
Lemma slice_from_neg_zero (l : list A) : slice_from l (- 0) = l.
Proof.
  unfold slice_from. cbn [Z.opp Z.ltb Z.compare].
  rewrite Z.min_l by lia. reflexivity.
Qed.

End SliceFacts.

#[local] Hint Unfold pipelinerun.list_pipelinerun : cmd.

Section ListFacts.

Import sdk.

Context {sys poller : Type}.
Variable client : Client sys poller.
Variables rg reg : string.
Variable w : world event sys.
Variable s' : sys.
Variable runs : list PipelineRun.
Hypothesis listed :
  list_ _ _ (pipeline_runs client) rg reg (st w) = (s', inr runs).

(** Without [top] the command hands back the iterable of the client as it
    is: the service has not been asked, and consuming the iterable then
    gives the whole listing. *)
Lemma list_pipelinerun_all :
  pipelinerun.list_pipelinerun client rg reg None w
  = (World (st w) (log w ++ [Call (PipelineRunsList rg reg)]),
     inr (pipelinerun.Paged (list_ _ _ (pipeline_runs client) rg reg))) /\
  list_of (list_ _ _ (pipeline_runs client) rg reg)
    (World (st w) (log w ++ [Call (PipelineRunsList rg reg)]))
  = (World s' (log w ++ [Call (PipelineRunsList rg reg)]), inr runs).
Proof. split; run_cmd; [|rewrite listed]; reflexivity. Qed.

(** With a [top] that [int] accepts, the result is the slice
    [runs[-int(top):]]. *)
Lemma list_pipelinerun_top (top : string) (n : Z) :
  PyStr.int top = Some n ->
  pipelinerun.list_pipelinerun client rg reg (Some top) w
  = (World s' (log w ++ [Call (PipelineRunsList rg reg)]),
     inr (pipelinerun.Listed (PyStr.slice_from runs (- n)))).
Proof. intros H. run_cmd. rewrite H. cbn [st log]. rewrite listed. reflexivity. Qed.

(** For a positive [top] below the number of runs, the result is the last
    [top] runs in the order of the listing. *)
Lemma list_pipelinerun_top_last (top : string) (n : Z) :
  PyStr.int top = Some n -> 0 < n -> n < Z.of_nat (length runs) ->
  exists front last_n,
    runs = (front ++ last_n)%list /\
    Z.of_nat (length last_n) = n /\
    pipelinerun.list_pipelinerun client rg reg (Some top) w
    = (World s' (log w ++ [Call (PipelineRunsList rg reg)]),
       inr (pipelinerun.Listed last_n)).
Proof.
  intros H Hpos Hlen.
  exists (firstn (length runs - Z.to_nat n) runs),
         (skipn (length runs - Z.to_nat n) runs).
  split; [now rewrite firstn_skipn|].
  split; [rewrite length_skipn; lia|].
  rewrite (list_pipelinerun_top top n H).
  now rewrite slice_from_neg_last.
Qed.

(** For a positive [top] that is at least the number of runs, the result
    is the whole listing. *)
Lemma list_pipelinerun_top_all (top : string) (n : Z) :
  PyStr.int top = Some n -> 0 < n -> Z.of_nat (length runs) <= n ->
  pipelinerun.list_pipelinerun client rg reg (Some top) w
  = (World s' (log w ++ [Call (PipelineRunsList rg reg)]),
     inr (pipelinerun.Listed runs)).
Proof.
  intros H Hpos Hlen. rewrite (list_pipelinerun_top top n H).
  now rewrite slice_from_neg_all.
Qed.

(** For a [top] of zero the result is the whole listing as well. *)
Lemma list_pipelinerun_top_zero (top : string) :
  PyStr.int top = Some 0 ->
  pipelinerun.list_pipelinerun client rg reg (Some top) w
  = (World s' (log w ++ [Call (PipelineRunsList rg reg)]),
     inr (pipelinerun.Listed runs)).
Proof.
  intros H. rewrite (list_pipelinerun_top top 0 H).
  now rewrite slice_from_neg_zero.
Qed.

End ListFacts.

(** C3, where the code departs from it: "0" is a [top] the validator
    accepts, the registry lists three runs, and the command returns all
    three of them, not the last zero. *)
Theorem list_pipelinerun_top_zero_returns_all :
  validators.validate_top
    (World (validators.Build_Namespace None None None (Some "0")) [])
  = (World (validators.Build_Namespace None None None (Some "0")) [],
     inr tt) /\
  pipelinerun.list_pipelinerun Sample.client "rg" "reg" (Some "0")
    (Sample.start Sample.three_runs)
  = (World Sample.three_runs [sdk.Call (sdk.PipelineRunsList "rg" "reg")],
     inr (pipelinerun.Listed
            [Sample.run "r1" "Succeeded"; Sample.run "r2" "Succeeded";
             Sample.run "r3" "Succeeded"])).
Proof. split; reflexivity. Qed.

(** ** Cleaning up failed runs *)

Section CleanFacts.

Import sdk.

Context {sys poller : Type}.
Variable client : Client sys poller.
Variables rg reg : string.
Variable total : Z.

Lemma run_deletions_app (l1 l2 : list event) :
  run_deletions (l1 ++ l2) = (run_deletions l1 ++ run_deletions l2)%list.
Proof.
  induction l1 as [|ev l1 IH]; [reflexivity|].
  destruct ev as [[]|]; cbn [app run_deletions]; now rewrite IH.
Qed.

(** One turn of the loop after a delete that returned: the success counter
    grows, and at most a progress warning follows the call. *)
Lemma clean_step_deleted (x : PipelineRun) (sc fc : Z)
    (w : world event sys) (s' : sys) (h : poller) :
  begin_delete _ _ (pipeline_runs client) rg reg (name x) (st w)
  = (s', inr h) ->
  exists w',
    pipelinerun.clean_step client rg reg total (sc, fc) x w
    = (w', inr (sc + 1, fc)) /\
    st w' = s' /\
    run_deletions (log w') = (run_deletions (log w) ++ [name x])%list.
Proof.
  intros H. unfold pipelinerun.clean_step. run_cmd. rewrite H.
  cbn [st log fst snd].
  destruct ((sc + 1) mod 100 =? 0); cbn [st log];
    (eexists; split; [reflexivity|]; split; [reflexivity|]);
    cbn [log]; repeat rewrite run_deletions_app; cbn [run_deletions];
    now rewrite ?app_nil_r.
Qed.

(** One turn of the loop after a delete that raised an error the [except]
    clause names: the failure counter grows and the loop goes on. *)
Lemma clean_step_caught (x : PipelineRun) (sc fc : Z)
    (w : world event sys) (s' : sys) (e : exn) :
  begin_delete _ _ (pipeline_runs client) rg reg (name x) (st w)
  = (s', inl e) ->
  pipelinerun.caught_by_clean e = true ->
  exists w',
    pipelinerun.clean_step client rg reg total (sc, fc) x w
    = (w', inr (sc, fc + 1)) /\
    st w' = s' /\
    run_deletions (log w') = (run_deletions (log w) ++ [name x])%list.
Proof.
  intros H Hc. unfold pipelinerun.clean_step. run_cmd. rewrite H.
  cbn [st log fst snd]. rewrite Hc. cbn [st log fst snd].
  destruct (sc mod 100 =? 0); cbn [st log];
    (eexists; split; [reflexivity|]; split; [reflexivity|]);
    cbn [log]; repeat rewrite run_deletions_app; cbn [run_deletions];
    now rewrite ?app_nil_r.
Qed.

(** One turn of the loop after a delete that raised any other error: the
    error leaves the loop. *)
Lemma clean_step_escapes (x : PipelineRun) (sc fc : Z)
    (w : world event sys) (s' : sys) (e : exn) :
  begin_delete _ _ (pipeline_runs client) rg reg (name x) (st w)
  = (s', inl e) ->
  pipelinerun.caught_by_clean e = false ->
  pipelinerun.clean_step client rg reg total (sc, fc) x w
  = (World s' (log w ++ [Call (PipelineRunsBeginDelete rg reg (name x))]),
     inl e).
Proof.
  intros H Hc. unfold pipelinerun.clean_step. run_cmd. rewrite H.
  cbn [st log fst snd]. rewrite Hc. reflexivity.
Qed.

Lemma for_each_cons {X B : Type} (body : B -> X -> C sys B) (x : X)
    (l : list X) (acc acc' : B) (w w' : world event sys) :
  body acc x w = (w', inr acc') ->
  pipelinerun.for_each body (x :: l) acc w = pipelinerun.for_each body l acc' w'.
Proof.
  intros H. cbn [pipelinerun.for_each]. unfold bind. now rewrite H.
Qed.









End CleanFacts.

#[local] Hint Unfold pipelinerun.clean_pipelinerun : cmd.

Section CleanClaims.

Import sdk.

Context {sys poller : Type}.
Variable client : Client sys poller.
Variables rg reg : string.
Variable w : world event sys.
Variable s' : sys.
Variable runs : list PipelineRun.
Hypothesis listed :
  list_ _ _ (pipeline_runs client) rg reg (st w) = (s', inr runs).




End CleanClaims.

Section CleanTheorem.

Import sdk.




End CleanTheorem.

(** ** Statements that only write to the log *)

Section LogFacts.

Context {Ev St : Type}.








End LogFacts.


(** ** Resource ids for the guidance text *)

Section ExtractorFacts.

Import sdk.

(** The first item of [h.split('.')] is the first label of [h]. *)
Lemma split_first_label (h : string) :
  exists rest, PyStr.split "." h = Spec.first_label h :: rest.
Proof.
  induction h as [|c h [rest IH]]; cbn [PyStr.split Spec.first_label].
  - now exists [].
  - destruct (Ascii.eqb c "."); [now eexists|].
    rewrite IH. now exists rest.
Qed.

(** The first label has no dot in it, and the host name is the label
    alone or the label, a dot and more. *)
Lemma first_label_spec (h : string) :
  ~ In "."%char (list_ascii_of_string (Spec.first_label h)) /\
  (h = Spec.first_label h \/
   exists more, h = Spec.first_label h ++ "." ++ more).
Proof.
  induction h as [|c h [IHno IHeq]]; cbn [Spec.first_label].
  - split; [intros [] | now left].
  - destruct (Ascii.eqb_spec c ".") as [->|Hne].
    + split; [intros [] | right; now exists h].
    + split.
      * cbn [list_ascii_of_string In]. intros [H|H]; [|now apply IHno].
        now elim Hne.
      * destruct IHeq as [IH|[more IH]].
        -- left. f_equal. exact IH.
        -- right. exists more. cbn [append]. f_equal. exact IH.
Qed.

Context {sys : Type}.
Variable env : Env sys.
Variables sub rg uri : string.
Variable w : world event sys.

Ltac run_extractor :=
  cbv beta delta
    [importpipeline._extract_storage_account_resource_id
     importpipeline._extract_keyvault_resource_id
     importpipeline.first_host_label
     exportpipeline._extract_storage_account_resource_id
     exportpipeline._extract_keyvault_resource_id
     exportpipeline.first_host_label
     try_except bind ret raise of_result];
  destruct (urlparse_hostname env uri) as [e|[h|]];
  [reflexivity
  |destruct (split_first_label h) as [rest ->]; reflexivity
  |reflexivity].

Lemma import_extract_storage_account_resource_id_result :
  importpipeline._extract_storage_account_resource_id env sub rg uri w
  = (w, inr match urlparse_hostname env uri with
            | inr (Some h) =>
                "/subscriptions/" ++ sub ++ "/resourceGroups/" ++ rg
                ++ "/providers/Microsoft.Storage/storageAccounts/"
                ++ Spec.first_label h
            | _ => "<storage-account-resource-id>"
            end).
Proof. run_extractor. Qed.

Lemma import_extract_keyvault_resource_id_result :
  importpipeline._extract_keyvault_resource_id env sub rg uri w
  = (w, inr match urlparse_hostname env uri with
            | inr (Some h) =>
                "/subscriptions/" ++ sub ++ "/resourceGroups/" ++ rg
                ++ "/providers/Microsoft.KeyVault/vaults/"
                ++ Spec.first_label h
            | _ => "<key-vault-resource-id>"
            end).
Proof. run_extractor. Qed.

Lemma export_extract_storage_account_resource_id_result :
  exportpipeline._extract_storage_account_resource_id env sub rg uri w
  = (w, inr match urlparse_hostname env uri with
            | inr (Some h) =>
                "/subscriptions/" ++ sub ++ "/resourceGroups/" ++ rg
                ++ "/providers/Microsoft.Storage/storageAccounts/"
                ++ Spec.first_label h
            | _ => "<storage-account-resource-id>"
            end).
Proof. run_extractor. Qed.

Lemma export_extract_keyvault_resource_id_result :
  exportpipeline._extract_keyvault_resource_id env sub rg uri w
  = (w, inr match urlparse_hostname env uri with
            | inr (Some h) =>
                "/subscriptions/" ++ sub ++ "/resourceGroups/" ++ rg
                ++ "/providers/Microsoft.KeyVault/vaults/"
                ++ Spec.first_label h
            | _ => "<key-vault-resource-id>"
            end).
Proof. run_extractor. Qed.

End ExtractorFacts.

Section ExtractorClaims.

Import sdk.

(** C8: the resource-id extractors return a string on every input and
    leave the world as it was.  When [urlparse(uri).hostname] raises or is
    [None] the string is the placeholder; when it is a host name the string
    is the resource id under [Microsoft.Storage/storageAccounts],
    respectively [Microsoft.KeyVault/vaults], that ends in the first label
    of the host name: the characters before its first dot. *)
Theorem resource_id_extractors_never_raise {sys : Type} (env : Env sys)
    (sub rg uri : string) (w : world event sys) :
  (exists id,
     importpipeline._extract_storage_account_resource_id env sub rg uri w
     = (w, inr id) /\
     exportpipeline._extract_storage_account_resource_id env sub rg uri w
     = (w, inr id) /\
     ((forall h, urlparse_hostname env uri <> inr (Some h)) ->
      id = "<storage-account-resource-id>") /\
     (forall h, urlparse_hostname env uri = inr (Some h) ->
      id = "/subscriptions/" ++ sub ++ "/resourceGroups/" ++ rg
           ++ "/providers/Microsoft.Storage/storageAccounts/"
           ++ Spec.first_label h)) /\
  (exists id,
     exportpipeline._extract_keyvault_resource_id env sub rg uri w
     = (w, inr id) /\
     importpipeline._extract_keyvault_resource_id env sub rg uri w
     = (w, inr id) /\
     ((forall h, urlparse_hostname env uri <> inr (Some h)) ->
      id = "<key-vault-resource-id>") /\
     (forall h, urlparse_hostname env uri = inr (Some h) ->
      id = "/subscriptions/" ++ sub ++ "/resourceGroups/" ++ rg
           ++ "/providers/Microsoft.KeyVault/vaults/"
           ++ Spec.first_label h)) /\
  (forall h,
     ~ In "."%char (list_ascii_of_string (Spec.first_label h)) /\
     (h = Spec.first_label h \/
      exists more, h = Spec.first_label h ++ "." ++ more)).
Proof.
  split; [|split; [|exact first_label_spec]].
  - eexists. split;
      [apply import_extract_storage_account_resource_id_result|].
    split; [apply export_extract_storage_account_resource_id_result|].
    split.
    + intros Hno. destruct (urlparse_hostname env uri) as [e|[h|]];
        try reflexivity. now elim (Hno h).
    + intros h ->. reflexivity.
  - eexists. split; [apply export_extract_keyvault_resource_id_result|].
    split; [apply import_extract_keyvault_resource_id_result|].
    split.
    + intros Hno. destruct (urlparse_hostname env uri) as [e|[h|]];
        try reflexivity. now elim (Hno h).
    + intros h ->. reflexivity.
Qed.

(** Witness of C8: a container URI with a host name, and a text without
    one. *)
Lemma resource_id_extractors_never_raise_witness :
  importpipeline._extract_storage_account_resource_id Sample.env "sub" "rg"
    "https://acct.blob.core.windows.net/c" (Sample.start Sample.empty)
  = (Sample.start Sample.empty,
     inr "/subscriptions/sub/resourceGroups/rg/providers/Microsoft.Storage/storageAccounts/acct") /\
  exportpipeline._extract_keyvault_resource_id Sample.env "sub" "rg"
    "no host here" (Sample.start Sample.empty)
  = (Sample.start Sample.empty, inr "<key-vault-resource-id>").
Proof.
  split.
  - destruct (proj1 (resource_id_extractors_never_raise Sample.env "sub" "rg"
                       "https://acct.blob.core.windows.net/c"
                       (Sample.start Sample.empty)))
      as (id & Hrun & _ & _ & Hid).
    rewrite Hrun. rewrite (Hid "acct.blob.core.windows.net" eq_refl).
    reflexivity.
  - destruct (proj1 (proj2 (resource_id_extractors_never_raise Sample.env
                              "sub" "rg" "no host here"
                              (Sample.start Sample.empty))))
      as (id & Hrun & _ & Hid & _).
    rewrite Hrun. rewrite Hid; [reflexivity|].
    intros h H. discriminate H.
Defined.

End ExtractorClaims.

(** ** Creating a pipeline *)

Section CreatePipelineFacts.

Import sdk.

Lemma lower_if_truthy_import (kv : option string) :
  importpipeline.lower_if_truthy kv = option_map PyStr.lower kv.
Proof. destruct kv as [[|c u]|]; reflexivity. Qed.

Lemma lower_if_truthy_export (kv : option string) :
  exportpipeline.lower_if_truthy kv = option_map PyStr.lower kv.
Proof. destruct kv as [[|c u]|]; reflexivity. Qed.

Context {sys poller : Type}.


End CreatePipelineFacts.

Section CreatePipelineClaims.

Import sdk.




End CreatePipelineClaims.

(** ** The commands on the sample registry *)

Section Runs.

Import sdk.

Example int_accepts :
  PyStr.int "42" = Some 42 /\ PyStr.int " -3 " = Some (-3) /\
  PyStr.int "+1_000" = Some 1000 /\ PyStr.int "007" = Some 7.
Proof. repeat split. Qed.

Example int_rejects :
  PyStr.int EmptyString = None /\ PyStr.int "five" = None /\ PyStr.int "4 2" = None /\
  PyStr.int "1__0" = None /\ PyStr.int "1_" = None /\ PyStr.int "2.5" = None.
Proof. repeat split. Qed.

Example slices :
  PyStr.slice_from [1; 2; 3] (- 2) = [2; 3] /\
  PyStr.slice_from [1; 2; 3] (- 5) = [1; 2; 3] /\
  PyStr.slice_from [1; 2; 3] (- 0) = [1; 2; 3] /\
  PyStr.slice_from [1; 2; 3] (- -1) = [2; 3].
Proof. repeat split. Qed.

Example split_host :
  PyStr.split "." "acct.blob.core.windows.net"
  = ["acct"; "blob"; "core"; "windows"; "net"].
Proof. reflexivity. Qed.

(** [--top 2] on three runs gives the last two. *)
Example list_top_two :
  snd (pipelinerun.list_pipelinerun Sample.client "rg" "reg" (Some "2")
         (Sample.start Sample.three_runs))
  = inr (pipelinerun.Listed
           [Sample.run "r2" "Succeeded"; Sample.run "r3" "Succeeded"]).
Proof. reflexivity. Qed.

(** The live cleanup of the sample registry: "a" is locked, "c" and "d"
    are deleted; two successes and one failure are reported. *)
Example clean_live_run :
  let r := pipelinerun.clean_pipelinerun Sample.client "rg" "reg" false
             (Sample.start Sample.failed_runs) in
  snd r = inr None /\
  run_deletions (log (fst r)) = ["a"; "c"; "d"] /\
  map name (Sample.runs (st (fst r))) = ["a"; "b"] /\
  skipn 6 (log (fst r))
  = [Warning "Deletion complete: Deleted %s failed pipeline-runs." [LInt 2];
     Warning "%s deletions failed." [LInt 1]].
Proof. repeat split. Qed.

(** An export run with three artifacts. *)
Example create_export_run :
  let r := pipelinerun.create_pipelinerun Sample.env Sample.client
             "rg" "reg" "exp" "run1" "export" "blob"
             (Some ["repo1"; "repo2:v2"; "repo3@sha256:abc"]) false
             (Sample.start Sample.populated) in
  snd r = inr "create run1" /\
  log (fst r)
  = [Call (ExportPipelinesGet "rg" "reg" "exp");
     Warning "Authenticating to Storage Account using Entra Managed Identity."
       [];
     Call (PipelineRunsBeginCreate "rg" "reg" "run1"
             {| create_request :=
                  Some {| pipeline_resource_id :=
                            Some "/registries/reg/exportPipelines/exp";
                          run_source := None;
                          run_target := Some {| run_target_name := "blob" |};
                          artifacts :=
                            Some ["repo1:latest"; "repo2:v2";
                                  "repo3@sha256:abc"] |};
                force_update_tag := None |})].
Proof. split; reflexivity. Qed.

(** An import pipeline created from URIs written with capitals. *)
Example create_import_pipeline_run :
  option_map source_uri
    (match snd (importpipeline.create_importpipeline Sample.env Sample.client
                  "rg" "reg" "imp2"
                  "HTTPS://Acct.Blob.Core.Windows.NET/Images" "SasToken"
                  (Some "https://KV.vault.azure.net/secrets/Sas") None None
                  true (Sample.start Sample.empty)) with
     | inr p => source p
     | inl _ => None
     end)
  = Some (Some "https://acct.blob.core.windows.net/images").
Proof. reflexivity. Qed.

End Runs.

(** * Further properties of the commands *)

(** ** The [top] argument, from validation to listing *)

Section LiteralFacts.

Import PyStr.















Lemma int_error_is_value_error (t : string) : exn_cls (int_error t) = ValueError.
Proof. reflexivity. Qed.

End LiteralFacts.

Section TopFacts.

Import sdk.


Lemma validate_top_result (ns : validators.Namespace)
    (l : list validators.event) :
  snd (validators.validate_top (World ns l))
  = match validators.top ns with
    | None => inr tt
    | Some t =>
        match PyStr.int t with
        | Some _ => inr tt
        | None =>
            inl (Exn InvalidArgumentValueError
                   ("Argument provided for parameter top '" ++ t
                    ++ "' is not an integer. Please provide an integer for the top parameter.")
                   (Some (int_error t)))
        end
    end.
Proof.
  unfold validators.validate_top, bind, get_st, ret, raise. cbn [st log].
  destruct (validators.top ns) as [t|]; [|reflexivity].
  now destruct (PyStr.int t).
Qed.



Lemma slice_from_is_suffix {A : Type} (l : list A) (start : Z) :
  exists front, l = (front ++ PyStr.slice_from l start)%list.
Proof.
  unfold PyStr.slice_from. eexists. symmetry. apply firstn_skipn.
Qed.

Context {sys poller : Type}.
Variable client : Client sys poller.
Variables rg reg : string.
Variable w : world event sys.

(** With a [top] that [int] accepts, the command consumes the listing and
    passes on what the listing raises. *)
Lemma list_pipelinerun_top_listing_fails (top : string) (n : Z) (s' : sys)
    (e : exn) :
  PyStr.int top = Some n ->
  list_ _ _ (pipeline_runs client) rg reg (st w) = (s', inl e) ->
  pipelinerun.list_pipelinerun client rg reg (Some top) w
  = (World s' (log w ++ [Call (PipelineRunsList rg reg)]), inl e).
Proof. intros H Hl. run_cmd. rewrite H. cbn [st log]. now rewrite Hl. Qed.

(** X2: a [top] that [validate_top] lets through never makes
    [list_pipelinerun] fail.  The command then asks the service for the
    listing: when that raises, the command raises the same exception, and
    when it gives the runs, the command returns a tail of them, in the
    order of the listing. *)
Theorem validated_top_lists_a_tail (ns : validators.Namespace)
    (l : list validators.event) (t : string) :
  validators.top ns = Some t ->
  snd (validators.validate_top (World ns l)) = inr tt ->
  (forall s' e,
     list_ _ _ (pipeline_runs client) rg reg (st w) = (s', inl e) ->
     pipelinerun.list_pipelinerun client rg reg (Some t) w
     = (World s' (log w ++ [Call (PipelineRunsList rg reg)]), inl e)) /\
  (forall s' runs,
     list_ _ _ (pipeline_runs client) rg reg (st w) = (s', inr runs) ->
     exists front kept,
       runs = (front ++ kept)%list /\
       pipelinerun.list_pipelinerun client rg reg (Some t) w
       = (World s' (log w ++ [Call (PipelineRunsList rg reg)]),
          inr (pipelinerun.Listed kept))).
Proof.
  intros Htop Hok. rewrite validate_top_result, Htop in Hok.
  destruct (PyStr.int t) as [n|] eqn:Hint; [clear Hok | discriminate Hok].
  split.
  - intros s' e Hlist. now apply list_pipelinerun_top_listing_fails with n.
  - intros s' runs Hlist.
    destruct (slice_from_is_suffix runs (- n)) as [front Hfront].
    exists front, (PyStr.slice_from runs (- n)). split; [exact Hfront|].
    now apply list_pipelinerun_top.
Qed.

(** X3: a negative [top] is accepted and does not count from the end: with
    [top] = -k the command drops the first k runs of the listing and
    returns the rest. *)
Theorem list_pipelinerun_negative_top_drops_front (t : string) (n : Z)
    (s' : sys) (runs : list PipelineRun) :
  PyStr.int t = Some n -> n < 0 ->
  list_ _ _ (pipeline_runs client) rg reg (st w) = (s', inr runs) ->
  pipelinerun.list_pipelinerun client rg reg (Some t) w
  = (World s' (log w ++ [Call (PipelineRunsList rg reg)]),
     inr (pipelinerun.Listed (skipn (Z.to_nat (- n)) runs))).
Proof.
  intros Hint Hneg Hlist.
  rewrite (list_pipelinerun_top client rg reg w s' runs Hlist t n Hint).
  do 3 f_equal. unfold PyStr.slice_from.
  destruct (Z.ltb_spec (- n) 0) as [H|_]; [lia|].
  destruct (Z.min_spec (- n) (Z.of_nat (length runs))) as [[_ ->]|[Hle ->]];
    [reflexivity|].
  rewrite Nat2Z.id. rewrite skipn_all.
  symmetry. apply skipn_all2. lia.
Qed.

(** X4: when [list_pipelinerun] raises, and what.  [top] is converted
    before the listing is consumed: for a text [int] rejects the command
    raises the [ValueError] of [int] and the service has not been asked,
    whatever the listing would have given.  For a text [int] accepts, an
    exception of the listing is raised as it is.  Without [top] the command
    never raises: it hands back the iterable of the client without
    consuming it. *)
Theorem list_pipelinerun_errors (top : option string) :
  (forall t,
     top = Some t -> PyStr.int t = None ->
     pipelinerun.list_pipelinerun client rg reg top w
     = (World (st w) (log w ++ [Call (PipelineRunsList rg reg)]),
        inl (int_error t)) /\
     exn_cls (int_error t) = ValueError) /\
  (forall t n s' e,
     top = Some t -> PyStr.int t = Some n ->
     list_ _ _ (pipeline_runs client) rg reg (st w) = (s', inl e) ->
     pipelinerun.list_pipelinerun client rg reg top w
     = (World s' (log w ++ [Call (PipelineRunsList rg reg)]), inl e)) /\
  (top = None ->
   pipelinerun.list_pipelinerun client rg reg top w
   = (World (st w) (log w ++ [Call (PipelineRunsList rg reg)]),
      inr (pipelinerun.Paged (list_ _ _ (pipeline_runs client) rg reg)))).
Proof.
  split; [|split].
  - intros t -> Hint. split; [|reflexivity]. run_cmd. now rewrite Hint.
  - intros t n s' e -> Hint Hlist.
    now apply list_pipelinerun_top_listing_fails with n.
  - intros ->. reflexivity.
Qed.

End TopFacts.

Section TopWitnesses.

Import sdk.

Lemma validated_top_lists_a_tail_witness :
  exists front kept,
    Sample.runs Sample.three_runs = (front ++ kept)%list /\
    pipelinerun.list_pipelinerun Sample.client "rg" "reg" (Some "2")
      (Sample.start Sample.three_runs)
    = (World Sample.three_runs [Call (PipelineRunsList "rg" "reg")],
       inr (pipelinerun.Listed kept)).
Proof.
  apply (proj2 (validated_top_lists_a_tail Sample.client "rg" "reg"
                  (Sample.start Sample.three_runs)
                  (validators.Build_Namespace None None None (Some "2")) []
                  "2" eq_refl eq_refl)
           Sample.three_runs (Sample.runs Sample.three_runs)).
  reflexivity.
Defined.

Lemma list_pipelinerun_negative_top_drops_front_witness :
  pipelinerun.list_pipelinerun Sample.client "rg" "reg" (Some "-2")
    (Sample.start Sample.three_runs)
  = (World Sample.three_runs [Call (PipelineRunsList "rg" "reg")],
     inr (pipelinerun.Listed [Sample.run "r3" "Succeeded"])).
Proof.
  apply (list_pipelinerun_negative_top_drops_front Sample.client "rg" "reg"
           (Sample.start Sample.three_runs) "-2" (-2) Sample.three_runs
           (Sample.runs Sample.three_runs)); [reflexivity | lia | reflexivity].
Defined.

(** Witness of X4: a [top] of "two" is refused before the service is asked,
    also by a client whose listing would fail; with a [top] of "2" the
    failure of that listing is what the command raises. *)
Lemma list_pipelinerun_errors_witness :
  pipelinerun.list_pipelinerun Cases.no_listing_client "rg" "reg" (Some "two")
    (Sample.start Sample.three_runs)
  = (World Sample.three_runs [Call (PipelineRunsList "rg" "reg")],
     inl (Exn ValueError "invalid literal for int() with base 10: 'two'"
            None)) /\
  pipelinerun.list_pipelinerun Cases.no_listing_client "rg" "reg" (Some "2")
    (Sample.start Sample.three_runs)
  = (World Sample.three_runs [Call (PipelineRunsList "rg" "reg")],
     inl Sample.connection_error).
Proof.
  split.
  - apply (proj1 (list_pipelinerun_errors Cases.no_listing_client "rg" "reg"
                    (Sample.start Sample.three_runs) (Some "two"))
             "two"); reflexivity.
  - apply (proj1 (proj2 (list_pipelinerun_errors Cases.no_listing_client
                           "rg" "reg" (Sample.start Sample.three_runs)
                           (Some "2")))
             "2" 2 Sample.three_runs Sample.connection_error); reflexivity.
Defined.

End TopWitnesses.

(** ** The validators that only warn *)

Section WarnValidatorFacts.

Import validators warn_validators.

Ltac run_warn :=
  cbv beta delta
    [validate_storage_account_container_uri validate_keyvault_secret_uri
     validate_import_options validate_export_options validate_pipeline_type
     warn_validators.logger_warning bind ret raise get_st put_st emit];
  cbn [storage_account_container_uri warn_validators.keyvault_secret_uri
       options pipeline_type st log fst snd].

Ltac close_frame :=
  cbn [negb orb st log];
  first [ exists []; now rewrite app_nil_r
        | eexists; reflexivity
        | eexists; rewrite <- app_assoc; reflexivity ].

(** X5: the validators of the container URI, the secret URI, the import
    and export options and the pipeline type never raise and never change
    the namespace, whatever the arguments are: each of them returns after
    adding warnings to the log, or nothing. *)
Theorem warn_only_validators_never_reject (ns : warn_validators.Namespace)
    (l : list event) :
  (exists evs, validate_storage_account_container_uri (World ns l)
               = (World ns (l ++ evs), inr tt)) /\
  (exists evs, validate_keyvault_secret_uri (World ns l)
               = (World ns (l ++ evs), inr tt)) /\
  (exists evs, validate_import_options (World ns l)
               = (World ns (l ++ evs), inr tt)) /\
  (exists evs, validate_export_options (World ns l)
               = (World ns (l ++ evs), inr tt)) /\
  (exists evs, validate_pipeline_type (World ns l)
               = (World ns (l ++ evs), inr tt)).
Proof.
  destruct ns as [uri secret opts ptype].
  split; [|split; [|split; [|split]]]; run_warn.
  - destruct (PyStr.str_in "https://" uri); close_frame.
  - destruct secret as [u|]; [|close_frame].
    destruct (PyStr.str_in "https://" u), (PyStr.str_in "/secrets/" u);
      close_frame.
  - destruct opts as [o|]; [|close_frame].
    destruct (issubset o import_allowed_options); close_frame.
  - destruct opts as [o|]; [|close_frame].
    destruct (issubset o export_allowed_options); close_frame.
  - destruct (in_list ptype ["import"; "export"]); close_frame.
Qed.

Lemma prefix_lower (x s : string) :
  String.prefix x s = true ->
  String.prefix (PyStr.lower x) (PyStr.lower s) = true.
Proof.
  revert s. induction x as [|c x IH]; intros s H.
  - now destruct s.
  - destruct s as [|d s]; [discriminate H|].
    cbn [String.prefix PyStr.lower] in *.
    destruct (Ascii.ascii_dec c d) as [->|Hne]; [|discriminate H].
    destruct (Ascii.ascii_dec (PyStr.lower_char d) (PyStr.lower_char d))
      as [_|Hn]; [now apply IH | now elim Hn].
Qed.

(** A text that occurs in a string occurs, lower-cased, in the lower-cased
    string. *)
Lemma str_in_lower (x s : string) :
  PyStr.str_in x s = true ->
  PyStr.str_in (PyStr.lower x) (PyStr.lower s) = true.
Proof.
  induction s as [|d s IH]; cbn [PyStr.str_in PyStr.lower]; intros H.
  - apply orb_true_iff in H as [H|H]; [|discriminate H].
    apply (prefix_lower x EmptyString) in H. cbn [PyStr.lower] in H.
    now rewrite H.
  - apply orb_true_iff in H as [H|H].
    + apply (prefix_lower x (String d s)) in H. cbn [PyStr.lower] in H.
      now rewrite H.
    + rewrite (IH H). apply orb_true_r.
Qed.

Lemma no_new_event {E : Type} (l : list E) (e : E) : (l ++ [e])%list <> l.
Proof.
  intros H. apply (f_equal (@length E)) in H.
  rewrite length_app in H. cbn in H. lia.
Qed.

Lemma issubset_spec (opts allowed : list string) :
  issubset opts allowed = true <-> forall o, In o opts -> In o allowed.
Proof.
  unfold issubset. rewrite forallb_forall. split; intros H o Ho.
  - apply H, existsb_exists in Ho as (a & Ha & Heq).
    apply String.eqb_eq in Heq. now subst.
  - apply existsb_exists. exists o. split; [now apply H|].
    apply String.eqb_refl.
Qed.

(** X6: the container-URI validator is silent exactly when "https://"
    occurs in the URI, and the secret-URI validator exactly when the URI is
    absent or holds both "https://" and "/secrets/".  Arguments that pass
    the two validators without a warning still do after the create commands
    have lower-cased them. *)
Theorem uri_validators_accept_lower_cased (ns : warn_validators.Namespace)
    (l : list event) :
  let lowered :=
    {| storage_account_container_uri :=
         PyStr.lower (storage_account_container_uri ns);
       warn_validators.keyvault_secret_uri :=
         importpipeline.lower_if_truthy
           (warn_validators.keyvault_secret_uri ns);
       options := options ns;
       pipeline_type := pipeline_type ns |} in
  (validate_storage_account_container_uri (World ns l)
   = (World ns l, inr tt) <->
   PyStr.str_in "https://" (storage_account_container_uri ns) = true) /\
  (validate_keyvault_secret_uri (World ns l) = (World ns l, inr tt) <->
   warn_validators.keyvault_secret_uri ns = None \/
   exists u, warn_validators.keyvault_secret_uri ns = Some u /\
             PyStr.str_in "https://" u = true /\
             PyStr.str_in "/secrets/" u = true) /\
  (validate_storage_account_container_uri (World ns l)
   = (World ns l, inr tt) ->
   validate_storage_account_container_uri (World lowered l)
   = (World lowered l, inr tt)) /\
  (validate_keyvault_secret_uri (World ns l) = (World ns l, inr tt) ->
   validate_keyvault_secret_uri (World lowered l) = (World lowered l, inr tt)).
Proof.
  destruct ns as [uri secret opts ptype]. cbn zeta.
  cbn [storage_account_container_uri warn_validators.keyvault_secret_uri
       options pipeline_type].
  assert (Hc : forall u sec,
             validate_storage_account_container_uri
               (World (warn_validators.Build_Namespace u sec opts ptype) l)
             = (World (warn_validators.Build_Namespace u sec opts ptype) l,
                inr tt) <->
             PyStr.str_in "https://" u = true).
  { intros u sec. run_warn. destruct (PyStr.str_in "https://" u); cbn [negb].
    - split; reflexivity.
    - split; [|discriminate]. intros [= H]. now apply no_new_event in H. }
  assert (Hs : forall u sec,
             validate_keyvault_secret_uri
               (World (warn_validators.Build_Namespace u sec opts ptype) l)
             = (World (warn_validators.Build_Namespace u sec opts ptype) l,
                inr tt) <->
             sec = None \/
             exists v, sec = Some v /\ PyStr.str_in "https://" v = true /\
                       PyStr.str_in "/secrets/" v = true).
  { intros u [v|]; run_warn; [|split; [now left | reflexivity]].
    destruct (PyStr.str_in "https://" v) eqn:H1,
             (PyStr.str_in "/secrets/" v) eqn:H2; cbn [negb orb];
      (split;
       [ try (intros [= H]; now apply no_new_event in H);
         intros _; right; exists v; auto
       | try reflexivity;
         intros [H|(v' & [= <-] & Ha & Hb)]; congruence ]). }
  split; [apply Hc|]. split; [apply Hs|]. split.
  - intros H. apply Hc. apply Hc in H.
    exact (str_in_lower "https://" uri H).
  - intros H. apply Hs. apply Hs in H.
    destruct H as [->|(v & -> & Ha & Hb)]; [now left|].
    right. cbn [importpipeline.lower_if_truthy].
    destruct (PyStr.truthy v).
    + exists (PyStr.lower v). split; [reflexivity|]. split.
      * exact (str_in_lower "https://" v Ha).
      * exact (str_in_lower "/secrets/" v Hb).
    + now exists v.
Qed.

Lemma uri_validators_accept_lower_cased_witness :
  validate_storage_account_container_uri
    (World (warn_validators.Build_Namespace
              "https://acct.blob.core.windows.net/images"
              (Some "https://kv.vault.azure.net/secrets/sas") None None) [])
  = (World (warn_validators.Build_Namespace
              "https://acct.blob.core.windows.net/images"
              (Some "https://kv.vault.azure.net/secrets/sas") None None) [],
     inr tt) /\
  validate_keyvault_secret_uri
    (World (warn_validators.Build_Namespace
              "https://acct.blob.core.windows.net/images"
              (Some "https://kv.vault.azure.net/secrets/sas") None None) [])
  = (World (warn_validators.Build_Namespace
              "https://acct.blob.core.windows.net/images"
              (Some "https://kv.vault.azure.net/secrets/sas") None None) [],
     inr tt).
Proof.
  split.
  - apply (proj1 (proj2 (proj2
             (uri_validators_accept_lower_cased
                (warn_validators.Build_Namespace
                   "https://Acct.blob.core.windows.net/Images"
                   (Some "https://KV.vault.azure.net/secrets/Sas") None None)
                [])))).
    reflexivity.
  - apply (proj2 (proj2 (proj2
             (uri_validators_accept_lower_cased
                (warn_validators.Build_Namespace
                   "https://Acct.blob.core.windows.net/Images"
                   (Some "https://KV.vault.azure.net/secrets/Sas") None None)
                [])))).
    reflexivity.
Defined.

(** X7: with options given, the import validator is silent exactly when
    every option is one of OverwriteTags, DeleteSourceBlobOnSuccess and
    ContinueOnErrors, and the export validator exactly when every option is
    OverwriteBlobs or ContinueOnErrors; so the option lists both validators
    take without a warning are those made of ContinueOnErrors only. *)
Theorem options_validators_accept (ns : warn_validators.Namespace)
    (l : list event) (opts : list string) :
  options ns = Some opts ->
  (validate_import_options (World ns l) = (World ns l, inr tt) <->
   forall o, In o opts ->
             o = "OverwriteTags" \/ o = "DeleteSourceBlobOnSuccess"
             \/ o = "ContinueOnErrors") /\
  (validate_export_options (World ns l) = (World ns l, inr tt) <->
   forall o, In o opts -> o = "OverwriteBlobs" \/ o = "ContinueOnErrors") /\
  (validate_import_options (World ns l) = (World ns l, inr tt) /\
   validate_export_options (World ns l) = (World ns l, inr tt) <->
   forall o, In o opts -> o = "ContinueOnErrors").
Proof.
  destruct ns as [uri secret o ptype]. cbn [options]. intros ->.
  assert (Hi : validate_import_options
                 (World (warn_validators.Build_Namespace uri secret
                           (Some opts) ptype) l)
               = (World (warn_validators.Build_Namespace uri secret
                           (Some opts) ptype) l, inr tt) <->
               issubset opts import_allowed_options = true).
  { run_warn. destruct (issubset opts import_allowed_options);
      cbn [negb st log].
    - split; reflexivity.
    - split; [|discriminate]. intros [= H]. rewrite <- app_assoc in H.
      apply (f_equal (@length event)) in H. rewrite length_app in H.
      cbn in H. lia. }
  assert (He : validate_export_options
                 (World (warn_validators.Build_Namespace uri secret
                           (Some opts) ptype) l)
               = (World (warn_validators.Build_Namespace uri secret
                           (Some opts) ptype) l, inr tt) <->
               issubset opts export_allowed_options = true).
  { run_warn. destruct (issubset opts export_allowed_options);
      cbn [negb st log].
    - split; reflexivity.
    - split; [|discriminate]. intros [= H]. rewrite <- app_assoc in H.
      apply (f_equal (@length event)) in H. rewrite length_app in H.
      cbn in H. lia. }
  rewrite Hi, He, !issubset_spec. unfold import_allowed_options,
    export_allowed_options. cbn [In].
  split; [|split].
  - split; intros H o0 Ho; specialize (H o0 Ho); intuition auto.
  - split; intros H o0 Ho; specialize (H o0 Ho); intuition auto.
  - split.
    + intros [H1 H2] o0 Ho. specialize (H1 o0 Ho). specialize (H2 o0 Ho).
      destruct H2 as [H2|[H2|[]]]; [|now symmetry].
      subst o0. destruct H1 as [H1|[H1|[H1|[]]]]; discriminate H1.
    + intros H. split; intros o0 Ho; rewrite (H o0 Ho); auto.
Qed.

Lemma options_validators_accept_witness :
  validate_import_options
    (World (warn_validators.Build_Namespace "u" None
              (Some ["ContinueOnErrors"; "ContinueOnErrors"]) None) [])
  = (World (warn_validators.Build_Namespace "u" None
              (Some ["ContinueOnErrors"; "ContinueOnErrors"]) None) [],
     inr tt) /\
  validate_export_options
    (World (warn_validators.Build_Namespace "u" None
              (Some ["ContinueOnErrors"; "ContinueOnErrors"]) None) [])
  = (World (warn_validators.Build_Namespace "u" None
              (Some ["ContinueOnErrors"; "ContinueOnErrors"]) None) [],
     inr tt).
Proof.
  apply (proj2 (proj2 (options_validators_accept
                         (warn_validators.Build_Namespace "u" None
                            (Some ["ContinueOnErrors"; "ContinueOnErrors"])
                            None)
                         [] ["ContinueOnErrors"; "ContinueOnErrors"]
                         eq_refl))).
  intros o [<-|[<-|[]]]; reflexivity.
Defined.

End WarnValidatorFacts.

(** ** The validators that rewrite the namespace, run again *)

Section ValidatorExtras.

Import validators.

Ltac run_validator' :=
  cbv beta delta
    [validate_storage_access_mode_and_secret_uri
     validate_user_assigned_identity_resource_id
     set_storage_access_mode set_user_assigned_identity_resource_id
     logger_warning bind ret raise get_st put_st emit in_list eq_lit
     existsb st log];
  cbn [storage_access_mode keyvault_secret_uri
       user_assigned_identity_resource_id top st log fst snd orb negb].

(** The two ways the access-mode validator returns. *)
Lemma validate_storage_access_mode_returns (ns : Namespace)
    (l : list event) (w' : world event Namespace) :
  validate_storage_access_mode_and_secret_uri (World ns l) = (w', inr tt) ->
  (storage_access_mode ns = Some "entra-mi-auth" /\
   keyvault_secret_uri ns = None /\
   storage_access_mode (st w') = Some "ManagedIdentity" /\
   keyvault_secret_uri (st w') = None) \/
  (storage_access_mode ns = Some "storage-sas-token" /\
   keyvault_secret_uri ns <> None /\
   storage_access_mode (st w') = Some "SasToken" /\
   keyvault_secret_uri (st w') = keyvault_secret_uri ns).
Proof.
  destruct ns as [mode uri ident t]. run_validator'.
  destruct mode as [m|]; [|discriminate].
  destruct (String.eqb_spec m "entra-mi-auth") as [->|_].
  - cbn. destruct uri as [u|]; [discriminate|].
    intros [= <-]. left. now cbn.
  - destruct (String.eqb_spec m "storage-sas-token") as [->|_];
      [|discriminate].
    cbn. destruct uri as [u|]; [|discriminate].
    intros [= <-]. right. cbn. repeat split. discriminate.
Qed.

(** X8: the access-mode validator cannot be run twice.  Once it has
    returned, the namespace holds the API value of the mode, which is not
    one of the two CLI values, so a second run on that namespace raises the
    invalid-argument error and leaves the namespace as it is. *)
Theorem validate_storage_access_mode_second_run_raises (ns : Namespace)
    (l : list event) (w' : world event Namespace) :
  validate_storage_access_mode_and_secret_uri (World ns l) = (w', inr tt) ->
  exists msg,
    validate_storage_access_mode_and_secret_uri w'
    = (w', inl (Exn InvalidArgumentValueError msg None)).
Proof.
  intros H. apply validate_storage_access_mode_returns in H.
  destruct w' as [[mode' uri' ident' t'] l'].
  cbn [st storage_access_mode keyvault_secret_uri] in H.
  destruct H as [(_ & _ & -> & _)|(_ & _ & -> & _)];
    eexists; run_validator'; cbn; reflexivity.
Qed.

Lemma validate_storage_access_mode_second_run_raises_witness :
  exists msg,
    validate_storage_access_mode_and_secret_uri
      (World (Build_Namespace (Some "ManagedIdentity") None None None) [])
    = (World (Build_Namespace (Some "ManagedIdentity") None None None) [],
       inl (Exn InvalidArgumentValueError msg None)).
Proof.
  apply (validate_storage_access_mode_second_run_raises
           (Build_Namespace (Some "entra-mi-auth") None None None) []).
  reflexivity.
Defined.

(** X9: when the access-mode validator raises because the secret URI does
    not go with the mode, it has already rewritten the mode in the
    namespace; when it raises because the mode is unknown, the namespace is
    untouched.  The log is untouched in all three cases. *)
Theorem validate_storage_access_mode_state_after_error (ns : Namespace)
    (l : list event) :
  let r := validate_storage_access_mode_and_secret_uri (World ns l) in
  (forall u,
     storage_access_mode ns = Some "entra-mi-auth" ->
     keyvault_secret_uri ns = Some u ->
     fst r = World {| storage_access_mode := Some "ManagedIdentity";
                      keyvault_secret_uri := Some u;
                      user_assigned_identity_resource_id :=
                        user_assigned_identity_resource_id ns;
                      top := top ns |} l) /\
  (storage_access_mode ns = Some "storage-sas-token" ->
   keyvault_secret_uri ns = None ->
   fst r = World {| storage_access_mode := Some "SasToken";
                    keyvault_secret_uri := None;
                    user_assigned_identity_resource_id :=
                      user_assigned_identity_resource_id ns;
                    top := top ns |} l) /\
  (storage_access_mode ns <> Some "entra-mi-auth" ->
   storage_access_mode ns <> Some "storage-sas-token" ->
   fst r = World ns l).
Proof.
  destruct ns as [mode uri ident t]. cbn zeta.
  cbn [storage_access_mode keyvault_secret_uri
       user_assigned_identity_resource_id top].
  split; [|split].
  - intros u -> ->. reflexivity.
  - intros -> ->. reflexivity.
  - intros Hmi Hsas. run_validator'.
    destruct mode as [m|]; [|reflexivity].
    destruct (String.eqb_spec m "entra-mi-auth") as [->|_];
      [now elim Hmi|].
    destruct (String.eqb_spec m "storage-sas-token") as [->|_];
      [now elim Hsas|].
    reflexivity.
Qed.

Lemma validate_storage_access_mode_state_after_error_witness :
  fst (validate_storage_access_mode_and_secret_uri
         (World (Build_Namespace (Some "entra-mi-auth")
                   (Some "https://kv.vault.azure.net/secrets/s") None None)
            []))
  = World (Build_Namespace (Some "ManagedIdentity")
             (Some "https://kv.vault.azure.net/secrets/s") None None) [] /\
  fst (validate_storage_access_mode_and_secret_uri
         (World (Build_Namespace (Some "storage-sas-token") None None None)
            []))
  = World (Build_Namespace (Some "SasToken") None None None) [] /\
  fst (validate_storage_access_mode_and_secret_uri
         (World (Build_Namespace (Some "sas") None None None) []))
  = World (Build_Namespace (Some "sas") None None None) [].
Proof.
  split; [|split].
  - apply (proj1 (validate_storage_access_mode_state_after_error
                    (Build_Namespace (Some "entra-mi-auth")
                       (Some "https://kv.vault.azure.net/secrets/s")
                       None None) [])
             "https://kv.vault.azure.net/secrets/s"); reflexivity.
  - apply (proj1 (proj2 (validate_storage_access_mode_state_after_error
                           (Build_Namespace (Some "storage-sas-token") None
                              None None) []))); reflexivity.
  - apply (proj2 (proj2 (validate_storage_access_mode_state_after_error
                           (Build_Namespace (Some "sas") None None None)
                           []))); discriminate.
Defined.

(** X10: after the identity validator the namespace never holds the
    "[system]" keyword, in whatever letter case it was written: the
    identity id is absent or a text other than the keyword, the one the
    caller gave.  A second run changes nothing in the namespace. *)
Theorem validate_user_assigned_identity_clears_keyword (ns : Namespace)
    (l : list event) :
  let r := validate_user_assigned_identity_resource_id (World ns l) in
  (forall id,
     user_assigned_identity_resource_id (st (fst r)) = Some id ->
     Spec.any_letter_case "[system]" id = false /\
     user_assigned_identity_resource_id ns = Some id) /\
  st (fst (validate_user_assigned_identity_resource_id (fst r)))
  = st (fst r).
Proof.
  destruct ns as [mode uri ident t]. cbn zeta. run_validator'.
  destruct ident as [id|]; [|split; [intros id H; discriminate H|reflexivity]].
  rewrite <- any_letter_case_system.
  destruct (Spec.any_letter_case "[system]" id) eqn:Hcase.
  - cbn [fst st user_assigned_identity_resource_id].
    split; [intros id' H; discriminate H | reflexivity].
  - destruct (PyStr.str_in _ id); cbn [negb fst st log
                                        user_assigned_identity_resource_id];
      (split; [intros id' [= <-]; now split|]);
      rewrite <- any_letter_case_system, Hcase;
      destruct (PyStr.str_in _ id); reflexivity.
Qed.

Lemma validate_user_assigned_identity_clears_keyword_witness :
  Spec.any_letter_case "[system]" "my-identity" = false /\
  Some "my-identity" = Some "my-identity".
Proof.
  apply (proj1 (validate_user_assigned_identity_clears_keyword
                  (Build_Namespace None None (Some "my-identity") None) [])
           "my-identity").
  reflexivity.
Defined.

End ValidatorExtras.

(** ** The pipeline type, from validation to the run *)

Section PipelineTypeFacts.

Import sdk.

Context {sys poller : Type}.
Variable env : Env sys.
Variable client : Client sys poller.
Variables rg reg pipeline_name run_name blob : string.
Variable artifacts : option (list string).
Variable force : bool.
Variable w : world event sys.

(** X11: the pipeline type is compared with "import" as written.  A type
    that is neither "import" nor "export" only earns a warning from its
    validator, and [create_pipelinerun] then treats it as an export: the
    first thing it does is read the export pipeline of that name, and it
    never reads an import pipeline. *)
Theorem unknown_pipeline_type_runs_as_export
    (ns : warn_validators.Namespace) (l : list validators.event)
    (t : string) :
  warn_validators.pipeline_type ns = Some t ->
  t <> "import" ->
  (t <> "export" ->
   warn_validators.validate_pipeline_type (World ns l)
   = (World ns
        (l ++ [validators.Warning warn_validators.pipeline_type_warning []]),
      inr tt)) /\
  exists rest,
    log (fst (pipelinerun.create_pipelinerun env client rg reg pipeline_name
                run_name t blob artifacts force w))
    = (log w ++ Call (ExportPipelinesGet rg reg pipeline_name) :: rest)%list
    /\ forall nm, ~ In (Call (ImportPipelinesGet rg reg nm)) rest.
Proof.
  intros Hns Ht. split.
  - intros Hexp. destruct ns as [uri secret opts ptype].
    cbn [warn_validators.pipeline_type] in Hns. subst ptype.
    unfold warn_validators.validate_pipeline_type, bind, get_st,
      warn_validators.logger_warning, emit, validators.in_list.
    cbn [st log warn_validators.pipeline_type existsb].
    destruct (String.eqb_spec t "import") as [E|_]; [now elim Ht|].
    destruct (String.eqb_spec t "export") as [E|_]; [now elim Hexp|].
    reflexivity.
  - destruct (get _ _ (export_pipelines client) rg reg pipeline_name (st w))
      as [s' [e|p]] eqn:Hget.
    + rewrite (create_pipelinerun_export_read_fails env client rg reg
                 pipeline_name run_name t blob force w artifacts s' e
                 Ht Hget).
      exists []. split; [reflexivity | intros nm []].
    + destruct artifacts as [arts|].
      * destruct (create_pipelinerun_export_artifacts env client rg reg
                    pipeline_name run_name t blob force w s' p arts
                    Ht Hget) as (evs & Hevs & H).
        destruct (if force then _ else _) as [s1 tag]. cbv zeta in H.
        destruct (begin_create _ _ _ _ _ _ _ s1) as [s2 out].
        rewrite H. cbn [fst log]. eexists. split; [reflexivity|].
        intros nm Hin. apply in_app_or in Hin as [Hin|[Hin|[]]].
        -- now apply Hevs in Hin.
        -- discriminate Hin.
      * destruct (create_pipelinerun_export_no_artifacts env client rg reg
                    pipeline_name run_name t blob force w s' p Ht Hget)
          as (evs & Hevs & ->).
        cbn [fst log]. exists evs. split; [reflexivity|].
        intros nm Hin. now apply Hevs in Hin.
Qed.

End PipelineTypeFacts.

Lemma unknown_pipeline_type_runs_as_export_witness :
  warn_validators.validate_pipeline_type
    (World (warn_validators.Build_Namespace "u" None None (Some "Import")) [])
  = (World (warn_validators.Build_Namespace "u" None None (Some "Import"))
       [validators.Warning warn_validators.pipeline_type_warning []],
     inr tt).
Proof.
  apply (proj1 (unknown_pipeline_type_runs_as_export Sample.env Sample.client
                  "rg" "reg" "imp" "run1" "blob" None false
                  (Sample.start Sample.populated)
                  (warn_validators.Build_Namespace "u" None None
                     (Some "Import")) [] "Import" eq_refl
                  ltac:(discriminate))).
  discriminate.
Defined.

(** ** The permission guidance *)

Section GuidanceFacts.

Import sdk.

Context {sys : Type}.
Variable env : Env sys.

(** The two copies of the guidance code, in [importpipeline.py] and in
    [exportpipeline.py], are the same function. *)
Lemma display_permission_guidance_copies :
  exportpipeline._display_permission_guidance env
  = importpipeline._display_permission_guidance env.
Proof. reflexivity. Qed.

Ltac nothing_logged :=
  exists []; unfold ret; rewrite app_nil_r;
  match goal with |- (?w, _) = _ /\ _ => destruct w end;
  (split; [reflexivity|]); (split; [intros ? []|]);
  (split; [reflexivity|]); split.

Lemma import_display_permission_guidance_only_warns
    (pipeline_type mode principal sub rg uri : string)
    (kv : option string) (w : world event sys) :
  exists evs,
    importpipeline._display_permission_guidance env pipeline_type mode
      principal sub rg uri kv w
    = (World (st w) (log w ++ evs), inr tt) /\
    (forall c, ~ In (Call c) evs) /\
    length evs
    = (if String.eqb mode "ManagedIdentity"
          || String.eqb mode "SasToken" && truthy_opt kv
       then 6%nat else 0%nat) /\
    (mode = "ManagedIdentity" ->
     In (Warning
           ("  az role assignment create --assignee " ++ PyStr.dq ++ "%s"
            ++ PyStr.dq ++ " --role " ++ PyStr.dq ++ "%s" ++ PyStr.dq
            ++ " --scope " ++ PyStr.dq ++ "%s" ++ PyStr.dq)
           [LStr principal;
            LStr (if String.eqb pipeline_type "export"
                  then "Storage Blob Data Contributor"
                  else "Storage Blob Data Reader");
            LStr match urlparse_hostname env uri with
                 | inr (Some h) =>
                     "/subscriptions/" ++ sub ++ "/resourceGroups/" ++ rg
                     ++ "/providers/Microsoft.Storage/storageAccounts/"
                     ++ Spec.first_label h
                 | _ => "<storage-account-resource-id>"
                 end])
        evs) /\
    (forall secret,
       mode = "SasToken" -> kv = Some secret -> PyStr.truthy secret = true ->
       In (Warning
             ("  az role assignment create --assignee " ++ PyStr.dq ++ "%s"
              ++ PyStr.dq ++ " --role " ++ PyStr.dq
              ++ "Key Vault Secrets User" ++ PyStr.dq
              ++ " --scope " ++ PyStr.dq ++ "%s" ++ PyStr.dq)
             [LStr principal;
              LStr match urlparse_hostname env secret with
                   | inr (Some h) =>
                       "/subscriptions/" ++ sub ++ "/resourceGroups/" ++ rg
                       ++ "/providers/Microsoft.KeyVault/vaults/"
                       ++ Spec.first_label h
                   | _ => "<key-vault-resource-id>"
                   end])
          evs).
Proof.
  unfold importpipeline._display_permission_guidance.
  unfold bind at 1.
  rewrite import_extract_storage_account_resource_id_result.
  destruct (String.eqb_spec mode "ManagedIdentity") as [->|Hmi].
  - cbn [orb]. eexists.
    split; [|split; [|split; [|split]]].
    + cbv beta delta [bind logger_warning emit]. cbn [st log].
      repeat rewrite <- app_assoc. cbn [app]. reflexivity.
    + intros c Hin. cbn [In] in Hin.
      repeat (destruct Hin as [Hin|Hin]; [discriminate Hin|]).
      exact Hin.
    + reflexivity.
    + intros _. cbn [In]. do 3 right. left. reflexivity.
    + intros secret H. discriminate H.
  - cbn [orb]. destruct kv as [secret|].
    + cbn [truthy_opt].
      destruct (String.eqb_spec mode "SasToken") as [->|Hsas];
        [destruct (PyStr.truthy secret) eqn:Htruthy|]; cbn [andb].
      * unfold bind at 1.
        rewrite import_extract_keyvault_resource_id_result.
        eexists.
        split; [|split; [|split; [|split]]].
        -- cbv beta delta [bind logger_warning emit]. cbn [st log].
           repeat rewrite <- app_assoc. cbn [app]. reflexivity.
        -- intros c Hin. cbn [In] in Hin.
           repeat (destruct Hin as [Hin|Hin]; [discriminate Hin|]).
           exact Hin.
        -- reflexivity.
        -- intros H. discriminate H.
        -- intros secret' _ [= <-] _. cbn [In]. do 3 right. left.
           reflexivity.
      * nothing_logged; [intros H; discriminate H|].
        intros secret' _ [= <-] H. congruence.
      * nothing_logged; [intros H; now elim Hmi|].
        intros secret' H. now elim Hsas.
    + cbn [truthy_opt]. rewrite andb_false_r.
      nothing_logged; [intros H; now elim Hmi|].
      intros secret' _ H. discriminate H.
Qed.


(** X12: the permission guidance never raises and never touches the world
    outside: it only adds warnings to the log, six of them when the mode is
    "ManagedIdentity" or when it is "SasToken" with a non-empty secret URI,
    and none otherwise.  In the first case the role in the suggested
    command is "Storage Blob Data Contributor" for the pipeline type
    "export" and "Storage Blob Data Reader" for every other type, and the
    scope is the storage account id; in the second case the role is fixed
    and the scope is the key vault id. *)
Theorem display_permission_guidance_only_warns
    (pipeline_type mode principal sub rg uri : string)
    (kv : option string) (w : world event sys) :
  exists evs,
    importpipeline._display_permission_guidance env pipeline_type mode
      principal sub rg uri kv w
    = (World (st w) (log w ++ evs), inr tt) /\
    exportpipeline._display_permission_guidance env pipeline_type mode
      principal sub rg uri kv w
    = (World (st w) (log w ++ evs), inr tt) /\
    (forall c, ~ In (Call c) evs) /\
    length evs
    = (if String.eqb mode "ManagedIdentity"
          || String.eqb mode "SasToken" && truthy_opt kv
       then 6%nat else 0%nat) /\
    (mode = "ManagedIdentity" ->
     In (Warning
           ("  az role assignment create --assignee " ++ PyStr.dq ++ "%s"
            ++ PyStr.dq ++ " --role " ++ PyStr.dq ++ "%s" ++ PyStr.dq
            ++ " --scope " ++ PyStr.dq ++ "%s" ++ PyStr.dq)
           [LStr principal;
            LStr (if String.eqb pipeline_type "export"
                  then "Storage Blob Data Contributor"
                  else "Storage Blob Data Reader");
            LStr match urlparse_hostname env uri with
                 | inr (Some h) =>
                     "/subscriptions/" ++ sub ++ "/resourceGroups/" ++ rg
                     ++ "/providers/Microsoft.Storage/storageAccounts/"
                     ++ Spec.first_label h
                 | _ => "<storage-account-resource-id>"
                 end])
        evs) /\
    (forall secret,
       mode = "SasToken" -> kv = Some secret -> PyStr.truthy secret = true ->
       In (Warning
             ("  az role assignment create --assignee " ++ PyStr.dq ++ "%s"
              ++ PyStr.dq ++ " --role " ++ PyStr.dq
              ++ "Key Vault Secrets User" ++ PyStr.dq
              ++ " --scope " ++ PyStr.dq ++ "%s" ++ PyStr.dq)
             [LStr principal;
              LStr match urlparse_hostname env secret with
                   | inr (Some h) =>
                       "/subscriptions/" ++ sub ++ "/resourceGroups/" ++ rg
                       ++ "/providers/Microsoft.KeyVault/vaults/"
                       ++ Spec.first_label h
                   | _ => "<key-vault-resource-id>"
                   end])
          evs).
Proof.
  destruct (import_display_permission_guidance_only_warns pipeline_type mode
              principal sub rg uri kv w) as (evs & H & Hrest).
  exists evs. split; [exact H|]. split; [|exact Hrest].
  rewrite display_permission_guidance_copies. exact H.
Qed.

End GuidanceFacts.

Lemma display_permission_guidance_only_warns_witness :
  exists evs,
    exportpipeline._display_permission_guidance Sample.env "export"
      "ManagedIdentity" "pid" "sub" "rg"
      "https://acct.blob.core.windows.net/c" None
      (Sample.start Sample.empty)
    = (World Sample.empty evs, inr tt) /\
    In (sdk.Warning
          ("  az role assignment create --assignee " ++ PyStr.dq ++ "%s"
           ++ PyStr.dq ++ " --role " ++ PyStr.dq ++ "%s" ++ PyStr.dq
           ++ " --scope " ++ PyStr.dq ++ "%s" ++ PyStr.dq)
          [LStr "pid"; LStr "Storage Blob Data Contributor";
           LStr "/subscriptions/sub/resourceGroups/rg/providers/Microsoft.Storage/storageAccounts/acct"])
       evs.
Proof.
  destruct (display_permission_guidance_only_warns Sample.env "export"
              "ManagedIdentity" "pid" "sub" "rg"
              "https://acct.blob.core.windows.net/c" None
              (Sample.start Sample.empty))
    as (evs & _ & Hrun & _ & _ & Hrole & _).
  exists evs. split; [exact Hrun | exact (Hrole eq_refl)].
Defined.

Section ValidatedGuidance.

Import sdk.

Lemma truthy_lower (s : string) :
  PyStr.truthy (PyStr.lower s) = PyStr.truthy s.
Proof. now destruct s. Qed.

(** X13: arguments the access-mode validator has let through always get
    the permission guidance, whatever the pipeline type and the URIs are:
    the guidance for the rewritten mode and the lower-cased secret URI is
    six warnings.  The one exception is a secret URI that is the empty
    text, which the validator takes for a secret URI and the guidance for
    none: then nothing is logged. *)
Theorem validated_arguments_get_guidance {sys : Type} (env : Env sys)
    (ns : validators.Namespace) (l : list validators.event)
    (w' : world validators.event validators.Namespace)
    (pipeline_type principal sub rg uri : string) (w : world event sys) :
  validators.validate_storage_access_mode_and_secret_uri (World ns l)
  = (w', inr tt) ->
  exists mode evs,
    validators.storage_access_mode (st w') = Some mode /\
    importpipeline._display_permission_guidance env pipeline_type mode
      principal sub rg uri
      (importpipeline.lower_if_truthy
         (validators.keyvault_secret_uri (st w'))) w
    = (World (st w) (log w ++ evs), inr tt) /\
    (validators.keyvault_secret_uri ns <> Some EmptyString ->
     length evs = 6%nat) /\
    (validators.keyvault_secret_uri ns = Some EmptyString -> evs = []).
Proof.
  intros H. apply validate_storage_access_mode_returns in H.
  destruct H as [(_ & Hns & Hmode & Huri)|(_ & Hns & Hmode & Huri)].
  - exists "ManagedIdentity".
    destruct (import_display_permission_guidance_only_warns env
                pipeline_type "ManagedIdentity" principal sub rg uri
                (importpipeline.lower_if_truthy
                   (validators.keyvault_secret_uri (st w'))) w)
      as (evs & Hrun & _ & Hlen & _).
    exists evs. split; [exact Hmode|]. split; [exact Hrun|].
    split; [intros _; exact Hlen|].
    intros Hempty. congruence.
  - exists "SasToken".
    destruct (import_display_permission_guidance_only_warns env
                pipeline_type "SasToken" principal sub rg uri
                (importpipeline.lower_if_truthy
                   (validators.keyvault_secret_uri (st w'))) w)
      as (evs & Hrun & _ & Hlen & _).
    exists evs. split; [exact Hmode|]. split; [exact Hrun|].
    rewrite Huri in Hlen.
    destruct (validators.keyvault_secret_uri ns) as [[|c u]|];
      [| |now elim Hns]; cbn in Hlen.
    + split; [intros Hne; now elim Hne|].
      intros _. now destruct evs.
    + split; [intros _; exact Hlen | intros Hempty; discriminate Hempty].
Qed.

Lemma validated_arguments_get_guidance_witness :
  exists mode evs,
    validators.storage_access_mode
      (validators.Build_Namespace (Some "SasToken")
         (Some "https://kv.vault.azure.net/secrets/s") None None)
    = Some mode /\
    importpipeline._display_permission_guidance Sample.env "import" mode
      "pid" "sub" "rg" "https://acct.blob.core.windows.net/c"
      (importpipeline.lower_if_truthy
         (Some "https://kv.vault.azure.net/secrets/s"))
      (Sample.start Sample.empty)
    = (World Sample.empty evs, inr tt) /\
    length evs = 6%nat.
Proof.
  destruct (validated_arguments_get_guidance Sample.env
              (validators.Build_Namespace (Some "storage-sas-token")
                 (Some "https://kv.vault.azure.net/secrets/s") None None) []
              (World (validators.Build_Namespace (Some "SasToken")
                        (Some "https://kv.vault.azure.net/secrets/s")
                        None None) [])
              "import" "pid" "sub" "rg"
              "https://acct.blob.core.windows.net/c"
              (Sample.start Sample.empty) eq_refl)
    as (mode & evs & Hmode & Hrun & Hlen & _).
  exists mode, evs. split; [exact Hmode|]. split; [exact Hrun|].
  apply Hlen. discriminate.
Defined.

End ValidatedGuidance.

(** ** What the create commands do after the create call *)

Section CreateImportPipelineFacts.

Import sdk.

Context {sys poller : Type}.
Variable env : Env sys.
Variable client : Client sys poller.
Variables rg reg nm uri mode : string.
Variable kv : option string.
Variable options : option (list string).
Variable ident : option string.
Variable trig : bool.
Variable w : world event sys.

Local Abbreviation payload := ({| import_id := None;
     import_identity := Some (create_identity_properties env ident);
     source :=
       Some {| source_storage_access_mode := Some mode;
               source_key_vault_uri := option_map PyStr.lower kv;
               source_uri := Some (PyStr.lower uri) |};
     trigger :=
       Some {| source_trigger :=
                 Some {| status := if trig then "Enabled"
                                   else "Disabled" |} |};
     import_options := options |}).

Local Abbreviation create :=
  (importpipeline.create_importpipeline env client rg reg nm uri mode kv
     options ident trig).

Local Abbreviation create_call := (Call (ImportPipelinesBeginCreate rg reg nm payload)).

Local Abbreviation get_call := (Call (ImportPipelinesGet rg reg nm)).

Ltac run_create :=
  unfold importpipeline.create_importpipeline; cbv zeta;
  rewrite lower_if_truthy_import;
  cbv beta delta
    [import_pipelines_begin_create import_pipelines_get send bind ret
     emit step];
  cbn [st log].

Lemma create_importpipeline_create_fails (s1 : sys) (e : exn) :
  begin_create _ _ (import_pipelines client) rg reg nm payload (st w)
  = (s1, inl e) ->
  create w = (World s1 (log w ++ [create_call]), inl e).
Proof. intros H. run_create. rewrite H. reflexivity. Qed.

Lemma create_importpipeline_read_back_fails (s1 s2 : sys) (h : poller)
    (e : exn) :
  begin_create _ _ (import_pipelines client) rg reg nm payload (st w)
  = (s1, inr h) ->
  get _ _ (import_pipelines client) rg reg nm s1 = (s2, inl e) ->
  create w = (World s2 (log w ++ [create_call; get_call]), inl e).
Proof.
  intros H1 H2. run_create. rewrite H1. cbn [st log]. rewrite H2.
  rewrite <- app_assoc. reflexivity.
Qed.

Lemma create_importpipeline_no_principal (s1 s2 : sys) (h : poller)
    (p : ImportPipeline) :
  begin_create _ _ (import_pipelines client) rg reg nm payload (st w)
  = (s1, inr h) ->
  get _ _ (import_pipelines client) rg reg nm s1 = (s2, inr p) ->
  (forall i, import_identity p = Some i ->
             importpipeline.guidance_principal_id i = None) ->
  create w = (World s2 (log w ++ [create_call; get_call]), inr p).
Proof.
  intros H1 H2 Hno. run_create. rewrite H1. cbn [st log]. rewrite H2.
  cbn [st log]. unfold importpipeline.display_guidance_for.
  destruct (import_identity p) as [i|].
  - rewrite (Hno i eq_refl). unfold ret. rewrite <- app_assoc. reflexivity.
  - unfold ret. rewrite <- app_assoc. reflexivity.
Qed.

Lemma create_importpipeline_no_subscription (s1 s2 s3 : sys) (h : poller)
    (p : ImportPipeline) (i : IdentityProperties) (pid : string)
    (e : exn) :
  begin_create _ _ (import_pipelines client) rg reg nm payload (st w)
  = (s1, inr h) ->
  get _ _ (import_pipelines client) rg reg nm s1 = (s2, inr p) ->
  import_identity p = Some i ->
  importpipeline.guidance_principal_id i = Some pid ->
  get_subscription_id env s2 = (s3, inl e) ->
  create w = (World s3 (log w ++ [create_call; get_call]), inl e).
Proof.
  intros H1 H2 Hi Hpid Hsub. run_create. rewrite H1. cbn [st log].
  rewrite H2. cbn [st log]. unfold importpipeline.display_guidance_for.
  rewrite Hi, Hpid. cbv beta delta [bind step]. cbn [st log].
  rewrite Hsub. rewrite <- app_assoc. reflexivity.
Qed.

Lemma create_importpipeline_with_guidance (s1 s2 s3 : sys) (h : poller)
    (p : ImportPipeline) (i : IdentityProperties) (pid sub : string) :
  begin_create _ _ (import_pipelines client) rg reg nm payload (st w)
  = (s1, inr h) ->
  get _ _ (import_pipelines client) rg reg nm s1 = (s2, inr p) ->
  import_identity p = Some i ->
  importpipeline.guidance_principal_id i = Some pid ->
  get_subscription_id env s2 = (s3, inr sub) ->
  exists evs,
    create w = (World s3 (log w ++ create_call :: get_call :: evs), inr p) /\
    (forall c, ~ In (Call c) evs) /\
    importpipeline._display_permission_guidance env "import" mode pid sub rg
      (PyStr.lower uri) (option_map PyStr.lower kv)
      (World s3 (log w ++ [create_call; get_call]))
    = (World s3 ((log w ++ [create_call; get_call]) ++ evs), inr tt).
Proof.
  intros H1 H2 Hi Hpid Hsub.
  destruct (display_permission_guidance_only_warns env "import" mode pid
              sub rg (PyStr.lower uri) (option_map PyStr.lower kv)
              (World s3 (log w ++ [create_call; get_call])))
    as (evs & Himp & Hexp & Hcalls & _).
  cbn [st log] in Himp, Hexp.
  exists evs. split; [|split; [exact Hcalls | exact Himp]].
  run_create. rewrite H1. cbn [st log].
  rewrite H2. cbn [st log]. unfold importpipeline.display_guidance_for.
  rewrite Hi, Hpid. cbv beta delta [bind step]. cbn [st log].
  rewrite Hsub. cbn [st log]. rewrite <- app_assoc. cbn [app].
  rewrite Himp. cbn [st log]. unfold ret.
  rewrite <- app_assoc. reflexivity.
Qed.

End CreateImportPipelineFacts.

Section CreateExportPipelineFacts.

Import sdk.

Context {sys poller : Type}.
Variable env : Env sys.
Variable client : Client sys poller.
Variables rg reg nm uri mode : string.
Variable kv : option string.
Variable options : option (list string).
Variable ident : option string.

Variable w : world event sys.

Local Abbreviation payload := ({| export_id := None;
     export_identity := Some (create_identity_properties env ident);
     target :=
       Some {| target_storage_access_mode := Some mode;
               target_key_vault_uri := option_map PyStr.lower kv;
               target_uri := Some (PyStr.lower uri);
               target_type := Some AZURE_STORAGE_BLOB_CONTAINER |};
     export_options := options |}).

Local Abbreviation create :=
  (exportpipeline.create_exportpipeline env client rg reg nm uri mode kv
     options ident).

Local Abbreviation create_call := (Call (ExportPipelinesBeginCreate rg reg nm payload)).

Local Abbreviation get_call := (Call (ExportPipelinesGet rg reg nm)).

Ltac run_create :=
  unfold exportpipeline.create_exportpipeline; cbv zeta;
  rewrite lower_if_truthy_export;
  cbv beta delta
    [export_pipelines_begin_create export_pipelines_get send bind ret
     emit step];
  cbn [st log].

Lemma create_exportpipeline_create_fails (s1 : sys) (e : exn) :
  begin_create _ _ (export_pipelines client) rg reg nm payload (st w)
  = (s1, inl e) ->
  create w = (World s1 (log w ++ [create_call]), inl e).
Proof. intros H. run_create. rewrite H. reflexivity. Qed.

Lemma create_exportpipeline_read_back_fails (s1 s2 : sys) (h : poller)
    (e : exn) :
  begin_create _ _ (export_pipelines client) rg reg nm payload (st w)
  = (s1, inr h) ->
  get _ _ (export_pipelines client) rg reg nm s1 = (s2, inl e) ->
  create w = (World s2 (log w ++ [create_call; get_call]), inl e).
Proof.
  intros H1 H2. run_create. rewrite H1. cbn [st log]. rewrite H2.
  rewrite <- app_assoc. reflexivity.
Qed.

Lemma create_exportpipeline_no_principal (s1 s2 : sys) (h : poller)
    (p : ExportPipeline) :
  begin_create _ _ (export_pipelines client) rg reg nm payload (st w)
  = (s1, inr h) ->
  get _ _ (export_pipelines client) rg reg nm s1 = (s2, inr p) ->
  (forall i, export_identity p = Some i ->
             exportpipeline.guidance_principal_id i = None) ->
  create w = (World s2 (log w ++ [create_call; get_call]), inr p).
Proof.
  intros H1 H2 Hno. run_create. rewrite H1. cbn [st log]. rewrite H2.
  cbn [st log]. unfold exportpipeline.display_guidance_for.
  destruct (export_identity p) as [i|].
  - rewrite (Hno i eq_refl). unfold ret. rewrite <- app_assoc. reflexivity.
  - unfold ret. rewrite <- app_assoc. reflexivity.
Qed.

Lemma create_exportpipeline_no_subscription (s1 s2 s3 : sys) (h : poller)
    (p : ExportPipeline) (i : IdentityProperties) (pid : string)
    (e : exn) :
  begin_create _ _ (export_pipelines client) rg reg nm payload (st w)
  = (s1, inr h) ->
  get _ _ (export_pipelines client) rg reg nm s1 = (s2, inr p) ->
  export_identity p = Some i ->
  exportpipeline.guidance_principal_id i = Some pid ->
  get_subscription_id env s2 = (s3, inl e) ->
  create w = (World s3 (log w ++ [create_call; get_call]), inl e).
Proof.
  intros H1 H2 Hi Hpid Hsub. run_create. rewrite H1. cbn [st log].
  rewrite H2. cbn [st log]. unfold exportpipeline.display_guidance_for.
  rewrite Hi, Hpid. cbv beta delta [bind step]. cbn [st log].
  rewrite Hsub. rewrite <- app_assoc. reflexivity.
Qed.

Lemma create_exportpipeline_with_guidance (s1 s2 s3 : sys) (h : poller)
    (p : ExportPipeline) (i : IdentityProperties) (pid sub : string) :
  begin_create _ _ (export_pipelines client) rg reg nm payload (st w)
  = (s1, inr h) ->
  get _ _ (export_pipelines client) rg reg nm s1 = (s2, inr p) ->
  export_identity p = Some i ->
  exportpipeline.guidance_principal_id i = Some pid ->
  get_subscription_id env s2 = (s3, inr sub) ->
  exists evs,
    create w = (World s3 (log w ++ create_call :: get_call :: evs), inr p) /\
    (forall c, ~ In (Call c) evs) /\
    exportpipeline._display_permission_guidance env "export" mode pid sub rg
      (PyStr.lower uri) (option_map PyStr.lower kv)
      (World s3 (log w ++ [create_call; get_call]))
    = (World s3 ((log w ++ [create_call; get_call]) ++ evs), inr tt).
Proof.
  intros H1 H2 Hi Hpid Hsub.
  destruct (display_permission_guidance_only_warns env "export" mode pid
              sub rg (PyStr.lower uri) (option_map PyStr.lower kv)
              (World s3 (log w ++ [create_call; get_call])))
    as (evs & Himp & Hexp & Hcalls & _).
  cbn [st log] in Himp, Hexp.
  exists evs. split; [|split; [exact Hcalls | exact Hexp]].
  run_create. rewrite H1. cbn [st log].
  rewrite H2. cbn [st log]. unfold exportpipeline.display_guidance_for.
  rewrite Hi, Hpid. cbv beta delta [bind step]. cbn [st log].
  rewrite Hsub. cbn [st log]. rewrite <- app_assoc. cbn [app].
  rewrite Hexp. cbn [st log]. unfold ret.
  rewrite <- app_assoc. reflexivity.
Qed.

End CreateExportPipelineFacts.

Section CreatePipelineOutcomes.

Import sdk.

Context {sys poller : Type}.
Variable env : Env sys.
Variable client : Client sys poller.
Variables rg reg nm uri mode : string.
Variable kv : option string.
Variable options : option (list string).
Variable ident : option string.
Variable trig : bool.
Variable w : world event sys.

Local Abbreviation import_payload :=
  ({| import_id := None;
      import_identity := Some (create_identity_properties env ident);
      source :=
        Some {| source_storage_access_mode := Some mode;
                source_key_vault_uri := option_map PyStr.lower kv;
                source_uri := Some (PyStr.lower uri) |};
      trigger :=
        Some {| source_trigger :=
                  Some {| status := if trig then "Enabled"
                                    else "Disabled" |} |};
      import_options := options |}).

Local Abbreviation export_payload :=
  ({| export_id := None;
      export_identity := Some (create_identity_properties env ident);
      target :=
        Some {| target_storage_access_mode := Some mode;
                target_key_vault_uri := option_map PyStr.lower kv;
                target_uri := Some (PyStr.lower uri);
                target_type := Some AZURE_STORAGE_BLOB_CONTAINER |};
      export_options := options |}).

Local Abbreviation create_import :=
  (importpipeline.create_importpipeline env client rg reg nm uri mode kv
     options ident trig).

Local Abbreviation create_export :=
  (exportpipeline.create_exportpipeline env client rg reg nm uri mode kv
     options ident).

(** X14: the create commands do not translate the errors of their two
    calls.  When [begin_create] raises, the command raises the same
    exception and calls nothing else; when the read-back raises, the
    command raises that exception, not a resource-not-found error, and the
    create call it has made stands. *)
Theorem create_pipeline_errors_propagate :
  (forall s1 e,
     begin_create _ _ (import_pipelines client) rg reg nm import_payload
       (st w) = (s1, inl e) ->
     create_import w
     = (World s1
          (log w ++ [Call (ImportPipelinesBeginCreate rg reg nm
                             import_payload)]),
        inl e)) /\
  (forall s1 s2 h e,
     begin_create _ _ (import_pipelines client) rg reg nm import_payload
       (st w) = (s1, inr h) ->
     get _ _ (import_pipelines client) rg reg nm s1 = (s2, inl e) ->
     create_import w
     = (World s2
          (log w ++ [Call (ImportPipelinesBeginCreate rg reg nm
                             import_payload);
                     Call (ImportPipelinesGet rg reg nm)]),
        inl e)) /\
  (forall s1 e,
     begin_create _ _ (export_pipelines client) rg reg nm export_payload
       (st w) = (s1, inl e) ->
     create_export w
     = (World s1
          (log w ++ [Call (ExportPipelinesBeginCreate rg reg nm
                             export_payload)]),
        inl e)) /\
  (forall s1 s2 h e,
     begin_create _ _ (export_pipelines client) rg reg nm export_payload
       (st w) = (s1, inr h) ->
     get _ _ (export_pipelines client) rg reg nm s1 = (s2, inl e) ->
     create_export w
     = (World s2
          (log w ++ [Call (ExportPipelinesBeginCreate rg reg nm
                             export_payload);
                     Call (ExportPipelinesGet rg reg nm)]),
        inl e)).
Proof.
  split; [intros s1 e; apply create_importpipeline_create_fails|].
  split; [intros s1 s2 h e; apply create_importpipeline_read_back_fails|].
  split; [intros s1 e; apply create_exportpipeline_create_fails|].
  intros s1 s2 h e; apply create_exportpipeline_read_back_fails.
Qed.

(** X15: when both calls of a create command succeed and the guidance can
    be written, the command returns the pipeline as the read-back gave it.
    Without a principal id on that pipeline nothing more happens; with one,
    the subscription is looked up and the command adds the warnings of the
    permission guidance, for the lower-cased URIs, and no further call. *)
Theorem create_pipeline_returns_read_back :
  (forall s1 s2 h p,
     begin_create _ _ (import_pipelines client) rg reg nm import_payload
       (st w) = (s1, inr h) ->
     get _ _ (import_pipelines client) rg reg nm s1 = (s2, inr p) ->
     (forall i, import_identity p = Some i ->
                importpipeline.guidance_principal_id i = None) ->
     create_import w
     = (World s2
          (log w ++ [Call (ImportPipelinesBeginCreate rg reg nm
                             import_payload);
                     Call (ImportPipelinesGet rg reg nm)]),
        inr p)) /\
  (forall s1 s2 s3 h p i pid sub,
     begin_create _ _ (import_pipelines client) rg reg nm import_payload
       (st w) = (s1, inr h) ->
     get _ _ (import_pipelines client) rg reg nm s1 = (s2, inr p) ->
     import_identity p = Some i ->
     importpipeline.guidance_principal_id i = Some pid ->
     get_subscription_id env s2 = (s3, inr sub) ->
     exists evs,
       create_import w
       = (World s3
            (log w ++ Call (ImportPipelinesBeginCreate rg reg nm
                              import_payload)
             :: Call (ImportPipelinesGet rg reg nm) :: evs),
          inr p) /\
       (forall c, ~ In (Call c) evs) /\
       importpipeline._display_permission_guidance env "import" mode pid sub
         rg (PyStr.lower uri) (option_map PyStr.lower kv)
         (World s3
            (log w ++ [Call (ImportPipelinesBeginCreate rg reg nm
                               import_payload);
                       Call (ImportPipelinesGet rg reg nm)]))
       = (World s3
            ((log w ++ [Call (ImportPipelinesBeginCreate rg reg nm
                                import_payload);
                        Call (ImportPipelinesGet rg reg nm)]) ++ evs),
          inr tt)) /\
  (forall s1 s2 h p,
     begin_create _ _ (export_pipelines client) rg reg nm export_payload
       (st w) = (s1, inr h) ->
     get _ _ (export_pipelines client) rg reg nm s1 = (s2, inr p) ->
     (forall i, export_identity p = Some i ->
                exportpipeline.guidance_principal_id i = None) ->
     create_export w
     = (World s2
          (log w ++ [Call (ExportPipelinesBeginCreate rg reg nm
                             export_payload);
                     Call (ExportPipelinesGet rg reg nm)]),
        inr p)) /\
  (forall s1 s2 s3 h p i pid sub,
     begin_create _ _ (export_pipelines client) rg reg nm export_payload
       (st w) = (s1, inr h) ->
     get _ _ (export_pipelines client) rg reg nm s1 = (s2, inr p) ->
     export_identity p = Some i ->
     exportpipeline.guidance_principal_id i = Some pid ->
     get_subscription_id env s2 = (s3, inr sub) ->
     exists evs,
       create_export w
       = (World s3
            (log w ++ Call (ExportPipelinesBeginCreate rg reg nm
                              export_payload)
             :: Call (ExportPipelinesGet rg reg nm) :: evs),
          inr p) /\
       (forall c, ~ In (Call c) evs) /\
       exportpipeline._display_permission_guidance env "export" mode pid sub
         rg (PyStr.lower uri) (option_map PyStr.lower kv)
         (World s3
            (log w ++ [Call (ExportPipelinesBeginCreate rg reg nm
                               export_payload);
                       Call (ExportPipelinesGet rg reg nm)]))
       = (World s3
            ((log w ++ [Call (ExportPipelinesBeginCreate rg reg nm
                                export_payload);
                        Call (ExportPipelinesGet rg reg nm)]) ++ evs),
          inr tt)).
Proof.
  split; [intros s1 s2 h p; apply create_importpipeline_no_principal|].
  split; [intros s1 s2 s3 h p i pid sub;
          apply create_importpipeline_with_guidance|].
  split; [intros s1 s2 h p; apply create_exportpipeline_no_principal|].
  intros s1 s2 s3 h p i pid sub; apply create_exportpipeline_with_guidance.
Qed.

(** X16: the guidance can fail the command.  When the created pipeline
    carries a principal id and the subscription lookup raises, the create
    command raises that exception, after the pipeline has been created and
    read back, and returns no pipeline. *)
Theorem create_pipeline_fails_without_subscription :
  (forall s1 s2 s3 h p i pid e,
     begin_create _ _ (import_pipelines client) rg reg nm import_payload
       (st w) = (s1, inr h) ->
     get _ _ (import_pipelines client) rg reg nm s1 = (s2, inr p) ->
     import_identity p = Some i ->
     importpipeline.guidance_principal_id i = Some pid ->
     get_subscription_id env s2 = (s3, inl e) ->
     create_import w
     = (World s3
          (log w ++ [Call (ImportPipelinesBeginCreate rg reg nm
                             import_payload);
                     Call (ImportPipelinesGet rg reg nm)]),
        inl e)) /\
  (forall s1 s2 s3 h p i pid e,
     begin_create _ _ (export_pipelines client) rg reg nm export_payload
       (st w) = (s1, inr h) ->
     get _ _ (export_pipelines client) rg reg nm s1 = (s2, inr p) ->
     export_identity p = Some i ->
     exportpipeline.guidance_principal_id i = Some pid ->
     get_subscription_id env s2 = (s3, inl e) ->
     create_export w
     = (World s3
          (log w ++ [Call (ExportPipelinesBeginCreate rg reg nm
                             export_payload);
                     Call (ExportPipelinesGet rg reg nm)]),
        inl e)).
Proof.
  split.
  - intros s1 s2 s3 h p i pid e.
    apply create_importpipeline_no_subscription.
  - intros s1 s2 s3 h p i pid e.
    apply create_exportpipeline_no_subscription.
Qed.

End CreatePipelineOutcomes.

Section CreatePipelineWitnesses.

Import sdk.

Lemma create_pipeline_errors_propagate_witness :
  snd (importpipeline.create_importpipeline Sample.env
         Cases.read_only_client "rg" "reg" "imp2"
         "https://acct.blob.core.windows.net/c" "ManagedIdentity" None None
         None true (Sample.start Sample.empty))
  = inl Cases.http_error /\
  snd (exportpipeline.create_exportpipeline Sample.env Sample.client
         "rg" "reg" "exp2" "https://acct.blob.core.windows.net/c"
         "ManagedIdentity" None None None
         (Sample.start Sample.unreachable))
  = inl Sample.connection_error.
Proof.
  split.
  - erewrite (proj1 (create_pipeline_errors_propagate Sample.env
                       Cases.read_only_client "rg" "reg" "imp2"
                       "https://acct.blob.core.windows.net/c"
                       "ManagedIdentity" None None None true
                       (Sample.start Sample.empty)));
      reflexivity.
  - erewrite (proj2 (proj2 (proj2
               (create_pipeline_errors_propagate Sample.env
                  Sample.client "rg" "reg" "exp2"
                  "https://acct.blob.core.windows.net/c"
                  "ManagedIdentity" None None None true
                  (Sample.start Sample.unreachable)))));
      reflexivity.
Defined.

Lemma create_pipeline_returns_read_back_witness :
  (exists p,
     snd (importpipeline.create_importpipeline Sample.env Sample.client
            "rg" "reg" "imp2" "https://Acct.blob.core.windows.net/C"
            "ManagedIdentity" None None None true
            (Sample.start Sample.empty))
     = inr p /\
     option_map source_uri (source p)
     = Some (Some "https://acct.blob.core.windows.net/c")) /\
  (exists p,
     snd (exportpipeline.create_exportpipeline Sample.env
            Cases.assigning_client "rg" "reg" "exp2"
            "https://acct.blob.core.windows.net/c" "ManagedIdentity" None
            None None (Sample.start Sample.empty))
     = inr p /\
     option_map principal_id (export_identity p)
     = Some (Some "11111111-2222-3333-4444-555555555555")).
Proof.
  split.
  - eexists. split.
    + erewrite (proj1 (create_pipeline_returns_read_back Sample.env
                         Sample.client "rg" "reg" "imp2"
                         "https://Acct.blob.core.windows.net/C"
                         "ManagedIdentity" None None None true
                         (Sample.start Sample.empty)));
        [reflexivity | reflexivity | reflexivity |].
      intros i [= <-]. reflexivity.
    + reflexivity.
  - destruct (proj2 (proj2 (proj2
               (create_pipeline_returns_read_back Sample.env
                  Cases.assigning_client "rg" "reg" "exp2"
                  "https://acct.blob.core.windows.net/c" "ManagedIdentity"
                  None None None true (Sample.start Sample.empty))))
               _ _ _ _ _ Cases.assigned_identity
               "11111111-2222-3333-4444-555555555555"
               "00000000-0000-0000-0000-000000000000"
               eq_refl eq_refl eq_refl eq_refl eq_refl)
      as (evs & Hrun & _).
    eexists. split; [rewrite Hrun; reflexivity | reflexivity].
Defined.

Lemma create_pipeline_fails_without_subscription_witness :
  exists e,
    snd (importpipeline.create_importpipeline Cases.logged_out_env
           Cases.assigning_client "rg" "reg" "imp2"
           "https://acct.blob.core.windows.net/c" "ManagedIdentity" None
           None None true (Sample.start Sample.empty))
    = inl e /\
    exn_cls e = OtherException "CLIError".
Proof.
  eexists. split.
  - erewrite (proj1 (create_pipeline_fails_without_subscription
                       Cases.logged_out_env Cases.assigning_client
                       "rg" "reg" "imp2"
                       "https://acct.blob.core.windows.net/c"
                       "ManagedIdentity" None None None true
                       (Sample.start Sample.empty))
                _ _ _ _ _ Cases.assigned_identity
                "11111111-2222-3333-4444-555555555555");
      reflexivity.
  - reflexivity.
Defined.

End CreatePipelineWitnesses.

(** ** Whose principal id the guidance is written for *)

Section PrincipalFacts.

Import sdk.

Lemma first_principal_id_spec
    (items : list (string * option UserIdentityProperties)) :
  match importpipeline.first_principal_id items with
  | Some pid =>
      PyStr.truthy pid = true /\
      exists skipped k info rest,
        items = (skipped ++ (k, Some info) :: rest)%list /\
        user_principal_id info = Some pid /\
        Forall Observe.no_principal skipped
  | None => Forall Observe.no_principal items
  end.
Proof.
  induction items as [|[k [info|]] items IH];
    cbn [importpipeline.first_principal_id].
  - constructor.
  - destruct (truthy_opt (user_principal_id info)) eqn:Ht.
    + destruct (user_principal_id info) as [pid|] eqn:Hp;
        [|discriminate Ht].
      split; [exact Ht|]. exists [], k, info, items.
      repeat split; [exact Hp | constructor].
    + destruct (importpipeline.first_principal_id items) as [pid|].
      * destruct IH as (Htruthy & skipped & k' & info' & rest & -> & Hp & Hs).
        split; [exact Htruthy|].
        exists ((k, Some info) :: skipped), k', info', rest.
        repeat split; [exact Hp|]. constructor; [|exact Hs].
        intros info0 [= <-]. exact Ht.
      * constructor; [|exact IH]. intros info0 [= <-]. exact Ht.
  - destruct (importpipeline.first_principal_id items) as [pid|].
    + destruct IH as (Htruthy & skipped & k' & info' & rest & -> & Hp & Hs).
      split; [exact Htruthy|].
      exists ((k, None) :: skipped), k', info', rest.
      repeat split; [exact Hp|]. constructor; [|exact Hs].
      intros info0 H. discriminate H.
    + constructor; [|exact IH]. intros info0 H. discriminate H.
Qed.

(** X17: the principal id the guidance is written for is never an empty
    text.  A non-empty principal id of the identity itself comes first;
    failing that, it is the principal id of the first user-assigned
    identity that has a non-empty one, entries without being passed over;
    and there is none when no entry has one.  Both create commands choose
    the same way. *)
Theorem guidance_principal_id_choice (i : IdentityProperties) :
  exportpipeline.guidance_principal_id i
  = importpipeline.guidance_principal_id i /\
  (forall pid, importpipeline.guidance_principal_id i = Some pid ->
               PyStr.truthy pid = true) /\
  (truthy_opt (principal_id i) = true ->
   importpipeline.guidance_principal_id i = principal_id i) /\
  (truthy_opt (principal_id i) = false ->
   forall items,
     user_assigned_identities i = Some items ->
     match importpipeline.guidance_principal_id i with
     | Some pid =>
         exists skipped k info rest,
           items = (skipped ++ (k, Some info) :: rest)%list /\
           user_principal_id info = Some pid /\
           Forall Observe.no_principal skipped
     | None => Forall Observe.no_principal items
     end) /\
  (truthy_opt (principal_id i) = false ->
   user_assigned_identities i = None ->
   importpipeline.guidance_principal_id i = None).
Proof.
  split; [reflexivity|].
  unfold importpipeline.guidance_principal_id.
  destruct (truthy_opt (principal_id i)) eqn:Htop.
  - split; [|split; [reflexivity|split; intros H; discriminate H]].
    intros pid Hpid. rewrite Hpid in Htop. exact Htop.
  - split; [|split; [intros H; discriminate H|split]].
    + intros pid. destruct (user_assigned_identities i) as [[|kv items]|];
        try discriminate.
      intros Hpid.
      change (importpipeline.first_principal_id (kv :: items) = Some pid)
        in Hpid.
      pose proof (first_principal_id_spec (kv :: items)) as Hspec.
      rewrite Hpid in Hspec. apply Hspec.
    + intros _ items ->. destruct items as [|kv items]; [constructor|].
      pose proof (first_principal_id_spec (kv :: items)) as Hspec.
      change (match importpipeline.first_principal_id (kv :: items) with
              | Some pid =>
                  exists skipped k info rest,
                    (kv :: items) = (skipped ++ (k, Some info) :: rest)%list
                    /\ user_principal_id info = Some pid
                    /\ Forall Observe.no_principal skipped
              | None => Forall Observe.no_principal (kv :: items)
              end).
      destruct (importpipeline.first_principal_id (kv :: items));
        [apply Hspec | exact Hspec].
    + intros _ ->. reflexivity.
Qed.

Lemma guidance_principal_id_choice_witness :
  importpipeline.guidance_principal_id
    {| identity_type := Some "UserAssigned";
       principal_id := None;
       user_assigned_identities :=
         Some [("/id/one", None);
               ("/id/two", Some {| user_principal_id := Some EmptyString |});
               ("/id/three", Some {| user_principal_id := Some "p3" |})] |}
  = Some "p3" /\
  PyStr.truthy "p3" = true.
Proof.
  split; [reflexivity|].
  apply (proj1 (proj2 (guidance_principal_id_choice
                         {| identity_type := Some "UserAssigned";
                            principal_id := None;
                            user_assigned_identities :=
                              Some [("/id/one", None);
                                    ("/id/two",
                                     Some {| user_principal_id := Some EmptyString |});
                                    ("/id/three",
                                     Some {| user_principal_id :=
                                               Some "p3" |})] |}))
           "p3").
  reflexivity.
Defined.

End PrincipalFacts.

(** ** Creating an import run *)

Section CreateImportRunFacts.

Import sdk.

Context {sys poller : Type}.
Variable env : Env sys.
Variable client : Client sys poller.
Variables rg reg pipeline_name run_name blob : string.
Variable force : bool.
Variable w : world event sys.

(** X18: for the pipeline type "import" the artifacts play no part: the
    command does the same with any artifacts as with none, and never asks
    for them.  It reads the import pipeline first; when that read raises,
    it raises the resource-not-found error for the import pipeline; when it
    returns, the create call is the last step and its request names the
    pipeline and the source blob and carries neither target nor
    artifacts. *)
Theorem create_pipelinerun_import_ignores_artifacts :
  (forall a1 a2,
     pipelinerun.create_pipelinerun env client rg reg pipeline_name run_name
       "import" blob a1 force w
     = pipelinerun.create_pipelinerun env client rg reg pipeline_name
         run_name "import" blob a2 force w) /\
  (forall s' e arts,
     get _ _ (import_pipelines client) rg reg pipeline_name (st w)
     = (s', inl e) ->
     pipelinerun.create_pipelinerun env client rg reg pipeline_name run_name
       "import" blob arts force w
     = (World s' (log w ++ [Call (ImportPipelinesGet rg reg pipeline_name)]),
        inl (Exn ResourceNotFoundError
               (not_found_message "Import pipeline" pipeline_name reg rg)
               (Some e)))) /\
  (forall s' p arts,
     get _ _ (import_pipelines client) rg reg pipeline_name (st w)
     = (s', inr p) ->
     exists evs,
       (forall c, ~ In (Call c) evs) /\
       let (s1, tag) :=
         if force
         then let (s1, t) := time_time_str env s' in (s1, Some t)
         else (s', None) in
       let pipeline_run :=
         {| create_request :=
              Some {| pipeline_resource_id := import_id p;
                      run_source := Some {| run_source_name := blob |};
                      run_target := None;
                      artifacts := None |};
            force_update_tag := tag |} in
       let (s2, out) :=
         begin_create _ _ (pipeline_runs client) rg reg run_name
           pipeline_run s1 in
       pipelinerun.create_pipelinerun env client rg reg pipeline_name
         run_name "import" blob arts force w
       = (World s2
            (log w ++ Call (ImportPipelinesGet rg reg pipeline_name) :: evs
             ++ [Call (PipelineRunsBeginCreate rg reg run_name
                         pipeline_run)]),
          out)).
Proof.
  split; [reflexivity|]. split.
  - intros s' e arts H. unfold pipelinerun.create_pipelinerun.
    cbn [String.eqb Ascii.eqb Bool.eqb]. run_cmd. rewrite H. reflexivity.
  - intros s' p arts H. unfold pipelinerun.create_pipelinerun.
    cbn [String.eqb Ascii.eqb Bool.eqb].
    destruct (display_authentication_method_logs (sys:=sys)
                match source p with
                | Some src => source_storage_access_mode src
                | None => None
                end) as (evs & Hw & Hevs).
    exists evs. split; [exact Hw|].
    run_cmd. rewrite H. cbn [st log]. rewrite Hevs. cbn [st log].
    destruct force; cbv beta; cbn [st log].
    + destruct (time_time_str env s') as [s1 t]. cbn [st log].
      destruct (begin_create _ _ _ _ _ _ _ s1) as [s2 out].
      repeat rewrite <- app_assoc. reflexivity.
    + destruct (begin_create _ _ _ _ _ _ _ s') as [s2 out].
      repeat rewrite <- app_assoc. reflexivity.
Qed.

End CreateImportRunFacts.

Lemma create_pipelinerun_import_ignores_artifacts_witness :
  pipelinerun.create_pipelinerun Sample.env Sample.client "rg" "reg" "nope"
    "run1" "import" "blob" (Some ["repo1"]) false
    (Sample.start Sample.populated)
  = (World Sample.populated
       [sdk.Call (sdk.ImportPipelinesGet "rg" "reg" "nope")],
     inl (Exn ResourceNotFoundError
            "Import pipeline nope not found on registry reg in the rg resource group."
            (Some (Sample.missing "nope")))).
Proof.
  apply (proj1 (proj2 (create_pipelinerun_import_ignores_artifacts
                         Sample.env Sample.client "rg" "reg" "nope" "run1"
                         "blob" false (Sample.start Sample.populated)))).
  reflexivity.
Defined.

(** ** The tags of the artifacts *)

Section TagFacts.

Import PyStr.

(** X19: after [add_latest_tag] an artifact always holds a ":" or an "@",
    so every artifact sent with an export run has a tag or a digest; the
    artifact itself is kept as the beginning of the result; and tagging
    twice is tagging once, for one artifact and for a list of them. *)
Theorem add_latest_tag_always_tagged (a : string) (l : list string) :
  (str_in ":" (pipelinerun.add_latest_tag a) = true \/
   str_in "@" (pipelinerun.add_latest_tag a) = true) /\
  (exists suffix, pipelinerun.add_latest_tag a = a ++ suffix) /\
  pipelinerun.add_latest_tag (pipelinerun.add_latest_tag a)
  = pipelinerun.add_latest_tag a /\
  map pipelinerun.add_latest_tag (map pipelinerun.add_latest_tag l)
  = map pipelinerun.add_latest_tag l /\
  Forall (fun x => str_in ":" x = true \/ str_in "@" x = true)
         (map pipelinerun.add_latest_tag l).
Proof.
  assert (Htag : forall x,
             str_in ":" (pipelinerun.add_latest_tag x) = true \/
             str_in "@" (pipelinerun.add_latest_tag x) = true).
  { intros x. unfold pipelinerun.add_latest_tag.
    destruct (str_in ":" x) eqn:H1; [now left|].
    destruct (str_in "@" x) eqn:H2; [now right|].
    cbn [negb andb]. left. apply str_in_skip. reflexivity. }
  assert (Hidem : forall x,
             pipelinerun.add_latest_tag (pipelinerun.add_latest_tag x)
             = pipelinerun.add_latest_tag x).
  { intros x. apply add_latest_tag_tagged, Htag. }
  split; [apply Htag|]. split.
  - unfold pipelinerun.add_latest_tag.
    destruct (negb _ && negb _); [now exists ":latest"|].
    exists EmptyString. clear. induction a as [|c a IH]; cbn; congruence.
  - split; [apply Hidem|]. split.
    + rewrite map_map. apply map_ext. exact Hidem.
    + apply Forall_forall. intros x Hin.
      apply in_map_iff in Hin as (y & <- & _). apply Htag.
Qed.

End TagFacts.

(** ** The cleanup loop, one attempt after the other *)

Section CleanLoopFacts.

Import sdk.

Context {sys poller : Type}.
Variable client : Client sys poller.
Variables rg reg : string.
Variable total : Z.

Lemma progress_warnings_app (l1 l2 : list event) :
  Observe.progress_warnings (l1 ++ l2)
  = (Observe.progress_warnings l1 + Observe.progress_warnings l2)%nat.
Proof.
  unfold Observe.progress_warnings. now rewrite filter_app, length_app.
Qed.

(** A turn whose delete returns adds a progress warning exactly when the
    new number of successes is a multiple of 100. *)
Lemma clean_step_deleted_progress (x : PipelineRun) (sc fc : Z)
    (w : world event sys) (s' : sys) (h : poller) :
  begin_delete _ _ (pipeline_runs client) rg reg (name x) (st w)
  = (s', inr h) ->
  exists w',
    pipelinerun.clean_step client rg reg total (sc, fc) x w
    = (w', inr (sc + 1, fc)) /\
    Observe.progress_warnings (log w')
    = (Observe.progress_warnings (log w)
       + if ((sc + 1) mod 100 =? 0)%Z then 1 else 0)%nat.
Proof.
  intros H. unfold pipelinerun.clean_step. run_cmd. rewrite H.
  cbn [st log fst snd].
  destruct ((sc + 1) mod 100 =? 0); cbn [st log];
    (eexists; split; [reflexivity|]); cbn [log];
    repeat rewrite progress_warnings_app; cbn; lia.
Qed.

(** A turn whose delete raises a caught error adds a progress warning
    exactly when the number of successes so far is a multiple of 100. *)
Lemma clean_step_caught_progress (x : PipelineRun) (sc fc : Z)
    (w : world event sys) (s' : sys) (e : exn) :
  begin_delete _ _ (pipeline_runs client) rg reg (name x) (st w)
  = (s', inl e) ->
  pipelinerun.caught_by_clean e = true ->
  exists w',
    pipelinerun.clean_step client rg reg total (sc, fc) x w
    = (w', inr (sc, fc + 1)) /\
    Observe.progress_warnings (log w')
    = (Observe.progress_warnings (log w)
       + if (sc mod 100 =? 0)%Z then 1 else 0)%nat.
Proof.
  intros H Hc. unfold pipelinerun.clean_step. run_cmd. rewrite H.
  cbn [st log fst snd]. rewrite Hc. cbn [st log fst snd].
  destruct (sc mod 100 =? 0); cbn [st log];
    (eexists; split; [reflexivity|]); cbn [log];
    repeat rewrite progress_warnings_app; cbn; lia.
Qed.

Lemma hundreds_step (sc : Z) :
  (sc + 1) / 100 - sc / 100 = if (sc + 1) mod 100 =? 0 then 1 else 0.
Proof.
  destruct (Z.eqb_spec ((sc + 1) mod 100) 0) as [H|H];
    Z.to_euclidean_division_equations; lia.
Qed.

(** When every delete returns, the loop counts every item as a success and
    writes one progress warning for each multiple of 100 the number of
    successes reaches. *)
Lemma for_each_all_deleted (items : list PipelineRun) :
  (forall s nm, exists s' h,
     begin_delete _ _ (pipeline_runs client) rg reg nm s = (s', inr h)) ->
  forall (sc fc : Z) (w : world event sys),
    0 <= sc ->
    exists w',
      pipelinerun.for_each (pipelinerun.clean_step client rg reg total)
        items (sc, fc) w
      = (w', inr (sc + Z.of_nat (length items), fc)) /\
      Observe.progress_warnings (log w')
      = (Observe.progress_warnings (log w)
         + Z.to_nat ((sc + Z.of_nat (length items)) / 100 - sc / 100)%Z)%nat.
Proof.
  intros Hall. induction items as [|x items IH]; intros sc fc w Hsc.
  - exists w. cbn [length Z.of_nat pipelinerun.for_each]. unfold ret.
    rewrite Z.add_0_r, Z.sub_diag. cbn. split; [reflexivity | lia].
  - destruct (Hall (st w) (name x)) as (s1 & h & Hdel).
    destruct (clean_step_deleted_progress x sc fc w s1 h Hdel)
      as (w1 & Hstep & Hp1).
    rewrite (for_each_cons _ _ _ _ _ _ _ Hstep).
    destruct (IH (sc + 1) fc w1 ltac:(lia)) as (w' & Hrun & Hp).
    exists w'. split.
    + rewrite Hrun. do 3 f_equal. cbn [length]. lia.
    + rewrite Hp, Hp1. pose proof (hundreds_step sc) as Hh.
      replace (sc + Z.of_nat (length (x :: items)))
        with (sc + 1 + Z.of_nat (length items)) by (cbn [length]; lia).
      assert (0 <= (sc + 1 + Z.of_nat (length items)) / 100 - (sc + 1) / 100).
      { apply Z.le_0_sub, Z.div_le_mono; lia. }
      destruct ((sc + 1) mod 100 =? 0); lia.
Qed.

(** When every delete raises a caught error and nothing has succeeded
    before, the loop counts every item as a failure and writes a progress
    warning after each of them. *)
Lemma for_each_all_caught (items : list PipelineRun) :
  (forall s nm, exists s' e,
     begin_delete _ _ (pipeline_runs client) rg reg nm s = (s', inl e) /\
     pipelinerun.caught_by_clean e = true) ->
  forall (fc : Z) (w : world event sys),
    exists w',
      pipelinerun.for_each (pipelinerun.clean_step client rg reg total)
        items (0, fc) w
      = (w', inr (0, fc + Z.of_nat (length items))) /\
      Observe.progress_warnings (log w')
      = (Observe.progress_warnings (log w) + length items)%nat.
Proof.
  intros Hall. induction items as [|x items IH]; intros fc w.
  - exists w. cbn [length Z.of_nat pipelinerun.for_each]. unfold ret.
    rewrite Z.add_0_r. split; [reflexivity | lia].
  - destruct (Hall (st w) (name x)) as (s1 & e & Hdel & Hc).
    destruct (clean_step_caught_progress x 0 fc w s1 e Hdel Hc)
      as (w1 & Hstep & Hp1).
    rewrite (for_each_cons _ _ _ _ _ _ _ Hstep).
    destruct (IH (fc + 1) w1) as (w' & Hrun & Hp).
    exists w'. split.
    + rewrite Hrun. do 3 f_equal. cbn [length]. lia.
    + rewrite Hp, Hp1. cbn [length]. cbn. lia.
Qed.

(** When the loop raises, the exception is one the [except] clause does
    not name, raised by the delete of one of the items; the items before it
    and the item itself were attempted, in order, the items after it were
    not, and that delete is the last thing in the log. *)
Lemma for_each_clean_step_raises (items : list PipelineRun) :
  forall (sc fc : Z) (w w' : world event sys) (e : exn),
    pipelinerun.for_each (pipelinerun.clean_step client rg reg total)
      items (sc, fc) w
    = (w', inl e) ->
    pipelinerun.caught_by_clean e = false /\
    exists done x rest s0 before,
      items = (done ++ x :: rest)%list /\
      begin_delete _ _ (pipeline_runs client) rg reg (name x) s0
      = (st w', inl e) /\
      run_deletions (log w')
      = (run_deletions (log w) ++ map name done ++ [name x])%list /\
      log w'
      = (before ++ [Call (PipelineRunsBeginDelete rg reg (name x))])%list.
Proof.
  induction items as [|x items IH]; intros sc fc w w' e H.
  - discriminate H.
  - destruct (begin_delete _ _ (pipeline_runs client) rg reg (name x) (st w))
      as [s1 [e0|h]] eqn:Hdel.
    + destruct (pipelinerun.caught_by_clean e0) eqn:Hc.
      * destruct (clean_step_caught client rg reg total x sc fc w s1 e0
                    Hdel Hc) as (w1 & Hstep & _ & Hlog).
        rewrite (for_each_cons _ _ _ _ _ _ _ Hstep) in H.
        apply IH in H
          as (Hne & done & y & rest & s0 & before & -> & Hy & Hdels & Hlast).
        split; [exact Hne|].
        exists (x :: done), y, rest, s0, before.
        repeat split; [exact Hy | | exact Hlast].
        rewrite Hdels, Hlog, <- app_assoc. reflexivity.
      * cbn [pipelinerun.for_each] in H. unfold bind in H.
        rewrite (clean_step_escapes client rg reg total x sc fc w s1 e0
                   Hdel Hc) in H.
        injection H as <- <-. split; [exact Hc|].
        exists [], x, items, (st w), (log w).
        cbn [st log]. repeat split; [exact Hdel|].
        rewrite run_deletions_app. reflexivity.
    + destruct (clean_step_deleted client rg reg total x sc fc w s1 h Hdel)
        as (w1 & Hstep & _ & Hlog).
      rewrite (for_each_cons _ _ _ _ _ _ _ Hstep) in H.
      apply IH in H
        as (Hne & done & y & rest & s0 & before & -> & Hy & Hdels & Hlast).
      split; [exact Hne|].
      exists (x :: done), y, rest, s0, before.
      repeat split; [exact Hy | | exact Hlast].
      rewrite Hdels, Hlog, <- app_assoc. reflexivity.
Qed.

End CleanLoopFacts.

Section CleanOutcomes.

Import sdk.

Context {sys poller : Type}.
Variable client : Client sys poller.
Variables rg reg : string.
Variable w : world event sys.

Ltac run_clean H :=
  run_cmd; rewrite H; cbn [st log].

Ltac count_progress :=
  cbn [log]; repeat rewrite progress_warnings_app;
  repeat match goal with
         | |- context [Observe.progress_warnings [?e]] =>
             change (Observe.progress_warnings [e]) with 0%nat
         end.

(** X20: the live cleanup stops at the first error it does not catch.
    Whenever it raises after a successful listing, the exception is not of
    the five classes of its [except] clause and was raised by the delete of
    one failed run; the failed runs before that one and the run itself were
    attempted, in order, the ones after it were not, and the log ends with
    that delete: no summary is written. *)
Theorem clean_pipelinerun_stops_at_uncaught_error (s' : sys)
    (runs : list PipelineRun) (w' : world event sys) (e : exn) :
  list_ _ _ (pipeline_runs client) rg reg (st w) = (s', inr runs) ->
  pipelinerun.clean_pipelinerun client rg reg false w = (w', inl e) ->
  pipelinerun.caught_by_clean e = false /\
  exists done x rest s0 before,
    filter pipelinerun.is_failed runs = (done ++ x :: rest)%list /\
    begin_delete _ _ (pipeline_runs client) rg reg (name x) s0
    = (st w', inl e) /\
    run_deletions (log w')
    = (run_deletions (log w) ++ map name done ++ [name x])%list /\
    log w' = (before ++ [Call (PipelineRunsBeginDelete rg reg (name x))])%list.
Proof.
  intros Hlist. run_clean Hlist.
  destruct (pipelinerun.for_each _ _ _ _) as [w1 [e1|[sc fc]]] eqn:Hloop;
    [|discriminate].
  intros [= <- <-].
  apply for_each_clean_step_raises in Hloop
    as (Hne & done & x & rest & s0 & before & Hitems & Hx & Hdels & Hlast).
  split; [exact Hne|]. exists done, x, rest, s0, before.
  repeat split; try assumption.
  rewrite Hdels. cbn [log]. repeat rewrite run_deletions_app.
  cbn [run_deletions]. now rewrite !app_nil_r.
Qed.

(** X21: when every delete returns, the live cleanup of n failed runs
    returns, reports n deletions and 0 failures, and has written one
    progress warning per full hundred of deletions, n / 100 in all. *)
Theorem clean_pipelinerun_all_deleted (s' : sys) (runs : list PipelineRun) :
  list_ _ _ (pipeline_runs client) rg reg (st w) = (s', inr runs) ->
  (forall s nm, exists s1 h,
     begin_delete _ _ (pipeline_runs client) rg reg nm s = (s1, inr h)) ->
  exists w' before,
    pipelinerun.clean_pipelinerun client rg reg false w = (w', inr None) /\
    log w'
    = (before
       ++ [Warning "Deletion complete: Deleted %s failed pipeline-runs."
             [LInt (Z.of_nat (length (filter pipelinerun.is_failed runs)))];
           Warning "%s deletions failed." [LInt 0]])%list /\
    Observe.progress_warnings (log w')
    = (Observe.progress_warnings (log w)
       + Z.to_nat (Z.of_nat (length (filter pipelinerun.is_failed runs))
                   / 100))%nat.
Proof.
  intros Hlist Hall. run_clean Hlist.
  destruct (for_each_all_deleted client rg reg
              (Z.of_nat (length (filter pipelinerun.is_failed runs)))
              (filter pipelinerun.is_failed runs) Hall 0 0
              (World s'
                 ((log w ++ [Call (PipelineRunsList rg reg)]) ++
                  [Warning "Found %s failed pipeline-runs to delete."
                     [LInt (Z.of_nat
                              (length (filter pipelinerun.is_failed runs)))]]))
              ltac:(lia))
    as (w1 & -> & Hp).
  cbn [fst snd st log]. eexists. exists (log w1).
  split; [reflexivity|]. split.
  - now rewrite <- app_assoc.
  - count_progress. rewrite Hp. count_progress.
    rewrite Z.add_0_l. change (0 / 100) with 0. rewrite Z.sub_0_r. lia.
Qed.

(** X22: when every delete raises an error of the five caught classes,
    the live cleanup of n failed runs still returns; it reports 0 deletions
    and n failures, and, the number of successes staying at zero, it has
    written a progress warning after every one of the n attempts. *)
Theorem clean_pipelinerun_all_caught (s' : sys) (runs : list PipelineRun) :
  list_ _ _ (pipeline_runs client) rg reg (st w) = (s', inr runs) ->
  (forall s nm, exists s1 e,
     begin_delete _ _ (pipeline_runs client) rg reg nm s = (s1, inl e) /\
     pipelinerun.caught_by_clean e = true) ->
  exists w' before,
    pipelinerun.clean_pipelinerun client rg reg false w = (w', inr None) /\
    log w'
    = (before
       ++ [Warning "Deletion complete: Deleted %s failed pipeline-runs."
             [LInt 0];
           Warning "%s deletions failed."
             [LInt (Z.of_nat (length (filter pipelinerun.is_failed runs)))]])%list
    /\
    Observe.progress_warnings (log w')
    = (Observe.progress_warnings (log w)
       + length (filter pipelinerun.is_failed runs))%nat.
Proof.
  intros Hlist Hall. run_clean Hlist.
  destruct (for_each_all_caught client rg reg
              (Z.of_nat (length (filter pipelinerun.is_failed runs)))
              (filter pipelinerun.is_failed runs) Hall 0
              (World s'
                 ((log w ++ [Call (PipelineRunsList rg reg)]) ++
                  [Warning "Found %s failed pipeline-runs to delete."
                     [LInt (Z.of_nat
                              (length (filter pipelinerun.is_failed runs)))]])))
    as (w1 & -> & Hp).
  cbn [fst snd st log]. eexists. exists (log w1).
  split; [reflexivity|]. split.
  - now rewrite <- app_assoc.
  - count_progress. rewrite Hp. count_progress. lia.
Qed.

(** X23: the cleanup does not translate an error of the listing: in both
    modes it raises the same exception and does nothing else.  And when
    the listing holds no failed run, the live cleanup deletes nothing,
    writes no progress warning, reports zero deletions and zero failures,
    and the dry run returns the empty list. *)
Theorem clean_pipelinerun_nothing_to_do (s' : sys) :
  (forall e dry_run,
     list_ _ _ (pipeline_runs client) rg reg (st w) = (s', inl e) ->
     pipelinerun.clean_pipelinerun client rg reg dry_run w
     = (World s' (log w ++ [Call (PipelineRunsList rg reg)]), inl e)) /\
  (forall runs,
     list_ _ _ (pipeline_runs client) rg reg (st w) = (s', inr runs) ->
     (forall x, In x runs -> provisioning_state x <> Some "Failed") ->
     pipelinerun.clean_pipelinerun client rg reg false w
     = (World s'
          (log w ++
           [Call (PipelineRunsList rg reg);
            Warning "Found %s failed pipeline-runs to delete." [LInt 0];
            Warning "Deletion complete: Deleted %s failed pipeline-runs."
              [LInt 0];
            Warning "%s deletions failed." [LInt 0]]),
        inr None) /\
     snd (pipelinerun.clean_pipelinerun client rg reg true w)
     = inr (Some [])).
Proof.
  split.
  - intros e dry_run H. run_clean H. reflexivity.
  - intros runs H Hnone.
    assert (Hf : filter pipelinerun.is_failed runs = []).
    { clear H. induction runs as [|x runs IH]; [reflexivity|].
      cbn [filter].
      assert (Hx : pipelinerun.is_failed x = false).
      { unfold pipelinerun.is_failed, eq_lit.
        specialize (Hnone x (or_introl eq_refl)).
        destruct (provisioning_state x) as [st0|]; [|reflexivity].
        destruct (String.eqb_spec st0 "Failed") as [->|_];
          [now elim Hnone | reflexivity]. }
      rewrite Hx. apply IH. intros y Hy. apply Hnone. now right. }
    split.
    + run_clean H. rewrite Hf. cbn. repeat rewrite <- app_assoc.
      reflexivity.
    + run_clean H. rewrite Hf. reflexivity.
Qed.

End CleanOutcomes.

Section CleanOutcomeWitnesses.

Import sdk.

Lemma clean_pipelinerun_stops_at_uncaught_error_witness :
  pipelinerun.caught_by_clean Cases.http_error = false /\
  exists w',
    pipelinerun.clean_pipelinerun Cases.strict_client "rg" "reg" false
      (Sample.start Cases.failed_middle_locked)
    = (w', inl Cases.http_error) /\
    run_deletions (log w') = ["a"; "b"].
Proof.
  destruct (clean_pipelinerun_stops_at_uncaught_error Cases.strict_client
              "rg" "reg" (Sample.start Cases.failed_middle_locked)
              Cases.failed_middle_locked
              (Sample.runs Cases.failed_middle_locked) _ _ eq_refl eq_refl)
    as (Hne & _).
  split; [exact Hne|].
  exists (fst (pipelinerun.clean_pipelinerun Cases.strict_client "rg" "reg"
                 false (Sample.start Cases.failed_middle_locked))).
  split; reflexivity.
Defined.

Lemma clean_pipelinerun_all_deleted_witness :
  exists w' before,
    pipelinerun.clean_pipelinerun Cases.obliging_client "rg" "reg" false
      (Sample.start Cases.failed_unlocked)
    = (w', inr None) /\
    log w'
    = (before
       ++ [Warning "Deletion complete: Deleted %s failed pipeline-runs."
             [LInt 3];
           Warning "%s deletions failed." [LInt 0]])%list /\
    Observe.progress_warnings (log w') = 0%nat.
Proof.
  destruct (clean_pipelinerun_all_deleted Cases.obliging_client "rg" "reg"
              (Sample.start Cases.failed_unlocked) Cases.failed_unlocked
              (Sample.runs Cases.failed_unlocked) eq_refl)
    as (w' & before & Hrun & Hlog & Hp).
  - intros s nm. do 2 eexists. reflexivity.
  - exists w', before. split; [exact Hrun|]. split; [exact Hlog|exact Hp].
Defined.

Lemma clean_pipelinerun_all_caught_witness :
  exists w' before,
    pipelinerun.clean_pipelinerun Cases.refusing_client "rg" "reg" false
      (Sample.start Cases.failed_locked)
    = (w', inr None) /\
    log w'
    = (before
       ++ [Warning "Deletion complete: Deleted %s failed pipeline-runs."
             [LInt 0];
           Warning "%s deletions failed." [LInt 3]])%list /\
    Observe.progress_warnings (log w') = 3%nat.
Proof.
  destruct (clean_pipelinerun_all_caught Cases.refusing_client "rg" "reg"
              (Sample.start Cases.failed_locked) Cases.failed_locked
              (Sample.runs Cases.failed_locked) eq_refl)
    as (w' & before & Hrun & Hlog & Hp).
  - intros s nm. do 2 eexists. split; reflexivity.
  - exists w', before. split; [exact Hrun|]. split; [exact Hlog|exact Hp].
Defined.

Lemma clean_pipelinerun_nothing_to_do_witness :
  pipelinerun.clean_pipelinerun Cases.no_listing_client "rg" "reg" false
    (Sample.start Sample.three_runs)
  = (World Sample.three_runs [Call (PipelineRunsList "rg" "reg")],
     inl Sample.connection_error) /\
  snd (pipelinerun.clean_pipelinerun Sample.client "rg" "reg" false
         (Sample.start Sample.three_runs))
  = inr None.
Proof.
  split.
  - apply (proj1 (clean_pipelinerun_nothing_to_do Cases.no_listing_client
                    "rg" "reg" (Sample.start Sample.three_runs)
                    Sample.three_runs)).
    reflexivity.
  - rewrite (proj1 (proj2 (clean_pipelinerun_nothing_to_do Sample.client
                             "rg" "reg" (Sample.start Sample.three_runs)
                             Sample.three_runs)
                      (Sample.runs Sample.three_runs) eq_refl
                      ltac:(intros x [<-|[<-|[<-|[]]]]; discriminate))).
    reflexivity.
Defined.

End CleanOutcomeWitnesses.

(** ** Reading a run *)

Section GetRunFacts.

Import sdk.

Lemma split_on_aux_nonempty (sep : string) (s : string) :
  forall skip, PyStr.split_on_aux sep skip s <> [].
Proof.
  induction s as [|c s IH]; intros skip; cbn [PyStr.split_on_aux].
  - discriminate.
  - destruct skip as [|k]; [|apply IH].
    destruct (String.prefix sep (String c s)); [discriminate|].
    destruct (PyStr.split_on_aux sep 0 s); discriminate.
Qed.

(** [s.split(sep)[-1]] never fails. *)
Lemma last_item_split_on (sep s : string) :
  exists piece, pipelinerun.last_item (PyStr.split_on sep s) = inr piece.
Proof.
  unfold pipelinerun.last_item, PyStr.split_on.
  destruct (rev (PyStr.split_on_aux sep 0 s)) as [|x l] eqn:H.
  - apply (f_equal (@rev string)) in H. rewrite rev_involutive in H.
    now apply split_on_aux_nonempty in H.
  - now exists x.
Qed.

Lemma calls_of_warnings (l : list event) :
  (forall c, ~ In (Call c) l) -> Observe.calls l = [].
Proof.
  induction l as [|[c|f a] l IH]; intros H; cbn [Observe.calls].
  - reflexivity.
  - elim (H c). now left.
  - apply IH. intros c Hin. apply (H c). now right.
Qed.

Lemma str_length_app (a b : string) :
  String.length (a ++ b) = (String.length a + String.length b)%nat.
Proof. induction a as [|c a IH]; cbn; congruence. Qed.

Lemma str_app_assoc (a b c : string) : (a ++ b) ++ c = a ++ b ++ c.
Proof. induction a as [|x a IH]; cbn; congruence. Qed.

Lemma prefix_split (p s : string) :
  String.prefix p s = true -> exists rest, s = p ++ rest.
Proof.
  revert s. induction p as [|c p IH]; intros s H.
  - now exists s.
  - destruct s as [|d s]; [discriminate H|]. cbn [String.prefix] in H.
    destruct (Ascii.ascii_dec c d) as [->|_]; [|discriminate H].
    destruct (IH s H) as [rest ->]. now exists rest.
Qed.

Lemma split_on_aux_skip (sep pre rest : string) :
  PyStr.split_on_aux sep (String.length pre) (pre ++ rest) = PyStr.split_on_aux sep 0 rest.
Proof.
  induction pre as [|c pre IH]; [reflexivity|]. exact IH.
Qed.

Lemma join_cons_char (sep : string) (c : ascii) (h : string) (t : list string) :
  PyStr.join sep (String c h :: t) = String c (PyStr.join sep (h :: t)).
Proof. destruct t; reflexivity. Qed.

Lemma split_on_join_bounded (a : ascii) (sep' : string) (n : nat) :
  forall s, (String.length s <= n)%nat ->
    PyStr.join (String a sep') (PyStr.split_on_aux (String a sep') 0 s) = s.
Proof.
  induction n as [|n IH]; intros s Hlen.
  - destruct s; [reflexivity | cbn in Hlen; lia].
  - destruct s as [|c s]; [reflexivity|].
    cbn [PyStr.split_on_aux].
    destruct (String.prefix (String a sep') (String c s)) eqn:Hp.
    + apply prefix_split in Hp as [rest Hrest].
      cbn [append] in Hrest. injection Hrest as -> ->.
      replace (String.length (String a sep') - 1)%nat
        with (String.length sep') by (cbn [String.length]; lia).
      rewrite split_on_aux_skip.
      assert (Hr : (String.length rest <= n)%nat).
      { cbn [String.length] in Hlen. rewrite str_length_app in Hlen. lia. }
      pose proof (IH rest Hr) as IHr.
      destruct (PyStr.split_on_aux (String a sep') 0 rest) as [|h t] eqn:Hs.
      * now apply split_on_aux_nonempty in Hs.
      * change (PyStr.join (String a sep') (EmptyString :: h :: t))
          with (EmptyString ++ String a sep'
                ++ PyStr.join (String a sep') (h :: t)).
        rewrite IHr. reflexivity.
    + assert (Hs : (String.length s <= n)%nat) by (cbn in Hlen; lia).
      pose proof (IH s Hs) as IHs.
      destruct (PyStr.split_on_aux (String a sep') 0 s) as [|h t].
      * cbn in IHs. subst s. reflexivity.
      * rewrite join_cons_char, IHs. reflexivity.
Qed.

(** A single piece means that the separator does not occur. *)
Lemma split_on_single_bounded (a : ascii) (sep' : string) (n : nat) :
  forall s x, (String.length s <= n)%nat ->
    PyStr.split_on_aux (String a sep') 0 s = [x] -> PyStr.str_in (String a sep') s = false.
Proof.
  induction n as [|n IH]; intros s x Hlen H.
  - destruct s; [reflexivity | cbn in Hlen; lia].
  - destruct s as [|c s]; [reflexivity|].
    cbn [PyStr.split_on_aux] in H. cbn [PyStr.str_in].
    destruct (String.prefix (String a sep') (String c s)) eqn:Hp.
    + injection H as _ H. now apply split_on_aux_nonempty in H.
    + cbn [orb].
      assert (Hs : (String.length s <= n)%nat) by (cbn in Hlen; lia).
      destruct (PyStr.split_on_aux (String a sep') 0 s) as [|h t] eqn:Hsp.
      * now apply split_on_aux_nonempty in Hsp.
      * injection H as _ ->. now apply (IH s h Hs).
Qed.

Lemma join_last (sep : string) (l : list string) (x y : string) :
  PyStr.join sep (l ++ [x; y]) = PyStr.join sep (l ++ [x]) ++ sep ++ y.
Proof.
  induction l as [|z l IH]; [reflexivity|].
  cbn [app]. destruct l as [|z' l].
  - cbn. now rewrite !str_app_assoc.
  - cbn [app] in *. change (PyStr.join sep (z :: z' :: (l ++ [x; y])))
      with (z ++ sep ++ PyStr.join sep (z' :: l ++ [x; y])).
    change (PyStr.join sep (z :: z' :: (l ++ [x])))
      with (z ++ sep ++ PyStr.join sep (z' :: l ++ [x])).
    rewrite IH. now rewrite !str_app_assoc.
Qed.

(** When the separator occurs, the last piece is what follows one of its
    occurrences, to the end of the string. *)
Lemma last_piece_follows_separator (a : ascii) (sep' s piece : string) :
  PyStr.str_in (String a sep') s = true ->
  pipelinerun.last_item (PyStr.split_on (String a sep') s) = inr piece ->
  exists before, s = before ++ String a sep' ++ piece.
Proof.
  intros Hin Hlast. unfold pipelinerun.last_item, PyStr.split_on in Hlast.
  pose proof (split_on_join_bounded a sep' (String.length s) s (le_n _))
    as Hjoin.
  destruct (rev (PyStr.split_on_aux (String a sep') 0 s)) as [|x r] eqn:Hrev;
    [discriminate Hlast|].
  injection Hlast as ->.
  apply (f_equal (@rev string)) in Hrev. rewrite rev_involutive in Hrev.
  cbn [rev] in Hrev.
  destruct r as [|y r].
  - cbn [rev app] in Hrev.
    rewrite (split_on_single_bounded a sep' (String.length s) s piece
               (le_n _) Hrev) in Hin.
    discriminate Hin.
  - cbn [rev] in Hrev. rewrite <- app_assoc in Hrev. cbn [app] in Hrev.
    rewrite Hrev, join_last in Hjoin.
    eexists. symmetry. exact Hjoin.
Qed.

Context {sys poller : Type}.
Variable client : Client sys poller.
Variables rg reg nm : string.
Variable w : world event sys.

Ltac run_get :=
  unfold pipelinerun.get_pipelinerun;
  cbv beta delta
    [bind try_except ret of_result export_pipelines_get import_pipelines_get
     pipeline_runs_get send emit step];
  cbn [st log].

(** The shapes a successful [get_pipelinerun] can take: the run read
    alone, or followed by one read of a pipeline and, if that read
    returned, by the warnings of the authentication notice. *)
Lemma get_pipelinerun_shape (s' : sys) (r : PipelineRun) :
  get _ _ (pipeline_runs client) rg reg nm (st w) = (s', inr r) ->
  exists s'' evs,
    pipelinerun.get_pipelinerun client rg reg nm w
    = (World s'' (log w ++ Call (PipelineRunsGet rg reg nm) :: evs), inr r) /\
    (evs = [] /\ s'' = s' \/
     exists c tail,
       evs = Call c :: tail /\ (forall c', ~ In (Call c') tail) /\
       ((exists nm', c = ExportPipelinesGet rg reg nm') \/
        (exists nm', c = ImportPipelinesGet rg reg nm'))).
Proof.
  intros Hget. run_get. rewrite Hget. cbn [st log].
  assert (Hnone : exists s'' evs,
            (World s' (log w ++ [Call (PipelineRunsGet rg reg nm)]),
             @inr exn PipelineRun r)
            = (World s'' (log w ++ Call (PipelineRunsGet rg reg nm) :: evs),
               inr r) /\
            (evs = [] /\ s'' = s' \/
             exists c tail,
               evs = Call c :: tail /\ (forall c', ~ In (Call c') tail) /\
               ((exists nm', c = ExportPipelinesGet rg reg nm') \/
                (exists nm', c = ImportPipelinesGet rg reg nm')))).
  { exists s', []. split; [reflexivity | left; now split]. }
  destruct (request r) as [req|]; [|exact Hnone].
  destruct (pipeline_resource_id req) as [id|]; [|exact Hnone].
  destruct (PyStr.truthy id); [|exact Hnone].
  destruct (PyStr.str_in "/exportPipelines/" id).
  - destruct (last_item_split_on "/exportPipelines/" id) as [piece ->].
    cbn [st log].
    destruct (get _ _ (export_pipelines client) rg reg piece s')
      as [s2 [e|p]]; cbn [st log].
    + exists s2, [Call (ExportPipelinesGet rg reg piece)].
      split; [now rewrite <- app_assoc|]. right.
      exists (ExportPipelinesGet rg reg piece), [].
      split; [reflexivity|]. split; [intros c' []|]. left. now exists piece.
    + destruct (display_authentication_method_logs (sys:=sys)
                  match target p with
                  | Some tgt => target_storage_access_mode tgt
                  | None => None
                  end) as (evs & Hw & Hevs).
      rewrite Hevs. cbn [st log].
      exists s2, (Call (ExportPipelinesGet rg reg piece) :: evs).
      split; [now rewrite <- !app_assoc|]. right.
      exists (ExportPipelinesGet rg reg piece), evs.
      split; [reflexivity|]. split; [exact Hw|]. left. now exists piece.
  - destruct (PyStr.str_in "/importPipelines/" id).
    + destruct (last_item_split_on "/importPipelines/" id) as [piece ->].
      cbn [st log].
      destruct (get _ _ (import_pipelines client) rg reg piece s')
        as [s2 [e|p]]; cbn [st log].
      * exists s2, [Call (ImportPipelinesGet rg reg piece)].
        split; [now rewrite <- app_assoc|]. right.
        exists (ImportPipelinesGet rg reg piece), [].
        split; [reflexivity|]. split; [intros c' []|]. right.
        now exists piece.
      * destruct (display_authentication_method_logs (sys:=sys)
                    match source p with
                    | Some src => source_storage_access_mode src
                    | None => None
                    end) as (evs & Hw & Hevs).
        rewrite Hevs. cbn [st log].
        exists s2, (Call (ImportPipelinesGet rg reg piece) :: evs).
        split; [now rewrite <- !app_assoc|]. right.
        exists (ImportPipelinesGet rg reg piece), evs.
        split; [reflexivity|]. split; [exact Hw|]. right. now exists piece.
    + cbn [pipelinerun.display_authentication_method eq_lit].
      exact Hnone.
Qed.

(** X24: [get_pipelinerun] returns or raises exactly what the read of the
    run returns or raises.  An error of that read is passed on as it is,
    not turned into a resource-not-found error; after a successful read the
    command returns the run whatever happens in the look-up of its
    pipeline, which makes at most one further call, a read of an export or
    import pipeline of the same registry, and never creates or deletes
    anything. *)
Theorem get_pipelinerun_returns_the_run (s' : sys) :
  (forall e,
     get _ _ (pipeline_runs client) rg reg nm (st w) = (s', inl e) ->
     pipelinerun.get_pipelinerun client rg reg nm w
     = (World s' (log w ++ [Call (PipelineRunsGet rg reg nm)]), inl e)) /\
  (forall r,
     get _ _ (pipeline_runs client) rg reg nm (st w) = (s', inr r) ->
     exists s'' evs,
       pipelinerun.get_pipelinerun client rg reg nm w
       = (World s'' (log w ++ Call (PipelineRunsGet rg reg nm) :: evs),
          inr r) /\
       (length (Observe.calls evs) <= 1)%nat /\
       forall c, In c (Observe.calls evs) ->
                 (exists nm', c = ExportPipelinesGet rg reg nm') \/
                 (exists nm', c = ImportPipelinesGet rg reg nm')).
Proof.
  split.
  - intros e H. run_get. rewrite H. reflexivity.
  - intros r H.
    destruct (get_pipelinerun_shape s' r H)
      as (s'' & evs & Hrun & [[-> _]|(c & tail & -> & Htail & Hc)]).
    + exists s'', []. split; [exact Hrun|]. split; [cbn; lia|].
      intros c [].
    + exists s'', (Call c :: tail). split; [exact Hrun|].
      cbn [Observe.calls]. rewrite (calls_of_warnings tail Htail).
      split; [cbn; lia|]. intros c' [<-|[]]. exact Hc.
Qed.

(** X25: which pipeline [get_pipelinerun] looks up.  Without a request,
    without a pipeline id, with an empty one, or with an id that holds
    neither "/exportPipelines/" nor "/importPipelines/", the command makes
    no further call and logs nothing.  With an id that holds
    "/exportPipelines/" it reads the export pipeline named by the last
    piece of the id split at "/exportPipelines/", which is the text after
    an occurrence of it, in the resource group and registry of the command,
    also when the id holds "/importPipelines/" as well;
    otherwise, with "/importPipelines/" in the id, it reads the import
    pipeline named in the same way. *)
Theorem get_pipelinerun_looks_up_by_segment (s' : sys) (r : PipelineRun) :
  get _ _ (pipeline_runs client) rg reg nm (st w) = (s', inr r) ->
  ((request r = None \/
    exists req,
      request r = Some req /\
      (truthy_opt (pipeline_resource_id req) = false \/
       exists id,
         pipeline_resource_id req = Some id /\
         PyStr.str_in "/exportPipelines/" id = false /\
         PyStr.str_in "/importPipelines/" id = false)) ->
   pipelinerun.get_pipelinerun client rg reg nm w
   = (World s' (log w ++ [Call (PipelineRunsGet rg reg nm)]), inr r)) /\
  (forall req id,
     request r = Some req -> pipeline_resource_id req = Some id ->
     PyStr.str_in "/exportPipelines/" id = true ->
     exists piece s'' tail,
       pipelinerun.last_item (PyStr.split_on "/exportPipelines/" id)
       = inr piece /\
       (exists before, id = before ++ "/exportPipelines/" ++ piece) /\
       pipelinerun.get_pipelinerun client rg reg nm w
       = (World s''
            (log w ++ Call (PipelineRunsGet rg reg nm)
             :: Call (ExportPipelinesGet rg reg piece) :: tail),
          inr r) /\
       forall c, ~ In (Call c) tail) /\
  (forall req id,
     request r = Some req -> pipeline_resource_id req = Some id ->
     PyStr.str_in "/exportPipelines/" id = false ->
     PyStr.str_in "/importPipelines/" id = true ->
     exists piece s'' tail,
       pipelinerun.last_item (PyStr.split_on "/importPipelines/" id)
       = inr piece /\
       (exists before, id = before ++ "/importPipelines/" ++ piece) /\
       pipelinerun.get_pipelinerun client rg reg nm w
       = (World s''
            (log w ++ Call (PipelineRunsGet rg reg nm)
             :: Call (ImportPipelinesGet rg reg piece) :: tail),
          inr r) /\
       forall c, ~ In (Call c) tail).
Proof.
  intros Hget. split; [|split].
  - intros Hcase. run_get. rewrite Hget. cbn [st log].
    destruct Hcase as [->|(req & -> & [Hfalsy|(id & -> & He & Hi)])].
    + reflexivity.
    + unfold truthy_opt in Hfalsy.
      destruct (pipeline_resource_id req) as [id|]; [|reflexivity].
      now rewrite Hfalsy.
    + rewrite He, Hi. destruct (PyStr.truthy id); reflexivity.
  - intros req id Hreq Hid He.
    assert (Htruthy : PyStr.truthy id = true).
    { destruct id; [discriminate He | reflexivity]. }
    destruct (last_item_split_on "/exportPipelines/" id) as [piece Hpiece].
    pose proof (last_piece_follows_separator _ _ id piece He Hpiece)
      as Hafter.
    exists piece.
    run_get. rewrite Hget. cbn [st log].
    rewrite Hreq, Hid, Htruthy, He, Hpiece. cbn [st log].
    destruct (get _ _ (export_pipelines client) rg reg piece s')
      as [s2 [e|p]]; cbn [st log].
    + exists s2, []. split; [reflexivity|]. split; [exact Hafter|].
      split; [now rewrite <- app_assoc | intros c []].
    + destruct (display_authentication_method_logs (sys:=sys)
                  match target p with
                  | Some tgt => target_storage_access_mode tgt
                  | None => None
                  end) as (evs & Hw & Hevs).
      rewrite Hevs. cbn [st log]. exists s2, evs.
      split; [reflexivity|]. split; [exact Hafter|].
      split; [now rewrite <- !app_assoc | exact Hw].
  - intros req id Hreq Hid He Hi.
    assert (Htruthy : PyStr.truthy id = true).
    { destruct id; [discriminate Hi | reflexivity]. }
    destruct (last_item_split_on "/importPipelines/" id) as [piece Hpiece].
    pose proof (last_piece_follows_separator _ _ id piece Hi Hpiece)
      as Hafter.
    exists piece.
    run_get. rewrite Hget. cbn [st log].
    rewrite Hreq, Hid, Htruthy, He, Hi, Hpiece. cbn [st log].
    destruct (get _ _ (import_pipelines client) rg reg piece s')
      as [s2 [e|p]]; cbn [st log].
    + exists s2, []. split; [reflexivity|]. split; [exact Hafter|].
      split; [now rewrite <- app_assoc | intros c []].
    + destruct (display_authentication_method_logs (sys:=sys)
                  match source p with
                  | Some src => source_storage_access_mode src
                  | None => None
                  end) as (evs & Hw & Hevs).
      rewrite Hevs. cbn [st log]. exists s2, evs.
      split; [reflexivity|]. split; [exact Hafter|].
      split; [now rewrite <- !app_assoc | exact Hw].
Qed.

End GetRunFacts.

Section GetRunWitnesses.

Import sdk.

Lemma get_pipelinerun_returns_the_run_witness :
  pipelinerun.get_pipelinerun Sample.client "rg" "reg" "nope"
    (Sample.start Cases.with_runs)
  = (World Cases.with_runs [Call (PipelineRunsGet "rg" "reg" "nope")],
     inl (Sample.missing "nope")) /\
  snd (pipelinerun.get_pipelinerun Sample.client "rg" "reg" "run2"
         (Sample.start Cases.with_runs))
  = inr Cases.an_orphan_run.
Proof.
  split.
  - apply (proj1 (get_pipelinerun_returns_the_run Sample.client "rg" "reg"
                    "nope" (Sample.start Cases.with_runs) Cases.with_runs)).
    reflexivity.
  - destruct (proj2 (get_pipelinerun_returns_the_run Sample.client "rg" "reg"
                       "run2" (Sample.start Cases.with_runs) Cases.with_runs)
                Cases.an_orphan_run eq_refl)
      as (s'' & evs & -> & _).
    reflexivity.
Defined.

Lemma get_pipelinerun_looks_up_by_segment_witness :
  exists s'' tail,
    pipelinerun.get_pipelinerun Sample.client "rg" "reg" "run1"
      (Sample.start Cases.with_runs)
    = (World s''
         (Call (PipelineRunsGet "rg" "reg" "run1")
          :: Call (ExportPipelinesGet "rg" "reg" "exp") :: tail),
       inr Cases.an_export_run).
Proof.
  destruct (proj1 (proj2 (get_pipelinerun_looks_up_by_segment Sample.client
                            "rg" "reg" "run1" (Sample.start Cases.with_runs)
                            Cases.with_runs Cases.an_export_run eq_refl))
              _ "/registries/reg/exportPipelines/exp" eq_refl eq_refl
              eq_refl)
    as (piece & s'' & tail & Hpiece & _ & Hrun & _).
  injection Hpiece as <-.
  exists s'', tail. exact Hrun.
Defined.

End GetRunWitnesses.
